(** * StrategyDeck: deck synthesis, slide rendering, navigation and export

    A shallow embedding of the TypeScript sources
    - [types.ts]                      (the slide data model),
    - [services/geminiService.ts]     ([generateDeck], [generateInfographic]),
    - [components/DeckRenderer.tsx]   ([SlideContent], [SlideHeader],
                                       [DeckRenderer]),
    - [App.tsx]                       ([App], [handleFileChange],
                                       [removeFile], [handleGenerate],
                                       [reset], [handleBack]),
    together with the fragment of the JavaScript runtime these functions
    call: strings as sequences of UTF-16 code units, numbers as binary64
    values, [JSON.parse], [JSON.stringify] and [encodeURIComponent].

    The first half of the file holds the model, the second half the
    properties proved about it. *)

From Stdlib Require Import List NArith ZArith Bool Ascii String Lia SpecFloat.
From Stdlib Require Import DecimalString.
Import ListNotations.

Set Implicit Arguments.
Set Warnings "-register-all".

(* ===================================================================== *)
(** * Part I: the model                                                    *)
(* ===================================================================== *)

(* --------------------------------------------------------------------- *)
(** ** JavaScript strings and numbers *)

(** A JavaScript string is a finite sequence of 16-bit code units. *)
Abbreviation code_unit := N (only parsing).
Abbreviation jsstring := (list N) (only parsing).

(** String literals of the sources (all of them ASCII) as code units. *)
Definition js (s : string) : jsstring :=
  map N_of_ascii (list_ascii_of_string s).
Arguments js s%_string.

(** [valid_string s]: every element really is a 16-bit code unit. *)
Definition valid_string (s : jsstring) : bool :=
  forallb (fun c => c <? 65536)%N s.

Fixpoint str_eqb (a b : jsstring) : bool :=
  match a, b with
  | [], [] => true
  | c :: a', d :: b' => (c =? d)%N && str_eqb a' b'
  | _, _ => false
  end.

(** [s.startsWith(p)] and [s.includes(p)]. *)
Fixpoint startsWith (s p : jsstring) {struct p} : bool :=
  match p, s with
  | [], _ => true
  | c :: p', d :: s' => (c =? d)%N && startsWith s' p'
  | _ :: _, [] => false
  end.

Fixpoint includes (s search : jsstring) : bool :=
  startsWith s search ||
  match s with
  | [] => false
  | _ :: s' => includes s' search
  end.

(** A JavaScript number is an IEEE 754 binary64 value. *)
Abbreviation number := spec_float (only parsing).

Definition prec64 : Z := 53.
Definition emax64 : Z := 1024.

(** The number denoted by an integer literal. *)
Definition num (z : Z) : number := binary_normalize prec64 emax64 z 0 false.

Definition number_eqb (x y : number) : bool :=
  match x, y with
  | S754_zero a, S754_zero b => Bool.eqb a b
  | S754_infinity a, S754_infinity b => Bool.eqb a b
  | S754_nan, S754_nan => true
  | S754_finite a m e, S754_finite b m' e' =>
      Bool.eqb a b && (m =? m')%positive && (e =? e')%Z
  | _, _ => false
  end.

Definition isFinite (x : number) : bool :=
  match x with
  | S754_zero _ | S754_finite _ _ _ => true
  | _ => false
  end.

(** [ToBoolean]: [0], [-0] and [NaN] are falsy, as is the empty string and
    [undefined] (an absent optional value). *)
Definition truthy_number (x : number) : bool :=
  match x with
  | S754_zero _ | S754_nan => false
  | _ => true
  end.

Definition truthy_string (s : jsstring) : bool :=
  match s with
  | [] => false
  | _ :: _ => true
  end.

Definition truthy_opt_string (o : option jsstring) : bool :=
  match o with
  | Some s => truthy_string s
  | None => false
  end.

(** [a || b] on possibly undefined strings. *)
Definition or_string (a b : option jsstring) : option jsstring :=
  if truthy_opt_string a then a else b.

(** [xs?.[0]] on a possibly undefined array. *)
Definition first_of {A : Type} (xs : option (list A)) : option A :=
  match xs with
  | Some (x :: _) => Some x
  | _ => None
  end.

(** [xs[i]] for an integer-valued index: [undefined] out of range. *)
Definition index {A : Type} (xs : list A) (i : Z) : option A :=
  if (i <? 0)%Z then None else nth_error xs (Z.to_nat i).

(* --------------------------------------------------------------------- *)
(** ** types.ts *)

(** [enum SlideLayout]: a string enum, so a layout is a string at run time
    and the members are string constants. *)
Module SlideLayout.
Definition TITLE : jsstring := js "TITLE".
Definition BULLET_POINTS : jsstring := js "BULLET_POINTS".
Definition TWO_COLUMN : jsstring := js "TWO_COLUMN".
Definition CHART_BAR : jsstring := js "CHART_BAR".
Definition CHART_LINE : jsstring := js "CHART_LINE".
Definition KPI_GRID : jsstring := js "KPI_GRID".
End SlideLayout.

Record ChartPoint := {
  label : jsstring;
  value : number;
  value2 : option number     (* For comparison *)
}.

Record KpiEntry := {
  kpi_label : jsstring;
  kpi_value : jsstring;
  delta : jsstring
}.

Record Content := {
  bullets : option (list jsstring);
  leftColumn : option (list jsstring);
  rightColumn : option (list jsstring);
  chartData : option (list ChartPoint);
  chartTitle : option jsstring;
  chartXLabel : option jsstring;
  chartYLabel : option jsstring;
  kpiData : option (list KpiEntry)
}.

Record Slide := {
  slide_id : jsstring;
  layout : jsstring;
  tracker : jsstring;
  actionTitle : jsstring;
  kicker : jsstring;
  content : Content;
  speakerNotes : jsstring
}.

Record Deck := {
  title : jsstring;
  subtitle : jsstring;
  author : jsstring;
  slides : list Slide
}.

Record FileInput := {
  file_name : jsstring;
  file_type : jsstring;
  file_data : jsstring       (* Base64 *)
}.

(* --------------------------------------------------------------------- *)
(** ** components/DeckRenderer.tsx: the element tree *)

(** What a component returns: elements with a tag, the attributes that
    carry data, and children.  The static styling classes of the sources
    are left out; a [className] computed from the data is kept.  A child
    written [{e}] in JSX is the value of [e]: a string, a number, an
    element, or [undefined], which renders nothing. *)
Inductive AttrValue :=
| AString (s : jsstring)
| AData (d : option (list ChartPoint)).

Inductive VNode :=
| Element (tag : string) (attrs : list (string * AttrValue))
          (children : list VNode)
| Text (s : jsstring)
| NumberChild (x : number)
| Nothing.

Definition El (tag : string) (children : list VNode) : VNode :=
  Element tag [] children.
Arguments El tag%_string children.

Definition attr (name : string) (v : AttrValue) : string * AttrValue :=
  (name, v).
Arguments attr name%_string v.
Arguments Element tag%_string attrs children.

(** [{e}] for a possibly undefined string. *)
Definition child_string (o : option jsstring) : VNode :=
  match o with
  | Some s => Text s
  | None => Nothing
  end.

(** [{xs?.map(f)}]. *)
Definition child_map {A : Type} (f : A -> VNode) (xs : option (list A))
  : list VNode :=
  match xs with
  | Some l => map f l
  | None => [Nothing]
  end.

Definition bullet : jsstring := [8226%N].   (* U+2022 *)

Definition BulletList (items : option (list jsstring)) : VNode :=
  El "ul"
    (child_map
       (fun item => El "li" [El "span" [Text bullet]; El "span" [Text item]])
       items).

Definition SlideHeader (slide : Slide) : VNode :=
  El "div"
    [El "div"
       [El "div"
          [El "div" [Text (kicker slide)];
           El "h2" [Text (actionTitle slide)]];
        El "div"
          [El "div" [Text (tracker slide)]]]].

(** The subheading of a cover slide:
    [slide.content.chartTitle || slide.content.bullets?.[0]]. *)
Definition titleSubheading (slide : Slide) : option jsstring :=
  or_string (chartTitle (content slide)) (first_of (bullets (content slide))).

(** The second series of a bar chart:
    [slide.content.chartData?.[0]?.value2 && <Bar dataKey="value2" ... />]. *)
Definition Bar (key : string) (fill : string) : VNode :=
  Element "Bar" [attr "dataKey" (AString (js key)); attr "fill" (AString (js fill))] [].
Arguments Bar key%_string fill%_string.

Definition first_value2 (slide : Slide) : option number :=
  match first_of (chartData (content slide)) with
  | Some p => value2 p
  | None => None
  end.

Definition secondSeries (slide : Slide) : VNode :=
  match first_value2 slide with
  | None => Nothing
  | Some x => if truthy_number x then Bar "value2" "#0F766E" else NumberChild x
  end.

(** The class of a KPI delta badge, a template literal:
    [`text-sm ... rounded-full ${kpi.delta.includes('+') ? green : red}`]. *)
Definition badge_base : jsstring :=
  js "text-sm font-medium px-3 py-1 rounded-full ".
Definition badge_positive : jsstring := js "bg-green-100 text-green-800".
Definition badge_negative : jsstring := js "bg-red-100 text-red-800".

Definition badgeClass (kpi : KpiEntry) : jsstring :=
  badge_base ++
  (if includes (delta kpi) (js "+") then badge_positive else badge_negative).

Definition KpiCard (kpi : KpiEntry) : VNode :=
  El "div"
    [El "div" [];
     El "span" [Text (kpi_label kpi)];
     El "span" [Text (kpi_value kpi)];
     Element "div" [attr "className" (AString (badgeClass kpi))]
       [Text (delta kpi); Text (js " vs LY")]].

Section Render.

(** [new Date().getFullYear()] at the time of rendering. *)
Variable fullYear : number.

(** [SlideContent]: the [switch (slide.layout)]. *)
Definition SlideContent (slide : Slide) : VNode :=
  if str_eqb (layout slide) SlideLayout.TITLE then
    El "div"
      [El "div" [];
       El "h1" [Text (actionTitle slide)];
       El "p" [child_string (titleSubheading slide)];
       El "div" [Text (js "CONFIDENTIAL ") ; Text bullet; Text (js " ");
                 NumberChild fullYear]]
  else if str_eqb (layout slide) SlideLayout.BULLET_POINTS then
    El "div"
      [SlideHeader slide;
       El "div" [BulletList (bullets (content slide))]]
  else if str_eqb (layout slide) SlideLayout.TWO_COLUMN then
    El "div"
      [SlideHeader slide;
       El "div"
         [El "div" [El "h3" [Text (js "Key Drivers")];
                    BulletList (leftColumn (content slide))];
          El "div" [El "h3" [Text (js "Implications")];
                    BulletList (rightColumn (content slide))]]]
  else if str_eqb (layout slide) SlideLayout.CHART_BAR then
    El "div"
      [SlideHeader slide;
       El "div"
         [El "h4" [child_string (chartTitle (content slide))];
          El "div"
            [El "ResponsiveContainer"
               [Element "BarChart"
                  [attr "data" (AData (chartData (content slide)));
                   attr "layout" (AString (js "vertical"))]
                  [El "CartesianGrid" [];
                   Element "XAxis" [attr "type" (AString (js "number"))] [];
                   Element "YAxis" [attr "dataKey" (AString (js "label"));
                                    attr "type" (AString (js "category"))] [];
                   El "Tooltip" [];
                   Bar "value" "#0F172A";
                   secondSeries slide]]];
          El "div"
            [Text (js "Source: Internal Analysis; Market Data 2024")]]]
  else if str_eqb (layout slide) SlideLayout.CHART_LINE then
    El "div"
      [SlideHeader slide;
       El "div"
         [El "h4" [child_string (chartTitle (content slide))];
          El "div"
            [El "ResponsiveContainer"
               [Element "LineChart"
                  [attr "data" (AData (chartData (content slide)))]
                  [El "CartesianGrid" [];
                   Element "XAxis" [attr "dataKey" (AString (js "label"))] [];
                   El "YAxis" [];
                   El "Tooltip" [];
                   Element "Line" [attr "type" (AString (js "monotone"));
                                   attr "dataKey" (AString (js "value"));
                                   attr "stroke" (AString (js "#0F766E"))] []]]];
          El "div" [Text (js "Source: Projections Q1-Q4")]]]
  else if str_eqb (layout slide) SlideLayout.KPI_GRID then
    El "div"
      [SlideHeader slide;
       El "div" (child_map KpiCard (kpiData (content slide)))]
  else
    El "div" [Text (js "Unsupported Layout")].

End Render.

(** The series a chart draws: the [dataKey]s of the [Bar] elements among
    the children of its [BarChart], in order. *)
Definition bar_key (n : VNode) : list jsstring :=
  match n with
  | Element "Bar"%string (("dataKey"%string, AString k) :: _) _ => [k]
  | _ => []
  end.

Fixpoint bar_series (n : VNode) : list jsstring :=
  match n with
  | Element "BarChart"%string _ children => flat_map bar_key children
  | Element _ _ children => flat_map bar_series children
  | _ => []
  end.

(* --------------------------------------------------------------------- *)
(** ** components/DeckRenderer.tsx: navigation *)

(** [deck.slides.length] *)
Definition slideCount (deck : Deck) : Z := Z.of_nat (List.length (slides deck)).

(** The state updates passed to [setCurrentSlideIndex]. *)
Definition nextSlide (deck : Deck) (p : Z) : Z :=
  Z.min (p + 1) (slideCount deck - 1).

Definition prevSlide (p : Z) : Z := Z.max (p - 1) 0.

(** What the user can do to the cursor: press a key, or click one of the
    two toolbar buttons (a disabled button fires no handler). *)
Inductive Action :=
| KeyDown (key : jsstring)
| ClickPrev
| ClickNext.

Definition handleKeyDown (deck : Deck) (key : jsstring) (p : Z) : Z :=
  let p := if str_eqb key (js "ArrowRight") then nextSlide deck p else p in
  if str_eqb key (js "ArrowLeft") then prevSlide p else p.

Definition step (deck : Deck) (p : Z) (a : Action) : Z :=
  match a with
  | KeyDown key => handleKeyDown deck key p
  | ClickPrev => if (p =? 0)%Z then p else prevSlide p
  | ClickNext => if (p =? slideCount deck - 1)%Z then p else nextSlide deck p
  end.

(** [useState(0)], then any sequence of actions. *)
Definition initialIndex : Z := 0.

Definition run (deck : Deck) (p : Z) (actions : list Action) : Z :=
  fold_left (step deck) actions p.

(** The footer of the main stage, left out on a cover slide:
    [{slide.layout !== SlideLayout.TITLE && (<div>...</div>)}]. *)
Definition Footer (deck : Deck) (currentSlideIndex : Z) (slide : Slide)
  : VNode :=
  if negb (str_eqb (layout slide) SlideLayout.TITLE) then
    El "div"
      [El "span" [Text (title deck); Text (js " "); Text bullet;
                  Text (js " "); Text (author deck)];
       El "span" [NumberChild (num (currentSlideIndex + 1))]]
  else Nothing.

(** The main stage: [<SlideContent slide={deck.slides[currentSlideIndex]} />]
    and the footer, which reads [deck.slides[currentSlideIndex].layout].
    Reading [.layout] of [undefined] is a TypeError, here [None]. *)
Definition stage (fullYear : number) (deck : Deck) (currentSlideIndex : Z)
  : option (list VNode) :=
  match index (slides deck) currentSlideIndex with
  | Some slide =>
      Some [SlideContent fullYear slide; Footer deck currentSlideIndex slide]
  | None => None
  end.

(* --------------------------------------------------------------------- *)
(** ** JSON values

    The values [JSON.parse] produces: [null], booleans, numbers, strings,
    arrays, and objects with their own properties in property order. *)

Inductive JsValue :=
| JNull
| JBool (b : bool)
| JNumber (x : number)
| JString (s : jsstring)
| JArray (elements : list JsValue)
| JObject (props : list (jsstring * JsValue)).

Definition is_digit (c : code_unit) : bool := ((48 <=? c) && (c <=? 57))%N.

Definition is_nil {A : Type} (l : list A) : bool :=
  match l with
  | [] => true
  | _ :: _ => false
  end.

(** The value of a string of decimal digits. *)
Definition digits_to_N (ds : jsstring) : N :=
  fold_left (fun acc c => acc * 10 + (c - 48))%N ds 0%N.

(** Property order of an ordinary object: array indices (canonical
    numeric strings below [2^32 - 1]) in ascending order, then the other
    keys in the order they were created. *)
Definition array_index (k : jsstring) : option N :=
  match k with
  | [] => None
  | c :: r =>
      if forallb is_digit k && negb ((c =? 48)%N && negb (is_nil r)) then
        if (digits_to_N k <? 4294967295)%N then Some (digits_to_N k) else None
      else None
  end.

Abbreviation props := (list (list N * JsValue)) (only parsing).

Fixpoint has_key (o : props) (k : jsstring) : bool :=
  match o with
  | [] => false
  | (k', _) :: o' => str_eqb k' k || has_key o' k
  end.

Fixpoint replace_prop (o : props) (k : jsstring) (v : JsValue) : props :=
  match o with
  | [] => []
  | (k', v') :: o' =>
      if str_eqb k' k then (k', v) :: o' else (k', v') :: replace_prop o' k v
  end.

Fixpoint insert_index (o : props) (i : N) (k : jsstring) (v : JsValue)
  : props :=
  match o with
  | [] => [(k, v)]
  | (k', v') :: o' =>
      match array_index k' with
      | Some j => if (j <? i)%N then (k', v') :: insert_index o' i k v
                  else (k, v) :: o
      | None => (k, v) :: o
      end
  end.

(** [CreateDataProperty(o, k, v)] *)
Definition set_prop (o : props) (k : jsstring) (v : JsValue) : props :=
  if has_key o k then replace_prop o k v
  else match array_index k with
       | Some i => insert_index o i k v
       | None => o ++ [(k, v)]
       end.

Definition create_object (members : props) : props :=
  fold_left (fun o kv => set_prop o (fst kv) (snd kv)) members [].

(** [o.k]: the value of an own property, if there is one. *)
Fixpoint get_prop (o : props) (k : jsstring) : option JsValue :=
  match o with
  | [] => None
  | (k', v) :: o' => if str_eqb k' k then Some v else get_prop o' k
  end.

(* --------------------------------------------------------------------- *)
(** ** Reading numbers *)

(** The binary64 value nearest to [m * 10^e] (ties to even), the value of
    a decimal literal. *)
Definition decimal_to_number (neg : bool) (m : N) (e : Z) : number :=
  match m with
  | N0 => S754_zero neg
  | Npos p =>
      if (0 <=? e)%Z then
        binary_round prec64 emax64 neg (p * Z.to_pos (10 ^ e))%positive 0
      else
        SFdiv prec64 emax64
          (S754_finite neg p 0)
          (S754_finite false (Z.to_pos (10 ^ (- e))) 0)
  end.

Fixpoint take_digits (s : jsstring) : jsstring * jsstring :=
  match s with
  | c :: r =>
      if is_digit c then let (ds, rest) := take_digits r in (c :: ds, rest)
      else ([], s)
  | [] => ([], [])
  end.

(** The JSON number grammar on a whole token: an optional minus sign; an
    integer part, either 0 or digits not starting with 0; an optional
    fraction, a point and at least one digit; an optional exponent, e or E,
    an optional sign and at least one digit. *)
Definition parse_exponent (t : jsstring) : option (Z * jsstring) :=
  match t with
  | c :: r =>
      if ((c =? 101) || (c =? 69))%N then
        let (neg, r1) :=
          match r with
          | d :: r' => if (d =? 43)%N then (false, r')
                       else if (d =? 45)%N then (true, r')
                       else (false, r)
          | [] => (false, r)
          end in
        let (ds, rest) := take_digits r1 in
        if is_nil ds then None
        else Some (if neg then (- Z.of_N (digits_to_N ds))%Z
                   else Z.of_N (digits_to_N ds), rest)
      else Some (0%Z, t)
  | [] => Some (0%Z, [])
  end.

Definition parse_fraction (t : jsstring) : option (jsstring * jsstring) :=
  match t with
  | c :: r =>
      if (c =? 46)%N then
        let (ds, rest) := take_digits r in
        if is_nil ds then None else Some (ds, rest)
      else Some ([], t)
  | [] => Some ([], [])
  end.

Definition parse_number_token (t : jsstring) : option number :=
  let (neg, t1) :=
    match t with
    | c :: r => if (c =? 45)%N then (true, r) else (false, t)
    | [] => (false, t)
    end in
  let (int, t2) := take_digits t1 in
  match int with
  | [] => None
  | d :: ds =>
      if (d =? 48)%N && negb (is_nil ds) then None
      else
        match parse_fraction t2 with
        | Some (frac, t3) =>
            match parse_exponent t3 with
            | Some (ex, []) =>
                Some (decimal_to_number neg (digits_to_N (int ++ frac))
                        (ex - Z.of_nat (List.length frac)))
            | _ => None
            end
        | None => None
        end
  end.

Definition is_number_char (c : code_unit) : bool :=
  (is_digit c || (c =? 45) || (c =? 43) || (c =? 46) || (c =? 101)
   || (c =? 69))%N.

(** The longest prefix made of the characters a number is written with;
    in a JSON text a number is never followed by one of them. *)
Fixpoint span_number (s : jsstring) : jsstring * jsstring :=
  match s with
  | c :: r =>
      if is_number_char c then let (t, rest) := span_number r in (c :: t, rest)
      else ([], s)
  | [] => ([], [])
  end.

(* --------------------------------------------------------------------- *)
(** ** JSON.parse *)

Definition is_ws (c : code_unit) : bool :=
  ((c =? 32) || (c =? 9) || (c =? 10) || (c =? 13))%N.

Fixpoint skip_ws (s : jsstring) : jsstring :=
  match s with
  | c :: r => if is_ws c then skip_ws r else s
  | [] => []
  end.

Definition hex_val (c : code_unit) : option N :=
  if is_digit c then Some (c - 48)%N
  else if ((97 <=? c) && (c <=? 102))%N then Some (c - 87)%N
  else if ((65 <=? c) && (c <=? 70))%N then Some (c - 55)%N
  else None.

Definition hex4 (a b c d : code_unit) : option code_unit :=
  match hex_val a, hex_val b, hex_val c, hex_val d with
  | Some x, Some y, Some z, Some w => Some (((x * 16 + y) * 16 + z) * 16 + w)%N
  | _, _, _, _ => None
  end.

(** The character a single-character escape stands for. *)
Definition unescape (e : code_unit) : option code_unit :=
  if (e =? 34)%N then Some 34%N            (* quotation mark *)
  else if (e =? 92)%N then Some 92%N       (* backslash *)
  else if (e =? 47)%N then Some 47%N       (* slash *)
  else if (e =? 98)%N then Some 8%N        (* b *)
  else if (e =? 102)%N then Some 12%N      (* f *)
  else if (e =? 110)%N then Some 10%N      (* n *)
  else if (e =? 114)%N then Some 13%N      (* r *)
  else if (e =? 116)%N then Some 9%N       (* t *)
  else None.

(** A string, after its opening quotation mark. *)
Fixpoint parse_string (s : jsstring) : option (jsstring * jsstring) :=
  match s with
  | [] => None
  | c :: r =>
      if (c =? 34)%N then Some ([], r)
      else if (c =? 92)%N then
        match r with
        | e :: r' =>
            if (e =? 117)%N then
              match r' with
              | h1 :: h2 :: h3 :: h4 :: r'' =>
                  match hex4 h1 h2 h3 h4, parse_string r'' with
                  | Some u, Some (str, rest) => Some (u :: str, rest)
                  | _, _ => None
                  end
              | _ => None
              end
            else
              match unescape e, parse_string r' with
              | Some u, Some (str, rest) => Some (u :: str, rest)
              | _, _ => None
              end
        | [] => None
        end
      else if (c <? 32)%N then None
      else
        match parse_string r with
        | Some (str, rest) => Some (c :: str, rest)
        | None => None
        end
  end.

Definition parse_number (s : jsstring) : option (JsValue * jsstring) :=
  let (t, rest) := span_number s in
  match parse_number_token t with
  | Some x => Some (JNumber x, rest)
  | None => None
  end.

(** Recursive descent over the JSON grammar.  [fuel] bounds the depth of
    the recursion; a text never needs more than its length. *)
Fixpoint parse_value (fuel : nat) (s : jsstring) {struct fuel}
  : option (JsValue * jsstring) :=
  match fuel with
  | O => None
  | S fuel' =>
      match skip_ws s with
      | [] => None
      | c :: r =>
          if (c =? 34)%N then
            match parse_string r with
            | Some (str, rest) => Some (JString str, rest)
            | None => None
            end
          else if (c =? 91)%N then
            match skip_ws r with
            | d :: r' =>
                if (d =? 93)%N then Some (JArray [], r')
                else match parse_elements fuel' r with
                     | Some (vs, rest) => Some (JArray vs, rest)
                     | None => None
                     end
            | [] => None
            end
          else if (c =? 123)%N then
            match skip_ws r with
            | d :: r' =>
                if (d =? 125)%N then Some (JObject [], r')
                else match parse_members fuel' r with
                     | Some (kvs, rest) =>
                         Some (JObject (create_object kvs), rest)
                     | None => None
                     end
            | [] => None
            end
          else if startsWith (c :: r) (js "true") then
            Some (JBool true, skipn 4 (c :: r))
          else if startsWith (c :: r) (js "false") then
            Some (JBool false, skipn 5 (c :: r))
          else if startsWith (c :: r) (js "null") then
            Some (JNull, skipn 4 (c :: r))
          else if (c =? 45)%N || is_digit c then parse_number (c :: r)
          else None
      end
  end
with parse_elements (fuel : nat) (s : jsstring) {struct fuel}
  : option (list JsValue * jsstring) :=
  match fuel with
  | O => None
  | S fuel' =>
      match parse_value fuel' s with
      | Some (v, rest) =>
          match skip_ws rest with
          | c :: r =>
              if (c =? 44)%N then
                match parse_elements fuel' r with
                | Some (vs, rest') => Some (v :: vs, rest')
                | None => None
                end
              else if (c =? 93)%N then Some ([v], r)
              else None
          | [] => None
          end
      | None => None
      end
  end
with parse_members (fuel : nat) (s : jsstring) {struct fuel}
  : option (props * jsstring) :=
  match fuel with
  | O => None
  | S fuel' =>
      match skip_ws s with
      | c :: r =>
          if (c =? 34)%N then
            match parse_string r with
            | Some (k, rest) =>
                match skip_ws rest with
                | c2 :: r2 =>
                    if (c2 =? 58)%N then
                      match parse_value fuel' r2 with
                      | Some (v, rest2) =>
                          match skip_ws rest2 with
                          | c3 :: r3 =>
                              if (c3 =? 44)%N then
                                match parse_members fuel' r3 with
                                | Some (kvs, rest3) =>
                                    Some ((k, v) :: kvs, rest3)
                                | None => None
                                end
                              else if (c3 =? 125)%N then Some ([(k, v)], r3)
                              else None
                          | [] => None
                          end
                      | None => None
                      end
                    else None
                | [] => None
                end
            | None => None
            end
          else None
      | [] => None
      end
  end.

(** [JSON.parse(text)]; [None] stands for the SyntaxError it throws. *)
Definition JSON_parse (text : jsstring) : option JsValue :=
  match parse_value (S (List.length text)) text with
  | Some (v, rest) =>
      match skip_ws rest with
      | [] => Some v
      | _ :: _ => None
      end
  | None => None
  end.

(** The quotation mark, and a string literal in a JSON text. *)
Definition quote : jsstring := [34%N].
Definition quoted (s : string) : jsstring := quote ++ js s ++ quote.
Arguments quoted s%_string.

(* --------------------------------------------------------------------- *)
(** ** Writing numbers: Number::toString *)

(** Decimal digits of a natural number. *)
Definition N_to_js (n : N) : jsstring :=
  js (NilEmpty.string_of_uint (N.to_uint n)).

(** A positive finite number [m * 2^e] as a fraction. *)
Definition fraction_of (m : positive) (e : Z) : Z * Z :=
  if (0 <=? e)%Z then (Z.pos m * 2 ^ e, 1)%Z else (Z.pos m, 2 ^ (- e))%Z.

(** [p / q < 10^n] *)
Definition below_pow10 (p q n : Z) : bool :=
  if (0 <=? n)%Z then (p <? q * 10 ^ n)%Z else (p * 10 ^ (- n) <? q)%Z.

(** The least [n] from [n0] on with [p / q < 10^n]. *)
Fixpoint magnitude (fuel : nat) (p q n0 : Z) : Z :=
  match fuel with
  | O => n0
  | S fuel' =>
      if below_pow10 p q n0 then n0 else magnitude fuel' p q (n0 + 1)%Z
  end.

(** [floor ((p / q) / 10^t)] *)
Definition scaled_floor (p q t : Z) : Z :=
  if (0 <=? t)%Z then (p / (q * 10 ^ t))%Z else ((p * 10 ^ (- t)) / q)%Z.

(** How [p / q] compares with the midpoint [(s + 1/2) * 10^t]. *)
Definition compare_midpoint (p q s t : Z) : comparison :=
  if (0 <=? t)%Z then (2 * p ?= (2 * s + 1) * 10 ^ t * q)%Z
  else (2 * p * 10 ^ (- t) ?= (2 * s + 1) * q)%Z.

(** The digits [s] with [k] digits that denote [x] at scale
    [10^(n - k)], if there are any: of the two candidates around [x] one
    that reads back as [x], the nearer one when both do. *)
Definition digits_at (x : number) (p q n : Z) (k : Z) : option Z :=
  let t := (n - k)%Z in
  let lo := scaled_floor p q t in
  let hi := (lo + 1)%Z in
  let ok s := number_eqb (decimal_to_number false (Z.to_N s) t) x in
  match ok lo, ok hi with
  | true, true =>
      match compare_midpoint p q lo t with
      | Lt => Some lo
      | Gt => Some hi
      | Eq => Some (if Z.even lo then lo else hi)
      end
  | true, false => Some lo
  | false, true => Some hi
  | false, false => None
  end.

(** The shortest digits: the least [k] from [k0] on that has some. *)
Fixpoint shortest_digits (fuel : nat) (x : number) (p q n k0 : Z)
  : option (Z * Z) :=
  match fuel with
  | O => None
  | S fuel' =>
      match digits_at x p q n k0 with
      | Some s => Some (s, k0)
      | None => shortest_digits fuel' x p q n (k0 + 1)%Z
      end
  end.

Definition zeros (n : Z) : jsstring := repeat 48%N (Z.to_nat n).

(** The notation for digits [ds] (there are [k] of them) and exponent
    [n]: the value is [0.ds * 10^n]. *)
Definition format_digits (ds : jsstring) (k n : Z) : jsstring :=
  if ((k <=? n) && (n <=? 21))%Z then ds ++ zeros (n - k)
  else if ((0 <? n) && (n <=? 21))%Z then
    firstn (Z.to_nat n) ds ++ js "." ++ skipn (Z.to_nat n) ds
  else if ((-6 <? n) && (n <=? 0))%Z then js "0." ++ zeros (- n) ++ ds
  else
    let e := (n - 1)%Z in
    let exponent :=
      js "e" ++ (if (e <? 0)%Z then js "-" else js "+")
      ++ N_to_js (Z.to_N (Z.abs e)) in
    match ds with
    | [d] => [d] ++ exponent
    | d :: rest => [d] ++ js "." ++ rest ++ exponent
    | [] => exponent
    end.

Definition positive_to_string (m : positive) (e : Z) : jsstring :=
  let x := S754_finite false m e in
  let (p, q) := fraction_of m e in
  let n := magnitude 700 p q (-330) in
  match shortest_digits 17 x p q n 1 with
  | Some (s, k) =>
      if (s =? 10 ^ k)%Z then format_digits (js "1") 1 (n + 1)
      else format_digits (N_to_js (Z.to_N s)) k n
  | None => format_digits (N_to_js (Z.to_N (scaled_floor p q (n - 17)))) 17 n
  end.

(** [Number::toString(x)], radix 10. *)
Definition NumberToString (x : number) : jsstring :=
  match x with
  | S754_nan => js "NaN"
  | S754_zero _ => js "0"
  | S754_infinity false => js "Infinity"
  | S754_infinity true => js "-Infinity"
  | S754_finite false m e => positive_to_string m e
  | S754_finite true m e => js "-" ++ positive_to_string m e
  end.


(* --------------------------------------------------------------------- *)
(** ** JSON.stringify(value, null, 2) *)

Definition hex_digit (d : N) : code_unit :=
  if (d <? 10)%N then (48 + d)%N else (87 + d)%N.

(** [\uXXXX], with lower-case digits. *)
Definition unicode_escape (c : code_unit) : jsstring :=
  [92; 117; hex_digit (c / 4096); hex_digit ((c / 256) mod 16);
   hex_digit ((c / 16) mod 16); hex_digit (c mod 16)]%N.

Definition is_high_surrogate (c : code_unit) : bool :=
  ((55296 <=? c) && (c <=? 56319))%N.

Definition is_low_surrogate (c : code_unit) : bool :=
  ((56320 <=? c) && (c <=? 57343))%N.

(** One code point that is not a surrogate. *)
Definition quote_char (c : code_unit) : jsstring :=
  if (c =? 8)%N then [92; 98]%N
  else if (c =? 9)%N then [92; 116]%N
  else if (c =? 10)%N then [92; 110]%N
  else if (c =? 12)%N then [92; 102]%N
  else if (c =? 13)%N then [92; 114]%N
  else if (c =? 34)%N then [92; 34]%N
  else if (c =? 92)%N then [92; 92]%N
  else if (c <? 32)%N then unicode_escape c
  else [c].

(** The string is read by code points: a surrogate pair is copied, a
    lone surrogate is escaped. *)
Fixpoint quote_chars (s : jsstring) : jsstring :=
  match s with
  | [] => []
  | c :: r =>
      if is_high_surrogate c then
        match r with
        | d :: r' =>
            if is_low_surrogate d then c :: d :: quote_chars r'
            else unicode_escape c ++ quote_chars r
        | [] => unicode_escape c
        end
      else if is_low_surrogate c then unicode_escape c ++ quote_chars r
      else quote_char c ++ quote_chars r
  end.

Definition QuoteJSONString (s : jsstring) : jsstring :=
  quote ++ quote_chars s ++ quote.

Fixpoint join (sep : jsstring) (l : list jsstring) : jsstring :=
  match l with
  | [] => []
  | x :: xs =>
      match xs with
      | [] => x
      | _ :: _ => x ++ sep ++ join sep xs
      end
  end.

(** The gap: [space = 2] makes it two spaces. *)
Definition gap : jsstring := js "  ".
Definition newline : jsstring := [10%N].

Fixpoint SerializeJSONProperty (indent : jsstring) (v : JsValue) {struct v}
  : jsstring :=
  match v with
  | JNull => js "null"
  | JBool b => if b then js "true" else js "false"
  | JNumber x => if isFinite x then NumberToString x else js "null"
  | JString s => QuoteJSONString s
  | JArray elements =>
      match elements with
      | [] => js "[]"
      | _ :: _ =>
          js "[" ++ newline ++ (indent ++ gap)
          ++ join (js "," ++ newline ++ (indent ++ gap))
               (map (SerializeJSONProperty (indent ++ gap)) elements)
          ++ newline ++ indent ++ js "]"
      end
  | JObject members =>
      match members with
      | [] => js "{}"
      | _ :: _ =>
          js "{" ++ newline ++ (indent ++ gap)
          ++ join (js "," ++ newline ++ (indent ++ gap))
               (map (fun kv =>
                       QuoteJSONString (fst kv) ++ js ":" ++ js " "
                       ++ SerializeJSONProperty (indent ++ gap) (snd kv))
                    members)
          ++ newline ++ indent ++ js "}"
      end
  end.

Definition JSON_stringify (v : JsValue) : jsstring :=
  SerializeJSONProperty [] v.

(* --------------------------------------------------------------------- *)
(** ** encodeURIComponent and decodeURIComponent *)

(** The characters [encodeURIComponent] leaves as they are: letters,
    digits, and the marks [- _ . ! ~ * ' ( )]. *)
Definition is_unreserved (c : code_unit) : bool :=
  (((65 <=? c) && (c <=? 90)) || ((97 <=? c) && (c <=? 122))
   || ((48 <=? c) && (c <=? 57))
   || (c =? 45) || (c =? 95) || (c =? 46) || (c =? 33) || (c =? 126)
   || (c =? 42) || (c =? 39) || (c =? 40) || (c =? 41))%N.

Definition upper_hex (d : N) : code_unit :=
  if (d <? 10)%N then (48 + d)%N else (55 + d)%N.

(** An octet as [%XX]. *)
Definition percent (b : N) : jsstring :=
  [37; upper_hex (b / 16); upper_hex (b mod 16)]%N.

(** The octets of a code point in UTF-8. *)
Definition utf8 (cp : N) : list N :=
  (if cp <? 128 then [cp]
   else if cp <? 2048 then [192 + cp / 64; 128 + cp mod 64]
   else if cp <? 65536 then
     [224 + cp / 4096; 128 + (cp / 64) mod 64; 128 + cp mod 64]
   else
     [240 + cp / 262144; 128 + (cp / 4096) mod 64; 128 + (cp / 64) mod 64;
      128 + cp mod 64])%N.

Definition escape_code_point (cp : N) : jsstring := flat_map percent (utf8 cp).

(** The code point of a surrogate pair. *)
Definition pair_code_point (hi lo : code_unit) : N :=
  (65536 + (hi - 55296) * 1024 + (lo - 56320))%N.

Definition prepend (a : jsstring) (o : option jsstring) : option jsstring :=
  match o with
  | Some s => Some (a ++ s)
  | None => None
  end.

(** [encodeURIComponent(s)]; [None] stands for the URIError thrown on a
    lone surrogate. *)
Fixpoint encodeURIComponent (s : jsstring) : option jsstring :=
  match s with
  | [] => Some []
  | c :: r =>
      if is_unreserved c then prepend [c] (encodeURIComponent r)
      else if is_low_surrogate c then None
      else if is_high_surrogate c then
        match r with
        | d :: r' =>
            if is_low_surrogate d then
              prepend (escape_code_point (pair_code_point c d))
                      (encodeURIComponent r')
            else None
        | [] => None
        end
      else prepend (escape_code_point c) (encodeURIComponent r)
  end.





(* --------------------------------------------------------------------- *)
(** ** components/DeckRenderer.tsx: export *)

Definition exportPrefix : jsstring := js "data:text/json;charset=utf-8,".

(** The [href] of the download link made by the "Export JSON" button:
    ["data:text/json;charset=utf-8," +
     encodeURIComponent(JSON.stringify(deck, null, 2))]. *)
Definition exportDeck (deck : JsValue) : option jsstring :=
  prepend exportPrefix (encodeURIComponent (JSON_stringify deck)).


(* --------------------------------------------------------------------- *)
(** ** Values of the running program

    The type [JsValue] is wider than the values a program can hold: an
    object keeps its properties in property order, with distinct keys. *)






(** Every string in the value is made of 16-bit code units. *)
Fixpoint valid_value (v : JsValue) : bool :=
  match v with
  | JString s => valid_string s
  | JArray elements => forallb valid_value elements
  | JObject members =>
      forallb (fun kv => valid_string (fst kv) && valid_value (snd kv)) members
  | _ => true
  end.



(* --------------------------------------------------------------------- *)
(** ** Notions used in the round-trip proofs *)


(** White space only. *)
Definition blank (s : jsstring) : Prop := forallb is_ws s = true.



(** A string that [encodeURIComponent] accepts and that is made of 16-bit
    code units. *)
Definition exportable (s : jsstring) : Prop :=
  valid_string s = true /\ exists e, encodeURIComponent s = Some e.

(** No surrogate at all. *)
Definition plain (s : jsstring) : bool :=
  forallb (fun c => (c <? 55296) || ((57343 <? c) && (c <? 65536)))%N s.




(* --------------------------------------------------------------------- *)
(** ** The generation service (the @google/genai client)

    The shapes the sources read and write.  A response is what the service
    answered; its [text] accessor and its [candidates] are taken as
    given. *)

Record Blob := {
  mimeType : option jsstring;
  data : option jsstring
}.

Record Part := {
  text : option jsstring;
  inlineData : option Blob
}.

Record ResponseContent := {
  parts : option (list Part)
}.

Record Candidate := {
  candidate_content : option ResponseContent
}.

Record GenerateContentResponse := {
  response_text : option jsstring;
  candidates : option (list Candidate)
}.

Inductive SchemaType := STRING | NUMBER | ARRAY | OBJECT.

Inductive Schema :=
| MkSchema (type : SchemaType) (description : option jsstring)
           (enum : option (list jsstring)) (items : option Schema)
           (properties : list (string * Schema)) (required : list jsstring).

Record ImageConfig := {
  aspectRatio : jsstring
}.

Record GenerateContentConfig := {
  systemInstruction : option jsstring;
  temperature : option number;
  responseMimeType : option jsstring;
  responseSchema : option Schema;
  imageConfig : option ImageConfig
}.

Record GenerateContentParameters := {
  model : jsstring;
  contents : list Part;
  config : option GenerateContentConfig
}.

(** What a call can throw: an [Error] made by the sources, the SyntaxError
    of [JSON.parse], or whatever the service call rejects with. *)
Inductive Thrown :=
| Error (message : jsstring)
| SyntaxError
| Rejection (reason : jsstring).

Inductive Outcome (A : Type) :=
| Returned (a : A)
| Threw (e : Thrown).
Arguments Returned {A} a.
Arguments Threw {A} e.

(** The world outside: the credential in [process.env] and the service
    behind the client. *)
Record Environment := {
  API_KEY : option jsstring;
  service : jsstring -> GenerateContentParameters
            -> Outcome GenerateContentResponse
}.

(** What a run leaves behind: the requests sent and the console lines. *)
Inductive Event :=
| Call (request : GenerateContentParameters)
| ConsoleError (label : jsstring) (error : Thrown)
| ConsoleLog (label : jsstring) (message : jsstring).

(** Computations that may throw and that leave a trace. *)
Definition Eff (A : Type) : Type := list Event -> Outcome A * list Event.

Definition ret {A : Type} (a : A) : Eff A := fun tr => (Returned a, tr).

Definition throw {A : Type} (e : Thrown) : Eff A := fun tr => (Threw e, tr).

Definition bind {A B : Type} (m : Eff A) (k : A -> Eff B) : Eff B :=
  fun tr =>
    match m tr with
    | (Returned a, tr') => k a tr'
    | (Threw e, tr') => (Threw e, tr')
    end.

Definition try_catch {A : Type} (m : Eff A) (handler : Thrown -> Eff A)
  : Eff A :=
  fun tr =>
    match m tr with
    | (Returned a, tr') => (Returned a, tr')
    | (Threw e, tr') => handler e tr'
    end.

Definition emit (ev : Event) : Eff unit := fun tr => (Returned tt, tr ++ [ev]).

Declare Scope eff_scope.
Delimit Scope eff_scope with eff.
Notation "x <- m ;; k" := (bind m (fun x => k))
  (at level 61, m at next level, right associativity) : eff_scope.
Notation "m ;; k" := (bind m (fun _ => k))
  (at level 61, right associativity) : eff_scope.

(** The result of running a computation from an empty trace. *)
Definition result {A : Type} (m : Eff A) : Outcome A := fst (m []).
Definition trace {A : Type} (m : Eff A) : list Event := snd (m []).

(* --------------------------------------------------------------------- *)
(** ** services/geminiService.ts *)

Record GoogleGenAI := {
  apiKey : jsstring
}.

Definition getClient (env : Environment) : Eff GoogleGenAI :=
  match API_KEY env with
  | Some key =>
      if negb (truthy_string key) then
        throw (Error (js "API Key not found in environment variables"))
      else ret {| apiKey := key |}
  | None => throw (Error (js "API Key not found in environment variables"))
  end.

(** [await ai.models.generateContent(request)] *)
Definition generateContent (env : Environment) (ai : GoogleGenAI)
           (request : GenerateContentParameters)
  : Eff GenerateContentResponse :=
  fun tr => (service env (apiKey ai) request, tr ++ [Call request]).

Definition CONSULTANT_SYSTEM_INSTRUCTION : jsstring :=
  js "
You are a Senior Engagement Manager at a top-tier management consulting firm (McKinsey, BCG, Bain). 
Your task is to synthesize raw information into a high-impact, executive-level presentation deck.

Adhere strictly to these principles:
1. Pyramid Principle: Start with the answer/recommendation. Group supporting arguments below.
2. MECE: Ensure points are Mutually Exclusive and Collectively Exhaustive.
3. Action Titles: Every slide MUST have a full-sentence headline that explicitly states the insight (e.g., "
  ++ quote
  ++ js "Revenue grew 20% due to X"
  ++ quote
  ++ js ", not "
  ++ quote
  ++ js "Revenue Update"
  ++ quote
  ++ js ").
4. Data-Driven: Prioritize quantitative evidence over qualitative fluff.
".

Definition finalPrompt (userPrompt : jsstring) : jsstring :=
  js "
    Analyze the attached documents and the user's specific request: "
  ++ quote
  ++ userPrompt
  ++ quote
  ++ js ".
    
    Create a 5-8 slide storyboard structure.
    For each slide:
    1. Determine the best visual layout (List, Columns, Chart, KPI).
    2. Write a McKinsey-style Action Title.
    3. Extract real data for charts if available in the source, otherwise estimate plausible data based on context and label it as indicative.
  ".

Definition synthesisPrompt (userPrompt : jsstring) : jsstring :=
  js "
    Based on the attached documents and this request: "
  ++ quote
  ++ userPrompt
  ++ quote
  ++ js ", create a highly detailed image generation prompt for a professional business infographic.
    
    The infographic prompt should:
    1. Describe a clean, flat vector art style suitable for a corporate boardroom.
    2. Specify a color palette of Navy Blue, Slate Grey, and Teal.
    3. Detail the key visual elements (e.g., "
  ++ quote
  ++ js "A central timeline showing growth,"
  ++ quote
  ++ js " "
  ++ quote
  ++ js "A bar chart on the left comparing Q1 vs Q2"
  ++ quote
  ++ js ").
    4. Be descriptive enough for an image generation model to create a coherent visual summary.
    5. Do not include markdown or explanations, just the raw prompt text for the image generator.
  ".

Definition schema (type : SchemaType) : Schema :=
  MkSchema type None None None [] [].

Definition described (type : SchemaType) (d : string) : Schema :=
  MkSchema type (Some (js d)) None None [] [].
Arguments described type d%_string.

Definition array_of (items : Schema) : Schema :=
  MkSchema ARRAY None None (Some items) [] [].

Definition object_of (properties : list (string * Schema))
           (required : list jsstring) : Schema :=
  MkSchema OBJECT None None None properties required.

Definition field (name : string) (s : Schema) : string * Schema := (name, s).
Arguments field name%_string s.

(** Schema definition for structured JSON output *)
Definition DECK_SCHEMA : Schema :=
  object_of
    [field "title" (described STRING "Main deck title");
     field "subtitle" (described STRING "Deck subtitle/context");
     field "author" (described STRING "Presenter name/role");
     field "slides"
       (array_of
          (object_of
             [field "id" (schema STRING);
              field "layout"
                (MkSchema STRING None
                   (Some [js "TITLE"; js "BULLET_POINTS"; js "TWO_COLUMN";
                          js "CHART_BAR"; js "CHART_LINE"; js "KPI_GRID"])
                   None [] []);
              field "tracker"
                (described STRING "Section name for breadcrumbs");
              field "kicker"
                (described STRING
                   "Small context label above title (e.g., 'MARKET ANALYSIS')");
              field "actionTitle"
                (described STRING
                   "Full sentence executive summary of the slide");
              field "speakerNotes" (schema STRING);
              field "content"
                (object_of
                   [field "bullets" (array_of (schema STRING));
                    field "leftColumn" (array_of (schema STRING));
                    field "rightColumn" (array_of (schema STRING));
                    field "chartTitle" (schema STRING);
                    field "chartXLabel" (schema STRING);
                    field "chartYLabel" (schema STRING);
                    field "chartData"
                      (array_of
                         (object_of
                            [field "label" (schema STRING);
                             field "value" (schema NUMBER);
                             field "value2" (schema NUMBER)]
                            []));
                    field "kpiData"
                      (array_of
                         (object_of
                            [field "label" (schema STRING);
                             field "value" (schema STRING);
                             field "delta" (schema STRING)]
                            []))]
                   [])]
             [js "layout"; js "actionTitle"; js "tracker"; js "kicker"]))]
    [js "title"; js "slides"].

Definition filePart (file : FileInput) : Part :=
  {| text := None;
     inlineData := Some {| mimeType := Some (file_type file);
                           data := Some (file_data file) |} |}.

Definition textPart (t : jsstring) : Part :=
  {| text := Some t; inlineData := None |}.

Definition deckRequest (files : list FileInput) (userPrompt : jsstring)
  : GenerateContentParameters :=
  {| model := js "gemini-2.5-flash";
     contents := map filePart files ++ [textPart (finalPrompt userPrompt)];
     config := Some
       {| systemInstruction := Some CONSULTANT_SYSTEM_INSTRUCTION;
          temperature := Some (decimal_to_number false 2 (-1));
          responseMimeType := Some (js "application/json");
          responseSchema := Some DECK_SCHEMA;
          imageConfig := None |} |}.

(** [request.config?.responseSchema] *)
Definition responseSchema_of (request : GenerateContentParameters)
  : option Schema :=
  match config request with
  | Some c => responseSchema c
  | None => None
  end.

Definition deckFailure : Thrown :=
  Error (js "Failed to generate deck. Please check your inputs and try again.").

Local Open Scope eff_scope.

(** [generateDeck]: the parsed response is returned as it is
    ([JSON.parse(response.text) as Deck], a cast without a check). *)
Definition generateDeck (env : Environment) (files : list FileInput)
           (userPrompt : jsstring) : Eff JsValue :=
  ai <- getClient env ;;
  try_catch
    (response <- generateContent env ai (deckRequest files userPrompt) ;;
     match response_text response with
     | Some t =>
         if negb (truthy_string t) then
           throw (Error (js "No response generated"))
         else
           match JSON_parse t with
           | Some deckData => ret deckData
           | None => throw SyntaxError
           end
     | None => throw (Error (js "No response generated"))
     end)
    (fun error =>
       emit (ConsoleError (js "Gemini API Error:") error) ;;
       throw deckFailure).

Definition briefRequest (files : list FileInput) (userPrompt : jsstring)
  : GenerateContentParameters :=
  {| model := js "gemini-2.5-flash";
     contents := map filePart files ++ [textPart (synthesisPrompt userPrompt)];
     config := None |}.

Definition defaultBrief : jsstring :=
  js "A professional corporate infographic showing key business metrics in navy and teal.".

Definition imageRequest (imagePrompt : jsstring) : GenerateContentParameters :=
  {| model := js "gemini-2.5-flash-image";
     contents := [textPart imagePrompt];
     config := Some
       {| systemInstruction := None;
          temperature := None;
          responseMimeType := None;
          responseSchema := None;
          imageConfig := Some {| aspectRatio := js "16:9" |} |} |}.

(** [imageResponse.candidates?.[0]?.content?.parts || []] *)
Definition firstCandidateParts (r : GenerateContentResponse) : list Part :=
  match first_of (candidates r) with
  | Some c =>
      match candidate_content c with
      | Some ct =>
          match parts ct with
          | Some ps => ps
          | None => []
          end
      | None => []
      end
  | None => []
  end.

(** [${e}] in a template literal, for a possibly undefined string. *)
Definition interpolate (o : option jsstring) : jsstring :=
  match o with
  | Some s => s
  | None => js "undefined"
  end.

Definition dataUriPrefix : jsstring := js "data:image/png;base64,".

Definition infographicFailure : Thrown :=
  Error (js "Failed to generate infographic image.").

(** The loop [for (const part of ...) if (part.inlineData) return ...],
    followed by the [throw]. *)
Fixpoint extractImage (ps : list Part) : Outcome jsstring :=
  match ps with
  | [] => Threw infographicFailure
  | part :: rest =>
      match inlineData part with
      | Some blob => Returned (dataUriPrefix ++ interpolate (data blob))
      | None => extractImage rest
      end
  end.

Definition generateInfographic (env : Environment) (files : list FileInput)
           (userPrompt : jsstring) : Eff jsstring :=
  aiText <- getClient env ;;
  textResponse <- generateContent env aiText (briefRequest files userPrompt) ;;
  let imagePrompt :=
    match or_string (response_text textResponse) (Some defaultBrief) with
    | Some p => p
    | None => defaultBrief
    end in
  emit (ConsoleLog (js "Generated Image Prompt:") imagePrompt) ;;
  aiImage <- getClient env ;;
  imageResponse <- generateContent env aiImage (imageRequest imagePrompt) ;;
  fun tr => (extractImage (firstCandidateParts imageResponse), tr).

Local Close Scope eff_scope.

(* --------------------------------------------------------------------- *)
(** ** The specification's side

    Definitions that follow the words of the specification, to be compared
    with what the sources compute. *)

(** The closed six-value set of layouts. *)
Definition closed_layouts : list jsstring :=
  [SlideLayout.TITLE; SlideLayout.BULLET_POINTS; SlideLayout.TWO_COLUMN;
   SlideLayout.CHART_BAR; SlideLayout.CHART_LINE; SlideLayout.KPI_GRID].

Definition layout_in_closed_set (slide : JsValue) : bool :=
  match slide with
  | JObject o =>
      match get_prop o (js "layout") with
      | Some (JString l) => existsb (str_eqb l) closed_layouts
      | _ => false
      end
  | _ => false
  end.

(** The schema invariants of an accepted deck: [slides] is present, has at
    least one element, and every slide's [layout] is in the closed set. *)
Definition schema_invariants (deck : JsValue) : bool :=
  match deck with
  | JObject o =>
      match get_prop o (js "slides") with
      | Some (JArray (s :: ss)) => forallb layout_in_closed_set (s :: ss)
      | _ => false
      end
  | _ => false
  end.

(** The subheading of a cover slide in the specification's words:
    [chartTitle] if present, else the first bullet if present, else
    nothing. *)
Definition spec_titleSubheading (slide : Slide) : option jsstring :=
  match chartTitle (content slide) with
  | Some t => Some t
  | None => first_of (bullets (content slide))
  end.

(** A second series in the specification's words: drawn if and only if the
    first data point carries [value2]. *)
Definition spec_second_series (slide : Slide) : bool :=
  match first_of (chartData (content slide)) with
  | Some p => match value2 p with Some _ => true | None => false end
  | None => false
  end.

(** The content parts of a response in order across all candidates. *)
Definition candidateParts (c : Candidate) : list Part :=
  match candidate_content c with
  | Some ct => match parts ct with Some ps => ps | None => [] end
  | None => []
  end.

Definition allCandidateParts (r : GenerateContentResponse) : list Part :=
  match candidates r with
  | Some cs => flat_map candidateParts cs
  | None => []
  end.





(* --------------------------------------------------------------------- *)
(** ** Sample data *)

(** A service that answers every request with the text [t]. *)
Definition answering (t : jsstring) : Environment :=
  {| API_KEY := Some (js "k");
     service := fun _ _ =>
       Returned {| response_text := Some t; candidates := None |} |}.

(** [{"title": "Q3", "slides": []}] *)
Definition emptySlidesText : jsstring :=
  js "{" ++ quoted "title" ++ js ": " ++ quoted "Q3" ++ js ", "
  ++ quoted "slides" ++ js ": []}".

(** [{"title": "Q3"}] *)
Definition missingSlidesText : jsstring :=
  js "{" ++ quoted "title" ++ js ": " ++ quoted "Q3" ++ js "}".

(** [{"title": "Q3", "slides": [{"layout": "PIE_CHART"}]}] *)
Definition unknownLayoutText : jsstring :=
  js "{" ++ quoted "title" ++ js ": " ++ quoted "Q3" ++ js ", "
  ++ quoted "slides" ++ js ": [{" ++ quoted "layout" ++ js ": "
  ++ quoted "PIE_CHART" ++ js "}]}".

(** [{"title": "Q3", "slides": [{"layout": "TITLE"}]}] *)
Definition oneSlideText : jsstring :=
  js "{" ++ quoted "title" ++ js ": " ++ quoted "Q3" ++ js ", "
  ++ quoted "slides" ++ js ": [{" ++ quoted "layout" ++ js ": "
  ++ quoted "TITLE" ++ js "}]}".

Definition emptyContent : Content :=
  {| bullets := None; leftColumn := None; rightColumn := None;
     chartData := None; chartTitle := None; chartXLabel := None;
     chartYLabel := None; kpiData := None |}.

Definition sampleSlide (l : jsstring) (c : Content) : Slide :=
  {| slide_id := js "s1"; layout := l; tracker := js "Overview";
     actionTitle := js "Revenue grew"; kicker := js "MARKET"; content := c;
     speakerNotes := js "notes" |}.

Definition sampleDeck : Deck :=
  {| title := js "Q3"; subtitle := js ""; author := js "PM";
     slides := [sampleSlide SlideLayout.TITLE emptyContent;
                sampleSlide SlideLayout.BULLET_POINTS emptyContent;
                sampleSlide SlideLayout.KPI_GRID emptyContent] |}.

(** A cover slide whose [chartTitle] is the empty string. *)
Definition emptyChartTitleSlide : Slide :=
  sampleSlide SlideLayout.TITLE
    {| bullets := Some [js "Intro"]; leftColumn := None; rightColumn := None;
       chartData := None; chartTitle := Some (js ""); chartXLabel := None;
       chartYLabel := None; kpiData := None |}.

(** [chartData = [{label:"Q1", value:10, value2:0},
                  {label:"Q2", value:14, value2:8}]] *)
Definition zeroValue2Slide : Slide :=
  sampleSlide SlideLayout.CHART_BAR
    {| bullets := None; leftColumn := None; rightColumn := None;
       chartData := Some
         [{| label := js "Q1"; value := num 10; value2 := Some (num 0) |};
          {| label := js "Q2"; value := num 14; value2 := Some (num 8) |}];
       chartTitle := None; chartXLabel := None; chartYLabel := None;
       kpiData := None |}.


(** An image response whose first candidate holds only text and whose
    second candidate holds the picture. *)
Definition pngBlob : Blob :=
  {| mimeType := Some (js "image/jpeg"); data := Some (js "iVBORw0KGgo=") |}.

Definition secondCandidateResponse : GenerateContentResponse :=
  {| response_text := Some (js "a brief");
     candidates := Some
       [{| candidate_content :=
             Some {| parts := Some [textPart (js "Here is your image")] |} |};
        {| candidate_content :=
             Some {| parts := Some
               [{| text := None; inlineData := Some pngBlob |}] |} |}] |}.

Definition firstCandidateResponse : GenerateContentResponse :=
  {| response_text := Some (js "a brief");
     candidates := Some
       [{| candidate_content :=
             Some {| parts := Some
               [textPart (js "Here is your image");
                {| text := None; inlineData := Some pngBlob |}] |} |}] |}.

Definition responding (r : GenerateContentResponse) : Environment :=
  {| API_KEY := Some (js "k"); service := fun _ _ => Returned r |}.


Definition overflowDeck : JsValue :=
  JObject
    [(js "slides",
      JArray
        [JObject
           [(js "layout", JString (js "CHART_BAR"));
            (js "content",
             JObject
               [(js "chartData",
                 JArray
                   [JObject
                      [(js "label", JString (js "Q1"));
                       (js "value", JNumber (S754_infinity false))]])])]])].




(* --------------------------------------------------------------------- *)
(** ** components/DeckRenderer.tsx: what a slide shows *)

(** The strings of an element tree in document order: what is read off the
    rendered slide. *)
Fixpoint texts (n : VNode) : list jsstring :=
  match n with
  | Element _ _ children => flat_map texts children
  | Text s => [s]
  | _ => []
  end.

(* --------------------------------------------------------------------- *)
(** ** types.ts: the state of the application *)

(** [enum AppStatus] and [enum AppMode]: set and compared only through
    their members. *)
Inductive AppStatus := IDLE | ANALYZING | GENERATING | COMPLETE | ERROR.

Inductive AppMode := DECK | INFOGRAPHIC.

(* --------------------------------------------------------------------- *)
(** ** App.tsx *)

(** The [useState] cells of [App].  [generatedDeck] holds what
    [generateDeck] returned, [null] being [JNull]. *)
Record AppState := {
  status : AppStatus;
  mode : AppMode;
  files : list FileInput;
  prompt : jsstring;
  generatedDeck : JsValue;
  generatedInfographic : option jsstring;
  errorMsg : option jsstring;
  darkMode : bool
}.

(** The initial values of the cells. *)
Definition initialState : AppState :=
  {| status := IDLE; mode := DECK; files := []; prompt := js "";
     generatedDeck := JNull; generatedInfographic := None;
     errorMsg := None; darkMode := false |}.

(** The state setters. *)
Definition setStatus (v : AppStatus) (s : AppState) : AppState :=
  {| status := v; mode := mode s; files := files s; prompt := prompt s;
     generatedDeck := generatedDeck s;
     generatedInfographic := generatedInfographic s;
     errorMsg := errorMsg s; darkMode := darkMode s |}.

Definition setMode (v : AppMode) (s : AppState) : AppState :=
  {| status := status s; mode := v; files := files s; prompt := prompt s;
     generatedDeck := generatedDeck s;
     generatedInfographic := generatedInfographic s;
     errorMsg := errorMsg s; darkMode := darkMode s |}.

Definition setFiles (v : list FileInput) (s : AppState) : AppState :=
  {| status := status s; mode := mode s; files := v; prompt := prompt s;
     generatedDeck := generatedDeck s;
     generatedInfographic := generatedInfographic s;
     errorMsg := errorMsg s; darkMode := darkMode s |}.

Definition setPrompt (v : jsstring) (s : AppState) : AppState :=
  {| status := status s; mode := mode s; files := files s; prompt := v;
     generatedDeck := generatedDeck s;
     generatedInfographic := generatedInfographic s;
     errorMsg := errorMsg s; darkMode := darkMode s |}.

Definition setGeneratedDeck (v : JsValue) (s : AppState) : AppState :=
  {| status := status s; mode := mode s; files := files s;
     prompt := prompt s; generatedDeck := v;
     generatedInfographic := generatedInfographic s;
     errorMsg := errorMsg s; darkMode := darkMode s |}.

Definition setGeneratedInfographic (v : option jsstring) (s : AppState)
  : AppState :=
  {| status := status s; mode := mode s; files := files s;
     prompt := prompt s; generatedDeck := generatedDeck s;
     generatedInfographic := v;
     errorMsg := errorMsg s; darkMode := darkMode s |}.

Definition setErrorMsg (v : option jsstring) (s : AppState) : AppState :=
  {| status := status s; mode := mode s; files := files s;
     prompt := prompt s; generatedDeck := generatedDeck s;
     generatedInfographic := generatedInfographic s;
     errorMsg := v; darkMode := darkMode s |}.


(** [xs.filter((_, i) => keep(i))], the positions counted from [i]. *)
Fixpoint filter_index {A : Type} (keep : nat -> bool) (i : nat) (xs : list A)
  : list A :=
  match xs with
  | [] => []
  | x :: rest =>
      if keep i then x :: filter_index keep (S i) rest
      else filter_index keep (S i) rest
  end.

(** [removeFile]: [setFiles(prev => prev.filter((_, i) => i !== index))],
    called with the position of a file chip. *)
Definition removeFile (index : nat) (s : AppState) : AppState :=
  setFiles (filter_index (fun i => negb (i =? index)) 0 (files s)) s.

(** [ToBoolean] of a value: [null], [false], [0], [NaN] and the empty
    string are falsy, every array and object is truthy. *)
Definition truthy_value (v : JsValue) : bool :=
  match v with
  | JNull => false
  | JBool b => b
  | JNumber x => truthy_number x
  | JString s => truthy_string s
  | JArray _ | JObject _ => true
  end.

Definition guardMessage : jsstring :=
  js "Please provide files or a detailed prompt to start.".

Definition unexpectedMessage : jsstring :=
  js "An unexpected error occurred.".

Section App.

(** The text an engine gives the SyntaxError of [JSON.parse]. *)
Variable syntaxErrorMessage : jsstring.

(** [err.message]: for a rejection, the message of what the call was
    rejected with, empty when it has none. *)
Definition message (err : Thrown) : jsstring :=
  match err with
  | Error m => m
  | SyntaxError => syntaxErrorMessage
  | Rejection reason => reason
  end.

(** [err.message || "An unexpected error occurred."] *)
Definition shownMessage (err : Thrown) : jsstring :=
  if truthy_string (message err) then message err else unexpectedMessage.

Local Open Scope eff_scope.

(** [handleGenerate], from the click to the last state update.  The
    handler reads [files], [prompt] and [mode] of the state it was made
    for. *)
Definition handleGenerate (env : Environment) (s : AppState) : Eff AppState :=
  if (List.length (files s) =? 0) && (List.length (prompt s) <? 10) then
    ret (setErrorMsg (Some guardMessage) s)
  else
    let s := setStatus ANALYZING (setErrorMsg None s) in
    try_catch
      (s' <- match mode s with
             | DECK =>
                 deck <- generateDeck env (files s) (prompt s) ;;
                 ret (setGeneratedDeck deck s)
             | INFOGRAPHIC =>
                 imageUrl <- generateInfographic env (files s) (prompt s) ;;
                 ret (setGeneratedInfographic (Some imageUrl) s)
             end ;;
       ret (setStatus COMPLETE s'))
      (fun err =>
         ret (setStatus ERROR (setErrorMsg (Some (shownMessage err)) s))).

Definition reset (s : AppState) : AppState :=
  setGeneratedInfographic None
    (setGeneratedDeck JNull
       (setPrompt (js "") (setFiles [] (setStatus IDLE s)))).


(** Which of its four views [App] returns, with the parts of the view
    computed from the state: the deck handed to [DeckRenderer]; the
    [href] and [src] of the infographic; the heading of the loading card;
    and, for the dashboard, the names on the file chips, whether the
    Generate button is disabled, its label, and the error banner. *)
Inductive Screen :=
| DeckScreen (deck : JsValue)
| InfographicScreen (href : jsstring)
| LoadingScreen (heading : jsstring)
| InputScreen (chips : list jsstring) (disabled : bool)
              (label : jsstring) (error : option jsstring).

Definition status_is (a b : AppStatus) : bool :=
  match a, b with
  | IDLE, IDLE | ANALYZING, ANALYZING | GENERATING, GENERATING
  | COMPLETE, COMPLETE | ERROR, ERROR => true
  | _, _ => false
  end.

(** [disabled={files.length === 0 && prompt.length === 0}] *)
Definition generateDisabled (s : AppState) : bool :=
  (List.length (files s) =? 0) && (List.length (prompt s) =? 0).

(** [{errorMsg && (<div>...{errorMsg}</div>)}] *)
Definition banner (s : AppState) : option jsstring :=
  if truthy_opt_string (errorMsg s) then errorMsg s else None.

(** The last two views: loading, and the dashboard. *)
Definition idleScreen (s : AppState) : Screen :=
  if status_is (status s) ANALYZING || status_is (status s) GENERATING then
    LoadingScreen
      (match mode s with
       | DECK => js "Consulting AI is thinking..."
       | INFOGRAPHIC => js "Designing Infographic..."
       end)
  else
    InputScreen (map file_name (files s)) (generateDisabled s)
      (match mode s with
       | DECK => js "Generate Deck"
       | INFOGRAPHIC => js "Generate Infographic"
       end)
      (banner s).

(** The views in the order of the [if]s of [App]. *)
Definition App (s : AppState) : Screen :=
  if status_is (status s) COMPLETE && truthy_value (generatedDeck s) then
    DeckScreen (generatedDeck s)
  else
    match generatedInfographic s with
    | Some href =>
        if status_is (status s) COMPLETE && truthy_string href then
          InfographicScreen href
        else idleScreen s
    | None => idleScreen s
    end.





Local Close Scope eff_scope.

End App.

(* --------------------------------------------------------------------- *)
(** ** Sample worlds and slides for the service and the renderer *)

(** No credential in the environment. *)
Definition withoutKey : Environment :=
  {| API_KEY := None;
     service := fun _ _ =>
       Returned {| response_text := Some oneSlideText; candidates := None |} |}.

(** A service that rejects every request. *)
Definition rejecting (reason : jsstring) : Environment :=
  {| API_KEY := Some (js "k");
     service := fun _ _ => Threw (Rejection reason) |}.

(** A service that writes the brief and then rejects the image request. *)
Definition rejectingImages (reason : jsstring) : Environment :=
  {| API_KEY := Some (js "k");
     service := fun _ request =>
       if str_eqb (model request) (js "gemini-2.5-flash") then
         Returned {| response_text := Some (js "a brief"); candidates := None |}
       else Threw (Rejection reason) |}.

(** An inline part that carries no data. *)
Definition emptyBlobPart : Part :=
  {| text := None;
     inlineData := Some {| mimeType := Some (js "image/png"); data := None |} |}.

Definition reportFile : FileInput :=
  {| file_name := js "report.pdf"; file_type := js "application/pdf";
     file_data := js "JVBERi0=" |}.

Definition bulletSlide : Slide :=
  sampleSlide SlideLayout.BULLET_POINTS
    {| bullets := Some [js "Grow"; js "Save"]; leftColumn := None;
       rightColumn := None; chartData := None; chartTitle := None;
       chartXLabel := None; chartYLabel := None; kpiData := None |}.

Definition twoColumnSlide : Slide :=
  sampleSlide SlideLayout.TWO_COLUMN
    {| bullets := None; leftColumn := Some [js "Price"];
       rightColumn := None; chartData := None; chartTitle := None;
       chartXLabel := None; chartYLabel := None; kpiData := None |}.


(** The Error of [getClient]. *)
Definition apiKeyFailure : Thrown :=
  Error (js "API Key not found in environment variables").

(* --------------------------------------------------------------------- *)
(** ** Notions used in the proofs about the export and [App] *)

(** The characters of an encoded URI component: unreserved ones and [%]. *)
Definition uri_safe (s : jsstring) : bool :=
  forallb (fun c => is_unreserved c || (c =? 37)%N) s.


(** A state with a prompt long enough to start a generation. *)
Definition promptedState (m : AppMode) : AppState :=
  setMode m (setPrompt (js "Summarise the third quarter") initialState).

(* --------------------------------------------------------------------- *)
(** ** App.tsx: reading the chosen files *)

(** A [File] of the file input, with what [reader.readAsDataURL(file)]
    delivers for it in [ev.target.result] when the read has loaded.  (A
    read that fails is left out: [onload] is then never called and the
    handler does not resume.) *)
Record File := {
  File_name : jsstring;
  File_type : jsstring;
  File_size : N;
  File_result : jsstring
}.

(** [s.split(sep)] for a separator of one code unit. *)
Fixpoint split (sep : code_unit) (s : jsstring) : list jsstring :=
  match s with
  | [] => [[]]
  | c :: r =>
      if (c =? sep)%N then [] :: split sep r
      else
        match split sep r with
        | piece :: pieces => (c :: piece) :: pieces
        | [] => [[c]]
        end
  end.

(** [(ev.target?.result as string).split(',')[1]] *)
Definition base64Of (result : jsstring) : option jsstring :=
  nth_error (split 44%N result) 1.

(** [file.size > 5 * 1024 * 1024] *)
Definition tooLarge (file : File) : bool :=
  (5 * 1024 * 1024 <? File_size file)%N.

(** [`File ${file.name} is too large. Max 5MB.`] *)
Definition tooLargeAlert (file : File) : jsstring :=
  js "File " ++ File_name file ++ js " is too large. Max 5MB.".

(** The loop of [handleFileChange] over the chosen files: the alerts
    raised and the [newFiles] collected.  [None] stands for a result of
    the reader without a comma: the object resolved then has no [data],
    which a [FileInput] (data: string) cannot hold. *)
Fixpoint readChosen (chosen : list File)
  : option (list jsstring * list FileInput) :=
  match chosen with
  | [] => Some ([], [])
  | file :: rest =>
      if tooLarge file then
        match readChosen rest with
        | Some (alerts, newFiles) =>
            Some (tooLargeAlert file :: alerts, newFiles)
        | None => None
        end
      else
        match base64Of (File_result file), readChosen rest with
        | Some base64, Some (alerts, newFiles) =>
            Some (alerts,
                  {| file_name := File_name file;
                     file_type := File_type file;
                     file_data := base64 |} :: newFiles)
        | _, _ => None
        end
  end.

(** [handleFileChange] for [e.target.files] ([null] or a list): the alerts
    shown and the state after [setFiles(prev => [...prev, ...newFiles])]. *)
Definition handleFileChange (chosen : option (list File)) (s : AppState)
  : option (list jsstring * AppState) :=
  match chosen with
  | Some (file :: rest) =>
      match readChosen (file :: rest) with
      | Some (alerts, newFiles) =>
          Some (alerts, setFiles (files s ++ newFiles) s)
      | None => None
      end
  | _ => Some ([], s)
  end.

(** A report of 2 MiB, a scan of exactly 5 MiB and a video of one byte
    more. *)
Definition reportUpload : File :=
  {| File_name := js "report.pdf"; File_type := js "application/pdf";
     File_size := 2097152;
     File_result := js "data:application/pdf;base64,JVBERi0=" |}.

Definition scanUpload : File :=
  {| File_name := js "scan.png"; File_type := js "image/png";
     File_size := 5242880;
     File_result := js "data:image/png;base64,iVBORw0KGgo=" |}.

Definition videoUpload : File :=
  {| File_name := js "talk.mp4"; File_type := js "video/mp4";
     File_size := 5242881;
     File_result := js "data:video/mp4;base64,AAAA" |}.

(** What is kept of the three. *)
Definition keptUploads : list FileInput :=
  [{| file_name := js "report.pdf"; file_type := js "application/pdf";
      file_data := js "JVBERi0=" |};
   {| file_name := js "scan.png"; file_type := js "image/png";
      file_data := js "iVBORw0KGgo=" |}].

(* ===================================================================== *)
(** * Part II: properties                                                  *)
(* ===================================================================== *)

Lemma str_eqb_refl (s : jsstring) : str_eqb s s = true.
Proof.
  induction s as [|c s IH]; simpl; [reflexivity|].
  now rewrite N.eqb_refl, IH.
Qed.

Lemma str_eqb_eq (a b : jsstring) : str_eqb a b = true <-> a = b.
Proof.
  split; [|intros ->; apply str_eqb_refl].
  revert b; induction a as [|c a IH]; intros [|d b]; simpl; try discriminate.
  - reflexivity.
  - intros H. apply andb_true_iff in H as [H1 H2].
    apply N.eqb_eq in H1. apply IH in H2. now subst.
Qed.

(* --------------------------------------------------------------------- *)
(** ** Navigation *)

Section Navigation.

Variable deck : Deck.

Let N := slideCount deck.

Lemma nextSlide_in_range (i : Z) :
  (1 <= N)%Z -> (0 <= i <= N - 1)%Z -> (0 <= nextSlide deck i <= N - 1)%Z.
Proof. unfold nextSlide; fold N; lia. Qed.

Lemma prevSlide_in_range (i : Z) :
  (1 <= N)%Z -> (0 <= i <= N - 1)%Z -> (0 <= prevSlide i <= N - 1)%Z.
Proof. unfold prevSlide; lia. Qed.

Lemma step_in_range (i : Z) (a : Action) :
  (1 <= N)%Z -> (0 <= i <= N - 1)%Z -> (0 <= step deck i a <= N - 1)%Z.
Proof.
  intros HN Hi. destruct a as [key| |]; simpl.
  - unfold handleKeyDown.
    destruct (str_eqb key (js "ArrowRight")), (str_eqb key (js "ArrowLeft"));
      auto using nextSlide_in_range, prevSlide_in_range.
  - destruct (i =? 0)%Z; auto using prevSlide_in_range.
  - destruct (i =? slideCount deck - 1)%Z; auto using nextSlide_in_range.
Qed.

Lemma run_in_range (actions : list Action) :
  forall i, (1 <= N)%Z -> (0 <= i <= N - 1)%Z ->
            (0 <= run deck i actions <= N - 1)%Z.
Proof.
  induction actions as [|a actions IH]; intros i HN Hi; simpl; [exact Hi|].
  apply IH; auto using step_in_range.
Qed.

(** [k] presses of "next" from the first slide reach slide [k], as long
    as there is one. *)
Lemma iter_nextSlide (k : nat) :
  (Z.of_nat k <= N - 1)%Z ->
  Nat.iter k (nextSlide deck) 0%Z = Z.of_nat k.
Proof.
  induction k as [|k IH]; intros Hk; [reflexivity|].
  rewrite Nat.iter_succ, IH by lia.
  unfold nextSlide; fold N; lia.
Qed.

Lemma index_in_range (i : Z) :
  (0 <= i <= N - 1)%Z -> exists slide, index (slides deck) i = Some slide.
Proof.
  intros Hi. unfold index.
  destruct (i <? 0)%Z eqn:E; [lia|].
  destruct (nth_error (slides deck) (Z.to_nat i)) as [s|] eqn:Hn; [eauto|].
  apply nth_error_None in Hn. unfold N, slideCount in Hi. lia.
Qed.

End Navigation.

(** C5: for a deck with [N >= 1] slides and a cursor in [[0, N-1]], "next"
    yields [min (i+1) (N-1)] and "previous" yields [max (i-1) 0]; from
    index 0, [N-1] consecutive "next" reach [N-1], one more "next" changes
    nothing, and "previous" at 0 changes nothing. *)
Theorem navigation_saturates (deck : Deck) (i : Z) :
  (1 <= slideCount deck)%Z ->
  (0 <= i <= slideCount deck - 1)%Z ->
  nextSlide deck i = Z.min (i + 1) (slideCount deck - 1) /\
  prevSlide i = Z.max (i - 1) 0 /\
  Nat.iter (Z.to_nat (slideCount deck - 1)) (nextSlide deck) initialIndex
    = (slideCount deck - 1)%Z /\
  nextSlide deck (slideCount deck - 1) = (slideCount deck - 1)%Z /\
  prevSlide initialIndex = initialIndex.
Proof.
  intros HN Hi. repeat split.
  - unfold initialIndex. rewrite iter_nextSlide; lia.
  - unfold nextSlide; lia.
Qed.

(** C6: for a deck with [N >= 1] slides, the cursor stays in [[0, N-1]] in
    every state reached from index 0 by key presses and button clicks, so
    [deck.slides[currentSlideIndex]] is an existing slide and the stage
    renders it. *)
Theorem cursor_invariant (fullYear : number) (deck : Deck)
        (actions : list Action) :
  (1 <= slideCount deck)%Z ->
  let i := run deck initialIndex actions in
  (0 <= i <= slideCount deck - 1)%Z /\
  exists slide,
    index (slides deck) i = Some slide /\
    stage fullYear deck i
      = Some [SlideContent fullYear slide; Footer deck i slide].
Proof.
  intros HN i.
  assert (Hi : (0 <= i <= slideCount deck - 1)%Z).
  { apply run_in_range; unfold initialIndex; lia. }
  split; [exact Hi|].
  destruct (index_in_range deck Hi) as [slide Hs].
  exists slide. split; [exact Hs|]. unfold stage. now rewrite Hs.
Qed.

(* --------------------------------------------------------------------- *)
(** ** Layout dispatch *)




Lemma or_string_cases (a b : option jsstring) :
  or_string a b =
  match a with
  | Some (c :: s) => Some (c :: s)
  | _ => b
  end.
Proof. destruct a as [[|c s]|]; reflexivity. Qed.

(** C8 (amended): a TITLE slide renders [actionTitle] as its headline, and
    as its subheading [content.chartTitle] when that field is present and
    not the empty string, else the first element of [content.bullets] when
    there is one, else nothing. *)
Theorem title_slide_subheading (fullYear : number) (slide : Slide) :
  layout slide = SlideLayout.TITLE ->
  exists cover footer,
    SlideContent fullYear slide
      = El "div"
          [cover;
           El "h1" [Text (actionTitle slide)];
           El "p" [child_string (titleSubheading slide)];
           footer] /\
    titleSubheading slide =
      match chartTitle (content slide) with
      | Some (c :: s) => Some (c :: s)
      | _ => match bullets (content slide) with
             | Some (b :: _) => Some b
             | _ => None
             end
      end.
Proof.
  intros Hl. unfold SlideContent. rewrite Hl. simpl.
  do 2 eexists. split; [reflexivity|].
  unfold titleSubheading. rewrite or_string_cases.
  destruct (chartTitle (content slide)) as [[|c s]|]; reflexivity.
Qed.

Lemma bar_series_chart (fullYear : number) (slide : Slide) :
  layout slide = SlideLayout.CHART_BAR ->
  bar_series (SlideContent fullYear slide) =
    match first_value2 slide with
    | Some x => if truthy_number x then [js "value"; js "value2"]
                else [js "value"]
    | None => [js "value"]
    end.
Proof.
  intros Hl. unfold SlideContent. rewrite Hl. simpl.
  unfold secondSeries.
  destruct (chartTitle (content slide)), (first_value2 slide) as [x|];
    try destruct (truthy_number x); reflexivity.
Qed.

(** C2: on [chartData = [{label:"Q1", value:10, value2:0},
    {label:"Q2", value:14, value2:8}]] the first data point carries
    [value2], yet the bar chart draws the single series [value]: the guard
    [chartData?.[0]?.value2 && ...] tests the number, and 0 is falsy. *)
Theorem second_series_lost_on_zero (fullYear : number) :
  spec_second_series zeroValue2Slide = true /\
  first_value2 zeroValue2Slide = Some (S754_zero false) /\
  bar_series (SlideContent fullYear zeroValue2Slide) = [js "value"].
Proof. repeat split. Qed.

(** C8, as stated, fails: with [chartTitle] present but empty and a first
    bullet "Intro", the cover shows "Intro", not the (empty) [chartTitle]. *)
Lemma title_subheading_counterexample :
  chartTitle (content emptyChartTitleSlide) = Some (js "") /\
  spec_titleSubheading emptyChartTitleSlide = Some (js "") /\
  titleSubheading emptyChartTitleSlide = Some (js "Intro").
Proof. repeat split. Qed.

Lemma navigation_saturates_witness :
  nextSlide sampleDeck 1 = Z.min (1 + 1) (slideCount sampleDeck - 1) /\
  prevSlide 1 = Z.max (1 - 1) 0 /\
  Nat.iter (Z.to_nat (slideCount sampleDeck - 1)) (nextSlide sampleDeck)
    initialIndex = (slideCount sampleDeck - 1)%Z /\
  nextSlide sampleDeck (slideCount sampleDeck - 1)
    = (slideCount sampleDeck - 1)%Z /\
  prevSlide initialIndex = initialIndex.
Proof.
  apply (@navigation_saturates sampleDeck 1);
    change (slideCount sampleDeck) with 3%Z; lia.
Defined.

Lemma cursor_invariant_witness :
  let i := run sampleDeck initialIndex
             [ClickNext; KeyDown (js "ArrowRight"); KeyDown (js "ArrowRight");
              ClickPrev; KeyDown (js "ArrowLeft"); KeyDown (js "ArrowLeft")] in
  (0 <= i <= slideCount sampleDeck - 1)%Z /\
  exists slide,
    index (slides sampleDeck) i = Some slide /\
    stage (num 2025) sampleDeck i
      = Some [SlideContent (num 2025) slide; Footer sampleDeck i slide].
Proof.
  apply (@cursor_invariant (num 2025) sampleDeck).
  change (slideCount sampleDeck) with 3%Z. lia.
Defined.


Lemma title_slide_subheading_witness :
  exists cover footer,
    SlideContent (num 2025) emptyChartTitleSlide
      = El "div"
          [cover;
           El "h1" [Text (actionTitle emptyChartTitleSlide)];
           El "p" [child_string (titleSubheading emptyChartTitleSlide)];
           footer] /\
    titleSubheading emptyChartTitleSlide =
      match chartTitle (content emptyChartTitleSlide) with
      | Some (c :: s) => Some (c :: s)
      | _ => match bullets (content emptyChartTitleSlide) with
             | Some (b :: _) => Some b
             | _ => None
             end
      end.
Proof.
  apply (@title_slide_subheading (num 2025) emptyChartTitleSlide). reflexivity.
Defined.

(* --------------------------------------------------------------------- *)
(** ** The synthesis result acceptor: [generateDeck] *)

Lemma getClient_ok (env : Environment) (key : jsstring) (tr : list Event) :
  API_KEY env = Some key -> truthy_string key = true ->
  getClient env tr = (Returned {| apiKey := key |}, tr).
Proof. intros Hk Ht. unfold getClient. now rewrite Hk, Ht. Qed.

Lemma JSON_parse_nonempty (t : jsstring) (v : JsValue) :
  JSON_parse t = Some v -> truthy_string t = true.
Proof. destruct t; [discriminate|reflexivity]. Qed.

(** C1, as stated, fails: a response with an empty [slides] sequence, one
    without [slides], and one with a layout outside the closed set are all
    returned as decks. *)
Lemma generateDeck_accepts_schema_violations :
  (exists deck,
     result (generateDeck (answering emptySlidesText) [] (js "Q3 review"))
       = Returned deck /\
     get_prop match deck with JObject o => o | _ => [] end (js "slides")
       = Some (JArray []) /\
     schema_invariants deck = false) /\
  (exists deck,
     result (generateDeck (answering missingSlidesText) [] (js "Q3 review"))
       = Returned deck /\
     get_prop match deck with JObject o => o | _ => [] end (js "slides")
       = None /\
     schema_invariants deck = false) /\
  (exists deck,
     result (generateDeck (answering unknownLayoutText) [] (js "Q3 review"))
       = Returned deck /\
     schema_invariants deck = false).
Proof.
  repeat split; eexists; repeat split; vm_compute; reflexivity.
Qed.

(** A call whose response text parses returns the parsed value, and the
    trace gains the one request. *)
Lemma generateDeck_parsed
      (env : Environment) (files : list FileInput) (userPrompt : jsstring)
      (key : jsstring) (response : GenerateContentResponse)
      (t : jsstring) (deck : JsValue) (tr : list Event) :
  API_KEY env = Some key ->
  truthy_string key = true ->
  service env key (deckRequest files userPrompt) = Returned response ->
  response_text response = Some t ->
  JSON_parse t = Some deck ->
  generateDeck env files userPrompt tr
    = (Returned deck, tr ++ [Call (deckRequest files userPrompt)]).
Proof.
  intros Hk Ht Hs Hr Hp.
  unfold generateDeck, bind, try_catch.
  rewrite (getClient_ok env tr Hk Ht).
  unfold generateContent. simpl. rewrite Hs, Hr.
  rewrite (JSON_parse_nonempty t Hp). simpl. rewrite Hp. reflexivity.
Qed.

(** C1 (amended): for every response whose text parses as structured
    data, [generateDeck] returns the parsed value itself as the deck; no
    schema invariant is checked on the way, the schema being only sent to
    the service with the request. *)
Theorem generateDeck_returns_parsed_response
        (env : Environment) (files : list FileInput) (userPrompt : jsstring)
        (key : jsstring) (response : GenerateContentResponse)
        (t : jsstring) (deck : JsValue) (tr : list Event) :
  API_KEY env = Some key ->
  truthy_string key = true ->
  service env key (deckRequest files userPrompt) = Returned response ->
  response_text response = Some t ->
  JSON_parse t = Some deck ->
  generateDeck env files userPrompt tr
    = (Returned deck, tr ++ [Call (deckRequest files userPrompt)]) /\
  In (Call (deckRequest files userPrompt))
     (snd (generateDeck env files userPrompt tr)) /\
  responseSchema_of (deckRequest files userPrompt) = Some DECK_SCHEMA.
Proof.
  intros Hk Ht Hs Hr Hp.
  rewrite (generateDeck_parsed env files userPrompt tr Hk Ht Hs Hr Hp).
  repeat split. cbn [snd]. apply in_or_app. right. now left.
Qed.

Lemma generateDeck_returns_parsed_response_witness :
  generateDeck (answering emptySlidesText) [] (js "Q3 review") []
    = (Returned (JObject [(js "title", JString (js "Q3"));
                          (js "slides", JArray [])]),
       [] ++ [Call (deckRequest [] (js "Q3 review"))]) /\
  In (Call (deckRequest [] (js "Q3 review")))
     (snd (generateDeck (answering emptySlidesText) [] (js "Q3 review") [])) /\
  responseSchema_of (deckRequest [] (js "Q3 review")) = Some DECK_SCHEMA.
Proof.
  apply (@generateDeck_returns_parsed_response
           (answering emptySlidesText) [] (js "Q3 review") (js "k")
           {| response_text := Some emptySlidesText; candidates := None |}
           emptySlidesText);
    reflexivity.
Defined.

(** C4: for every response whose text is not parseable as structured data,
    [generateDeck] fails and produces no deck.  The failure is the Error
    made in the catch block; the console receives the error caught, the
    SyntaxError of [JSON.parse] (for an empty text, the Error "No response
    generated").  No response whose text parses ends in this failure,
    whatever its shape, so the failure is never that of a schema check. *)
Theorem generateDeck_fails_on_unparseable_text
        (env : Environment) (files : list FileInput) (userPrompt : jsstring)
        (key : jsstring) (response : GenerateContentResponse)
        (t : jsstring) (tr : list Event) :
  API_KEY env = Some key ->
  truthy_string key = true ->
  service env key (deckRequest files userPrompt) = Returned response ->
  response_text response = Some t ->
  JSON_parse t = None ->
  generateDeck env files userPrompt tr
    = (Threw deckFailure,
       tr ++ [Call (deckRequest files userPrompt)]
          ++ [ConsoleError (js "Gemini API Error:")
                (if truthy_string t then SyntaxError
                 else Error (js "No response generated"))]) /\
  (forall deck, fst (generateDeck env files userPrompt tr) <> Returned deck) /\
  (forall env' key' response' t' deck' tr',
     API_KEY env' = Some key' ->
     truthy_string key' = true ->
     service env' key' (deckRequest files userPrompt) = Returned response' ->
     response_text response' = Some t' ->
     JSON_parse t' = Some deck' ->
     fst (generateDeck env' files userPrompt tr') <> Threw deckFailure).
Proof.
  intros Hk Ht Hs Hr Hp.
  assert (E : generateDeck env files userPrompt tr
    = (Threw deckFailure,
       tr ++ [Call (deckRequest files userPrompt)]
          ++ [ConsoleError (js "Gemini API Error:")
                (if truthy_string t then SyntaxError
                 else Error (js "No response generated"))])).
  { unfold generateDeck, bind, try_catch.
    rewrite (getClient_ok env tr Hk Ht).
    unfold generateContent. simpl. rewrite Hs, Hr.
    destruct (truthy_string t); simpl.
    - rewrite Hp. unfold throw, emit. now rewrite <- app_assoc.
    - unfold throw, emit. now rewrite <- app_assoc. }
  split; [exact E|split].
  - intros deck. rewrite E. discriminate.
  - intros env' key' response' t' deck' tr' Hk' Ht' Hs' Hr' Hp'.
    rewrite (generateDeck_parsed env' files userPrompt
               tr' Hk' Ht' Hs' Hr' Hp').
    discriminate.
Qed.

Lemma generateDeck_fails_on_unparseable_text_witness :
  generateDeck (answering (js "Sure! Here is your deck:")) [] (js "Q3") []
    = (Threw deckFailure,
       [] ++ [Call (deckRequest [] (js "Q3"))]
          ++ [ConsoleError (js "Gemini API Error:")
                (if truthy_string (js "Sure! Here is your deck:")
                 then SyntaxError
                 else Error (js "No response generated"))]) /\
  (forall deck,
     fst (generateDeck (answering (js "Sure! Here is your deck:")) []
            (js "Q3") []) <> Returned deck) /\
  (forall env' key' response' t' deck' tr',
     API_KEY env' = Some key' ->
     truthy_string key' = true ->
     service env' key' (deckRequest [] (js "Q3")) = Returned response' ->
     response_text response' = Some t' ->
     JSON_parse t' = Some deck' ->
     fst (generateDeck env' [] (js "Q3") tr') <> Threw deckFailure).
Proof.
  apply (@generateDeck_fails_on_unparseable_text
           (answering (js "Sure! Here is your deck:")) [] (js "Q3") (js "k")
           {| response_text := Some (js "Sure! Here is your deck:");
              candidates := None |}
           (js "Sure! Here is your deck:"));
    reflexivity.
Defined.

(* --------------------------------------------------------------------- *)
(** ** The image pipeline: [generateInfographic] *)

(** What the extraction loop returns: the payload of the first part that
    carries inline data, or the failure when no part does. *)
Lemma extractImage_first (pre : list Part) (part : Part) (post : list Part)
      (blob : Blob) :
  Forall (fun p => inlineData p = None) pre ->
  inlineData part = Some blob ->
  extractImage (pre ++ part :: post)
    = Returned (dataUriPrefix ++ interpolate (data blob)).
Proof.
  intros Hpre Hpart. induction Hpre as [|p pre Hp _ IH]; simpl.
  - now rewrite Hpart.
  - now rewrite Hp.
Qed.

Lemma extractImage_none (ps : list Part) :
  Forall (fun p => inlineData p = None) ps ->
  extractImage ps = Threw infographicFailure.
Proof.
  intros H. induction H as [|p ps Hp _ IH]; simpl; [reflexivity|].
  now rewrite Hp.
Qed.

Lemma extractImage_cases (ps : list Part) :
  (exists pre part post blob,
     ps = pre ++ part :: post /\
     Forall (fun p => inlineData p = None) pre /\
     inlineData part = Some blob /\
     extractImage ps = Returned (dataUriPrefix ++ interpolate (data blob))) \/
  (Forall (fun p => inlineData p = None) ps /\
   extractImage ps = Threw infographicFailure).
Proof.
  induction ps as [|p ps IH]; simpl.
  - right. split; constructor.
  - destruct (inlineData p) as [blob|] eqn:E.
    + left. exists [], p, ps, blob. repeat split; auto.
    + destruct IH as [(pre & part & post & blob & -> & Hpre & Hpart & Hx)
                     |[Hall Hx]].
      * left. exists (p :: pre), part, post, blob. repeat split; auto.
      * right. split; auto.
Qed.



Definition imagePromptOf (r : GenerateContentResponse) : jsstring :=
  match or_string (response_text r) (Some defaultBrief) with
  | Some p => p
  | None => defaultBrief
  end.

(** One run of the pipeline when both calls are answered. *)
Lemma generateInfographic_run
      (env : Environment) (files : list FileInput) (userPrompt : jsstring)
      (key : jsstring) (textResponse imageResponse : GenerateContentResponse)
      (tr : list Event) :
  API_KEY env = Some key ->
  truthy_string key = true ->
  service env key (briefRequest files userPrompt) = Returned textResponse ->
  service env key (imageRequest (imagePromptOf textResponse))
    = Returned imageResponse ->
  generateInfographic env files userPrompt tr
    = (extractImage (firstCandidateParts imageResponse),
       tr ++ [Call (briefRequest files userPrompt);
              ConsoleLog (js "Generated Image Prompt:")
                         (imagePromptOf textResponse);
              Call (imageRequest (imagePromptOf textResponse))]).
Proof.
  intros Hk Ht Hs1 Hs2.
  unfold generateInfographic, bind.
  rewrite (getClient_ok env tr Hk Ht).
  unfold generateContent at 1. simpl. rewrite Hs1.
  fold (imagePromptOf textResponse).
  unfold emit.
  rewrite (getClient_ok env _ Hk Ht).
  unfold generateContent. simpl. rewrite Hs2.
  repeat rewrite <- app_assoc. reflexivity.
Qed.

(** C3, as stated, fails: with the picture in the second candidate the
    call throws, although a part of a candidate carries an inline image. *)
Lemma generateInfographic_ignores_later_candidates :
  extractImage (allCandidateParts secondCandidateResponse)
    = Returned (js "data:image/png;base64,iVBORw0KGgo=") /\
  result (generateInfographic (responding secondCandidateResponse) []
            (js "Q3 review"))
    = Threw infographicFailure.
Proof. split; reflexivity. Qed.

(** C3 (amended): [generateInfographic] scans, in order, the content parts
    of the first candidate only, and returns the first inline payload
    found there as a data URI; if the first candidate is missing or none
    of its parts carries inline data, it throws the Error "Failed to
    generate infographic image.".  Either way the image request is sent
    exactly once: nothing is retried. *)
Theorem generateInfographic_scans_first_candidate
        (env : Environment) (files : list FileInput) (userPrompt : jsstring)
        (key : jsstring) (textResponse imageResponse : GenerateContentResponse)
        (tr : list Event) :
  API_KEY env = Some key ->
  truthy_string key = true ->
  service env key (briefRequest files userPrompt) = Returned textResponse ->
  service env key (imageRequest (imagePromptOf textResponse))
    = Returned imageResponse ->
  snd (generateInfographic env files userPrompt tr)
    = tr ++ [Call (briefRequest files userPrompt);
             ConsoleLog (js "Generated Image Prompt:")
                        (imagePromptOf textResponse);
             Call (imageRequest (imagePromptOf textResponse))] /\
  ((exists pre part post blob,
      firstCandidateParts imageResponse = pre ++ part :: post /\
      Forall (fun p => inlineData p = None) pre /\
      inlineData part = Some blob /\
      fst (generateInfographic env files userPrompt tr)
        = Returned (js "data:image/png;base64," ++ interpolate (data blob))) \/
   (Forall (fun p => inlineData p = None)
           (firstCandidateParts imageResponse) /\
    fst (generateInfographic env files userPrompt tr)
      = Threw (Error (js "Failed to generate infographic image.")))).
Proof.
  intros Hk Ht Hs1 Hs2.
  rewrite (generateInfographic_run env files userPrompt tr Hk Ht Hs1 Hs2).
  split; [reflexivity|]. simpl.
  exact (extractImage_cases (firstCandidateParts imageResponse)).
Qed.

Lemma generateInfographic_scans_first_candidate_witness :
  snd (generateInfographic (responding firstCandidateResponse) []
         (js "Q3 review") [])
    = [] ++ [Call (briefRequest [] (js "Q3 review"));
             ConsoleLog (js "Generated Image Prompt:")
                        (imagePromptOf firstCandidateResponse);
             Call (imageRequest (imagePromptOf firstCandidateResponse))] /\
  ((exists pre part post blob,
      firstCandidateParts firstCandidateResponse = pre ++ part :: post /\
      Forall (fun p => inlineData p = None) pre /\
      inlineData part = Some blob /\
      fst (generateInfographic (responding firstCandidateResponse) []
             (js "Q3 review") [])
        = Returned (js "data:image/png;base64," ++ interpolate (data blob))) \/
   (Forall (fun p => inlineData p = None)
           (firstCandidateParts firstCandidateResponse) /\
    fst (generateInfographic (responding firstCandidateResponse) []
           (js "Q3 review") [])
      = Threw (Error (js "Failed to generate infographic image.")))).
Proof.
  apply (@generateInfographic_scans_first_candidate
           (responding firstCandidateResponse) [] (js "Q3 review") (js "k")
           firstCandidateResponse firstCandidateResponse);
    reflexivity.
Defined.

(** The ways [generateInfographic] can end: it throws before any image
    response is read, or it ends with the extraction from one. *)
Lemma generateInfographic_returned
      (env : Environment) (files : list FileInput) (userPrompt : jsstring)
      (tr tr' : list Event) (uri : jsstring) :
  generateInfographic env files userPrompt tr = (Returned uri, tr') ->
  exists key textResponse imageResponse,
    API_KEY env = Some key /\ truthy_string key = true /\
    service env key (briefRequest files userPrompt) = Returned textResponse /\
    service env key (imageRequest (imagePromptOf textResponse))
      = Returned imageResponse /\
    extractImage (firstCandidateParts imageResponse) = Returned uri.
Proof.
  unfold generateInfographic, bind, getClient.
  destruct (API_KEY env) as [key|] eqn:Hk; [|discriminate].
  destruct (truthy_string key) eqn:Ht; simpl; [|discriminate].
  destruct (service env key (briefRequest files userPrompt))
    as [textResponse|e] eqn:Hs1; [|discriminate].
  fold (imagePromptOf textResponse).
  destruct (service env key (imageRequest (imagePromptOf textResponse)))
    as [imageResponse|e] eqn:Hs2; [|discriminate].
  intros H. injection H as Hx _.
  exists key, textResponse, imageResponse. auto.
Qed.



(* --------------------------------------------------------------------- *)
(** ** Strings survive [QuoteJSONString] and [parse_string] *)









(* --------------------------------------------------------------------- *)
(** ** Numbers that read back *)








(* --------------------------------------------------------------------- *)
(** ** White space *)



Lemma blank_app (a b : jsstring) : blank a -> blank b -> blank (a ++ b).
Proof. unfold blank. rewrite forallb_app. intros -> ->. reflexivity. Qed.

Lemma blank_gap : blank gap.
Proof. reflexivity. Qed.

Lemma blank_newline : blank newline.
Proof. reflexivity. Qed.

(* --------------------------------------------------------------------- *)
(** ** Objects in property order *)











(* --------------------------------------------------------------------- *)
(** ** Values survive [JSON.stringify] and [JSON.parse] *)

Lemma JsValue_induction (P : JsValue -> Prop) :
  P JNull ->
  (forall b, P (JBool b)) ->
  (forall x, P (JNumber x)) ->
  (forall s, P (JString s)) ->
  (forall elements, Forall P elements -> P (JArray elements)) ->
  (forall members, Forall (fun kv => P (snd kv)) members ->
                   P (JObject members)) ->
  forall v, P v.
Proof.
  intros HN HB HX HS HA HO. fix IH 1. intros [ |b|x|s|elements|members].
  - exact HN.
  - apply HB.
  - apply HX.
  - apply HS.
  - apply HA. induction elements as [|x xs IHxs]; constructor.
    + apply IH.
    + exact IHxs.
  - apply HO. induction members as [|[k x] xs IHxs]; constructor.
    + apply IH.
    + exact IHxs.
Qed.






Lemma join_cons (sep t u : jsstring) (us : list jsstring) :
  join sep (t :: u :: us) = t ++ sep ++ join sep (u :: us).
Proof. reflexivity. Qed.











(* --------------------------------------------------------------------- *)
(** ** Strings survive [encodeURIComponent] and [decodeURIComponent] *)






Lemma unreserved_plain (c : code_unit) :
  is_unreserved c = true ->
  c <> 37%N /\ is_high_surrogate c = false /\ is_low_surrogate c = false /\
  (c < 128)%N.
Proof.
  unfold is_unreserved, is_high_surrogate, is_low_surrogate.
  rewrite !orb_true_iff, !andb_true_iff, !N.leb_le, !N.eqb_eq.
  intros H. repeat split; try lia; apply andb_false_iff;
    rewrite !N.leb_gt; lia.
Qed.



Lemma surrogate_bounds (c : code_unit) :
  (is_high_surrogate c = true <-> (55296 <= c <= 56319)%N) /\
  (is_low_surrogate c = true <-> (56320 <= c <= 57343)%N).
Proof.
  unfold is_high_surrogate, is_low_surrogate.
  rewrite !andb_true_iff, !N.leb_le. tauto.
Qed.

Lemma surrogate_false (c : code_unit) :
  is_high_surrogate c = false -> is_low_surrogate c = false ->
  (c < 55296 \/ 57343 < c)%N.
Proof.
  unfold is_high_surrogate, is_low_surrogate.
  rewrite !andb_false_iff, !N.leb_gt. lia.
Qed.




(* --------------------------------------------------------------------- *)
(** ** The text [JSON.stringify] writes can be exported *)

Lemma encode_app_bounded (n : nat) :
  forall a b ea eb,
    List.length a <= n ->
    encodeURIComponent a = Some ea -> encodeURIComponent b = Some eb ->
    encodeURIComponent (a ++ b) = Some (ea ++ eb).
Proof.
  induction n as [|n IH]; intros a b ea eb Hn Ha Hb.
  - destruct a; [|cbn in Hn; lia]. injection Ha as <-. exact Hb.
  - destruct a as [|c r]; [injection Ha as <-; exact Hb|].
    cbn [List.length] in Hn. cbn [app encodeURIComponent] in *.
    destruct (is_unreserved c).
    + destruct (encodeURIComponent r) as [e'|] eqn:Er; [|discriminate].
      injection Ha as <-.
      rewrite (IH r b e' eb) by (auto; lia). reflexivity.
    + destruct (is_low_surrogate c); [discriminate|].
      destruct (is_high_surrogate c).
      * destruct r as [|d r']; [discriminate|]. cbn [app].
        destruct (is_low_surrogate d); [|discriminate].
        destruct (encodeURIComponent r') as [e'|] eqn:Er; [|discriminate].
        injection Ha as <-. cbn [List.length] in Hn.
        rewrite (IH r' b e' eb) by (auto; lia).
        cbn [prepend]. now rewrite app_assoc.
      * destruct (encodeURIComponent r) as [e'|] eqn:Er; [|discriminate].
        injection Ha as <-.
        rewrite (IH r b e' eb) by (auto; lia).
        cbn [prepend]. now rewrite app_assoc.
Qed.

Lemma exportable_app (a b : jsstring) :
  exportable a -> exportable b -> exportable (a ++ b).
Proof.
  intros [Va [ea Ha]] [Vb [eb Hb]]. split.
  - unfold valid_string in *. now rewrite forallb_app, Va, Vb.
  - exists (ea ++ eb).
    now apply encode_app_bounded with (n := List.length a).
Qed.

Lemma exportable_nil : exportable [].
Proof. split; [reflexivity|now exists []]. Qed.

Lemma exportable_plain (s : jsstring) : plain s = true -> exportable s.
Proof.
  induction s as [|c r IH]; [intros _; exact exportable_nil|].
  cbn [plain forallb]. rewrite andb_true_iff. intros [Hc Hr].
  change (c :: r) with ([c] ++ r). apply exportable_app; [|now apply IH].
  rewrite orb_true_iff, andb_true_iff, !N.ltb_lt in Hc.
  split.
  - cbn. rewrite andb_true_r. apply N.ltb_lt. lia.
  - cbn [encodeURIComponent].
    destruct (is_unreserved c); [now eexists|].
    replace (is_low_surrogate c) with false.
    2:{ symmetry. apply andb_false_iff. rewrite !N.leb_gt. lia. }
    replace (is_high_surrogate c) with false.
    2:{ symmetry. apply andb_false_iff. rewrite !N.leb_gt. lia. }
    now eexists.
Qed.

Lemma exportable_pair (hi lo : code_unit) :
  is_high_surrogate hi = true -> is_low_surrogate lo = true ->
  exportable [hi; lo].
Proof.
  intros Hh Hl.
  destruct (surrogate_bounds hi) as [Bh _], (surrogate_bounds lo) as [_ Bl].
  apply Bh in Hh as Rh. apply Bl in Hl as Rl. split.
  - cbn. rewrite andb_true_r. apply andb_true_iff.
    split; apply N.ltb_lt; lia.
  - cbn [encodeURIComponent].
    replace (is_unreserved hi) with false.
    2:{ symmetry. destruct (is_unreserved hi) eqn:E; [|reflexivity].
        apply unreserved_plain in E. lia. }
    replace (is_low_surrogate hi) with false.
    2:{ symmetry. apply andb_false_iff. rewrite !N.leb_gt. lia. }
    rewrite Hh, Hl. now eexists.
Qed.

Lemma plain_hex_digit (d : N) : (d < 16)%N -> (hex_digit d < 128)%N.
Proof. unfold hex_digit. destruct (d <? 10)%N eqn:E; lia. Qed.

Lemma plain_unicode_escape (c : code_unit) :
  (c < 65536)%N -> plain (unicode_escape c) = true.
Proof.
  intros Hc. unfold unicode_escape, plain. cbn [forallb].
  assert (H1 : (hex_digit (c / 4096) < 128)%N)
    by (apply plain_hex_digit, N.Div0.div_lt_upper_bound; lia).
  assert (H2 : (hex_digit ((c / 256) mod 16) < 128)%N)
    by (apply plain_hex_digit, N.mod_lt; lia).
  assert (H3 : (hex_digit ((c / 16) mod 16) < 128)%N)
    by (apply plain_hex_digit, N.mod_lt; lia).
  assert (H4 : (hex_digit (c mod 16) < 128)%N)
    by (apply plain_hex_digit, N.mod_lt; lia).
  repeat (apply andb_true_iff; split); try reflexivity;
    apply orb_true_iff; left; apply N.ltb_lt; lia.
Qed.

Lemma plain_quote_char (c : code_unit) :
  (c < 65536)%N -> is_high_surrogate c = false ->
  is_low_surrogate c = false -> plain (quote_char c) = true.
Proof.
  intros Hc Hh Hl. unfold quote_char.
  repeat match goal with
         | |- context [(c =? ?k)%N] => destruct (c =? k)%N; [reflexivity|]
         end.
  destruct (c <? 32)%N; [now apply plain_unicode_escape|].
  cbn [plain forallb]. rewrite andb_true_r.
  destruct (surrogate_false c Hh Hl) as [H|H].
  - apply orb_true_iff. left. now apply N.ltb_lt.
  - apply orb_true_iff. right. apply andb_true_iff.
    split; now apply N.ltb_lt.
Qed.

Lemma exportable_quote_chars_bounded (n : nat) :
  forall s, List.length s <= n -> valid_string s = true ->
            exportable (quote_chars s).
Proof.
  induction n as [|n IH]; intros s Hn Hv.
  - destruct s; [exact exportable_nil|cbn in Hn; lia].
  - destruct s as [|c r]; [exact exportable_nil|].
    cbn [List.length] in Hn.
    cbn [valid_string forallb] in Hv. apply andb_true_iff in Hv as [Hc Hv].
    apply N.ltb_lt in Hc. cbn [quote_chars].
    destruct (is_high_surrogate c) eqn:Hh.
    + destruct r as [|d r'].
      * apply exportable_plain. now apply plain_unicode_escape.
      * destruct (is_low_surrogate d) eqn:Hl.
        -- change (c :: d :: quote_chars r')
             with ([c; d] ++ quote_chars r').
           apply exportable_app; [now apply exportable_pair|].
           cbn [valid_string forallb] in Hv.
           apply andb_true_iff in Hv as [_ Hv].
           cbn [List.length] in Hn. apply IH; [lia|exact Hv].
        -- apply exportable_app.
           ++ apply exportable_plain. now apply plain_unicode_escape.
           ++ apply IH; [lia|exact Hv].
    + destruct (is_low_surrogate c) eqn:Hl.
      * apply exportable_app.
        -- apply exportable_plain. now apply plain_unicode_escape.
        -- apply IH; [lia|exact Hv].
      * apply exportable_app.
        -- apply exportable_plain. now apply plain_quote_char.
        -- apply IH; [lia|exact Hv].
Qed.

Lemma exportable_quoted (s : jsstring) :
  valid_string s = true -> exportable (QuoteJSONString s).
Proof.
  intros Hv. unfold QuoteJSONString.
  apply exportable_app; [now apply exportable_plain|].
  apply exportable_app; [|now apply exportable_plain].
  now apply exportable_quote_chars_bounded with (n := List.length s).
Qed.


Lemma plain_blank (s : jsstring) : blank s -> plain s = true.
Proof.
  unfold blank, plain. induction s as [|c r IH]; [reflexivity|].
  cbn [forallb]. rewrite !andb_true_iff. intros [Hc Hr].
  split; [|now apply IH].
  apply orb_true_iff. left. apply N.ltb_lt.
  unfold is_ws in Hc. rewrite !orb_true_iff, !N.eqb_eq in Hc. lia.
Qed.

Lemma exportable_join (sep : jsstring) (ts : list jsstring) :
  exportable sep -> Forall exportable ts -> exportable (join sep ts).
Proof.
  intros Hsep H. induction H as [|t ts Ht Hts IH]; [exact exportable_nil|].
  destruct ts as [|u us]; [exact Ht|].
  rewrite join_cons. repeat apply exportable_app; assumption.
Qed.


(* --------------------------------------------------------------------- *)
(** ** Array indices are canonical *)




(* --------------------------------------------------------------------- *)
(** ** [CreateDataProperty] keeps objects in property order *)











(* --------------------------------------------------------------------- *)
(** ** What [JSON.parse] returns is a value of the running program *)















(* --------------------------------------------------------------------- *)
(** ** The recursion depth [JSON.parse] allows is enough *)

Lemma parse_fuel_mono (fuel : nat) :
  (forall s r, parse_value fuel s = Some r ->
     forall fuel', fuel <= fuel' -> parse_value fuel' s = Some r) /\
  (forall s r, parse_elements fuel s = Some r ->
     forall fuel', fuel <= fuel' -> parse_elements fuel' s = Some r) /\
  (forall s r, parse_members fuel s = Some r ->
     forall fuel', fuel <= fuel' -> parse_members fuel' s = Some r).
Proof.
  induction fuel as [|fuel (IHv & IHe & IHm)];
    [repeat split; discriminate|].
  split; [|split]; intros s res E [|fuel'] Hle; try lia;
    apply le_S_n in Hle.
  - cbn [parse_value] in E |- *.
    destruct (skip_ws s) as [|c r]; [discriminate|].
    destruct (c =? 34)%N; [exact E|].
    destruct (c =? 91)%N.
    { destruct (skip_ws r) as [|d r']; [discriminate|].
      destruct (d =? 93)%N; [exact E|].
      destruct (parse_elements fuel r) as [[vs rest]|] eqn:Ee;
        [|discriminate].
      now rewrite (IHe _ _ Ee fuel' Hle). }
    destruct (c =? 123)%N.
    { destruct (skip_ws r) as [|d r']; [discriminate|].
      destruct (d =? 125)%N; [exact E|].
      destruct (parse_members fuel r) as [[kvs rest]|] eqn:Em;
        [|discriminate].
      now rewrite (IHm _ _ Em fuel' Hle). }
    exact E.
  - cbn [parse_elements] in E |- *.
    destruct (parse_value fuel s) as [[v rest1]|] eqn:Ev; [|discriminate].
    rewrite (IHv _ _ Ev fuel' Hle).
    destruct (skip_ws rest1) as [|c r]; [discriminate|].
    destruct (c =? 44)%N; [|exact E].
    destruct (parse_elements fuel r) as [[vs rest]|] eqn:Ee; [|discriminate].
    now rewrite (IHe _ _ Ee fuel' Hle).
  - cbn [parse_members] in E |- *.
    destruct (skip_ws s) as [|c r]; [discriminate|].
    destruct (c =? 34)%N; [|discriminate].
    destruct (parse_string r) as [[k rest1]|]; [|discriminate].
    destruct (skip_ws rest1) as [|c2 r2]; [discriminate|].
    destruct (c2 =? 58)%N; [|discriminate].
    destruct (parse_value fuel r2) as [[v rest2]|] eqn:Ev; [|discriminate].
    rewrite (IHv _ _ Ev fuel' Hle).
    destruct (skip_ws rest2) as [|c3 r3]; [discriminate|].
    destruct (c3 =? 44)%N; [|exact E].
    destruct (parse_members fuel r3) as [[kvs rest]|] eqn:Em; [|discriminate].
    now rewrite (IHm _ _ Em fuel' Hle).
Qed.

Lemma skip_ws_length (s : jsstring) :
  List.length (skip_ws s) <= List.length s.
Proof.
  induction s as [|c s IH]; [reflexivity|].
  cbn [skip_ws]. destruct (is_ws c); cbn [List.length]; lia.
Qed.

Lemma parse_string_length_bounded (n : nat) :
  forall s str rest,
    List.length s <= n -> parse_string s = Some (str, rest) ->
    List.length rest < List.length s.
Proof.
  induction n as [|n IH]; intros s str rest Hn E.
  - destruct s; [discriminate|cbn in Hn; lia].
  - destruct s as [|c r]; [discriminate|].
    cbn [List.length] in Hn |- *. cbn [parse_string] in E.
    destruct (c =? 34)%N; [injection E as <- <-; lia|].
    destruct (c =? 92)%N.
    + destruct r as [|e r']; [discriminate|]. cbn [List.length] in *.
      destruct (e =? 117)%N.
      * destruct r' as [|h1 [|h2 [|h3 [|h4 r'']]]]; try discriminate.
        destruct (hex4 h1 h2 h3 h4); [|discriminate].
        destruct (parse_string r'') as [[str' rest']|] eqn:Ep;
          [|discriminate].
        injection E as <- <-. cbn [List.length] in *.
        assert (List.length rest' < List.length r'')
          by (eapply IH; [|exact Ep]; lia).
        lia.
      * destruct (unescape e); [|discriminate].
        destruct (parse_string r') as [[str' rest']|] eqn:Ep;
          [|discriminate].
        injection E as <- <-.
        assert (List.length rest' < List.length r')
          by (eapply IH; [|exact Ep]; lia).
        lia.
    + destruct (c <? 32)%N; [discriminate|].
      destruct (parse_string r) as [[str' rest']|] eqn:Ep; [|discriminate].
      injection E as <- <-.
      assert (List.length rest' < List.length r)
        by (eapply IH; [|exact Ep]; lia).
      lia.
Qed.

Lemma parse_string_length (s str rest : jsstring) :
  parse_string s = Some (str, rest) -> List.length rest < List.length s.
Proof. apply parse_string_length_bounded with (n := List.length s). lia. Qed.

Lemma span_number_length (s t rest : jsstring) :
  span_number s = (t, rest) ->
  List.length s = List.length t + List.length rest.
Proof.
  revert t rest. induction s as [|c s IH]; intros t rest E.
  - injection E as <- <-. reflexivity.
  - cbn [span_number] in E. destruct (is_number_char c).
    + destruct (span_number s) as [t' rest'] eqn:Es.
      injection E as <- <-. cbn [List.length]. now rewrite (IH t' rest').
    + injection E as <- <-. reflexivity.
Qed.

Lemma parse_number_length (s : jsstring) (v : JsValue) (rest : jsstring) :
  parse_number s = Some (v, rest) -> List.length rest < List.length s.
Proof.
  unfold parse_number. destruct (span_number s) as [t rest'] eqn:Es.
  destruct (parse_number_token t) as [x|] eqn:Et; [|discriminate].
  intros H. injection H as _ <-.
  apply span_number_length in Es.
  destruct t; [discriminate|]. cbn [List.length] in Es. lia.
Qed.

(** A successful parse consumes something, and the number of characters
    it consumes is enough recursion depth for it. *)
Lemma parse_fuel_consumed (fuel : nat) :
  (forall s v rest, parse_value fuel s = Some (v, rest) ->
     List.length rest < List.length s /\
     parse_value (List.length s - List.length rest) s = Some (v, rest)) /\
  (forall s vs rest, parse_elements fuel s = Some (vs, rest) ->
     List.length rest < List.length s /\
     parse_elements (List.length s - List.length rest) s = Some (vs, rest)) /\
  (forall s kvs rest, parse_members fuel s = Some (kvs, rest) ->
     List.length rest < List.length s /\
     parse_members (List.length s - List.length rest) s = Some (kvs, rest)).
Proof.
  induction fuel as [|fuel (IHv & IHe & IHm)];
    [repeat split; discriminate|].
  split; [|split].
  - intros s v rest E.
    pose proof (skip_ws_length s) as Hs.
    cbn [parse_value] in E.
    destruct (skip_ws s) as [|c r] eqn:Es; [discriminate|].
    cbn [List.length] in Hs.
    assert (scalar : forall res : option (JsValue * list N),
              res = Some (v, rest) ->
              (forall k, parse_value (S k) s = res) ->
              List.length rest < List.length (c :: r) ->
              List.length rest < List.length s /\
              parse_value (List.length s - List.length rest) s
              = Some (v, rest)).
    { intros res Hres Hk Hlen. cbn [List.length] in Hlen.
      split; [lia|].
      replace (List.length s - List.length rest)
        with (S (List.length s - List.length rest - 1)) by lia.
      now rewrite Hk. }
    destruct (c =? 34)%N eqn:E34.
    { destruct (parse_string r) as [[str rest']|] eqn:Ep; [|discriminate].
      apply (scalar (Some (JString str, rest'))); [exact E| |].
      - intros k. cbn [parse_value]. now rewrite Es, E34, Ep.
      - injection E as _ <-. apply parse_string_length in Ep.
        cbn [List.length]. lia. }
    destruct (c =? 91)%N eqn:E91.
    { pose proof (skip_ws_length r) as Hr.
      destruct (skip_ws r) as [|d r'] eqn:Er; [discriminate|].
      cbn [List.length] in Hr.
      destruct (d =? 93)%N eqn:E93.
      - apply (scalar (Some (JArray [], r'))); [exact E| |].
        + intros k. cbn [parse_value]. now rewrite Es, E34, E91, Er, E93.
        + injection E as _ <-. cbn [List.length]. lia.
      - destruct (parse_elements fuel r) as [[vs rest']|] eqn:Ee;
          [|discriminate].
        injection E as <- <-.
        destruct (IHe r vs rest' Ee) as [Hlen Hfuel].
        split; [lia|].
        replace (List.length s - List.length rest')
          with (S (List.length s - List.length rest' - 1)) by lia.
        cbn [parse_value]. rewrite Es, E34, E91, Er, E93.
        destruct (parse_fuel_mono (List.length r - List.length rest'))
          as (_ & Me & _).
        now rewrite (Me _ _ Hfuel (List.length s - List.length rest' - 1))
          by lia. }
    destruct (c =? 123)%N eqn:E123.
    { pose proof (skip_ws_length r) as Hr.
      destruct (skip_ws r) as [|d r'] eqn:Er; [discriminate|].
      cbn [List.length] in Hr.
      destruct (d =? 125)%N eqn:E125.
      - apply (scalar (Some (JObject [], r'))); [exact E| |].
        + intros k. cbn [parse_value].
          now rewrite Es, E34, E91, E123, Er, E125.
        + injection E as _ <-. cbn [List.length]. lia.
      - destruct (parse_members fuel r) as [[kvs rest']|] eqn:Em;
          [|discriminate].
        injection E as <- <-.
        destruct (IHm r kvs rest' Em) as [Hlen Hfuel].
        split; [lia|].
        replace (List.length s - List.length rest')
          with (S (List.length s - List.length rest' - 1)) by lia.
        cbn [parse_value]. rewrite Es, E34, E91, E123, Er, E125.
        destruct (parse_fuel_mono (List.length r - List.length rest'))
          as (_ & _ & Mm).
        now rewrite (Mm _ _ Hfuel (List.length s - List.length rest' - 1))
          by lia. }
    destruct (startsWith (c :: r) (js "true")) eqn:Et.
    { apply (scalar (Some (JBool true, skipn 4 (c :: r)))); [exact E| |].
      - intros k. cbn [parse_value]. now rewrite Es, E34, E91, E123, Et.
      - remember (skipn 4 (c :: r)) as sk eqn:Hsk. injection E as _ <-.
        rewrite Hsk, length_skipn. cbn [List.length]. lia. }
    destruct (startsWith (c :: r) (js "false")) eqn:Ef.
    { apply (scalar (Some (JBool false, skipn 5 (c :: r)))); [exact E| |].
      - intros k. cbn [parse_value]. now rewrite Es, E34, E91, E123, Et, Ef.
      - remember (skipn 5 (c :: r)) as sk eqn:Hsk. injection E as _ <-.
        rewrite Hsk, length_skipn. cbn [List.length]. lia. }
    destruct (startsWith (c :: r) (js "null")) eqn:En.
    { apply (scalar (Some (JNull, skipn 4 (c :: r)))); [exact E| |].
      - intros k. cbn [parse_value].
        now rewrite Es, E34, E91, E123, Et, Ef, En.
      - remember (skipn 4 (c :: r)) as sk eqn:Hsk. injection E as _ <-.
        rewrite Hsk, length_skipn. cbn [List.length]. lia. }
    destruct ((c =? 45)%N || is_digit c) eqn:Ed; [|discriminate].
    apply (scalar (parse_number (c :: r))); [exact E| |].
    + intros k. cbn [parse_value].
      now rewrite Es, E34, E91, E123, Et, Ef, En, Ed.
    + now apply parse_number_length in E.
  - intros s vs rest E. cbn [parse_elements] in E.
    destruct (parse_value fuel s) as [[v rest1]|] eqn:Ev; [|discriminate].
    destruct (IHv s v rest1 Ev) as [Hlen1 Hfuel1].
    pose proof (skip_ws_length rest1) as Hs1.
    destruct (skip_ws rest1) as [|c r] eqn:Es1; [discriminate|].
    cbn [List.length] in Hs1.
    destruct (parse_fuel_mono (List.length s - List.length rest1))
      as (Mv & _ & _).
    destruct (c =? 44)%N eqn:E44.
    + destruct (parse_elements fuel r) as [[vs' rest']|] eqn:Ee;
        [|discriminate].
      injection E as <- <-.
      destruct (IHe r vs' rest' Ee) as [Hlen Hfuel].
      split; [lia|].
      replace (List.length s - List.length rest')
        with (S (List.length s - List.length rest' - 1)) by lia.
      cbn [parse_elements].
      rewrite (Mv _ _ Hfuel1 (List.length s - List.length rest' - 1)) by lia.
      rewrite Es1, E44.
      destruct (parse_fuel_mono (List.length r - List.length rest'))
        as (_ & Me & _).
      now rewrite (Me _ _ Hfuel (List.length s - List.length rest' - 1))
        by lia.
    + destruct (c =? 93)%N eqn:E93; [|discriminate].
      injection E as <- <-.
      split; [lia|].
      replace (List.length s - List.length r)
        with (S (List.length s - List.length r - 1)) by lia.
      cbn [parse_elements].
      rewrite (Mv _ _ Hfuel1 (List.length s - List.length r - 1)) by lia.
      now rewrite Es1, E44, E93.
  - intros s kvs rest E. cbn [parse_members] in E.
    pose proof (skip_ws_length s) as Hs.
    destruct (skip_ws s) as [|c r] eqn:Es; [discriminate|].
    cbn [List.length] in Hs.
    destruct (c =? 34)%N eqn:E34; [|discriminate].
    destruct (parse_string r) as [[k rest1]|] eqn:Ek; [|discriminate].
    pose proof (parse_string_length _ Ek) as Hk.
    pose proof (skip_ws_length rest1) as Hs1.
    destruct (skip_ws rest1) as [|c2 r2] eqn:Es1; [discriminate|].
    cbn [List.length] in Hs1.
    destruct (c2 =? 58)%N eqn:E58; [|discriminate].
    destruct (parse_value fuel r2) as [[v rest2]|] eqn:Ev; [|discriminate].
    destruct (IHv r2 v rest2 Ev) as [Hlen2 Hfuel2].
    pose proof (skip_ws_length rest2) as Hs2.
    destruct (skip_ws rest2) as [|c3 r3] eqn:Es2; [discriminate|].
    cbn [List.length] in Hs2.
    destruct (parse_fuel_mono (List.length r2 - List.length rest2))
      as (Mv & _ & _).
    destruct (c3 =? 44)%N eqn:E44.
    + destruct (parse_members fuel r3) as [[kvs' rest3]|] eqn:Em;
        [|discriminate].
      injection E as <- <-.
      destruct (IHm r3 kvs' rest3 Em) as [Hlen Hfuel].
      split; [lia|].
      replace (List.length s - List.length rest3)
        with (S (List.length s - List.length rest3 - 1)) by lia.
      cbn [parse_members]. rewrite Es, E34, Ek, Es1, E58.
      rewrite (Mv _ _ Hfuel2 (List.length s - List.length rest3 - 1)) by lia.
      rewrite Es2, E44.
      destruct (parse_fuel_mono (List.length r3 - List.length rest3))
        as (_ & _ & Mm).
      now rewrite (Mm _ _ Hfuel (List.length s - List.length rest3 - 1))
        by lia.
    + destruct (c3 =? 125)%N eqn:E125; [|discriminate].
      injection E as <- <-.
      split; [lia|].
      replace (List.length s - List.length r3)
        with (S (List.length s - List.length r3 - 1)) by lia.
      cbn [parse_members]. rewrite Es, E34, Ek, Es1, E58.
      rewrite (Mv _ _ Hfuel2 (List.length s - List.length r3 - 1)) by lia.
      now rewrite Es2, E44, E125.
Qed.

(** [JSON.parse] rejects a text only if no depth of recursion parses it:
    whenever some depth reads a whole value, so does [JSON_parse]. *)
Theorem JSON_parse_complete (text : jsstring) (fuel : nat) (v : JsValue)
        (rest : jsstring) :
  parse_value fuel text = Some (v, rest) -> skip_ws rest = [] ->
  JSON_parse text = Some v.
Proof.
  intros E Hrest. unfold JSON_parse.
  destruct (parse_fuel_consumed fuel) as (Cv & _ & _).
  destruct (Cv text v rest E) as [Hlen Hfuel].
  destruct (parse_fuel_mono (List.length text - List.length rest))
    as (Mv & _ & _).
  rewrite (Mv _ _ Hfuel (S (List.length text))) by lia.
  now rewrite Hrest.
Qed.

(* --------------------------------------------------------------------- *)
(** ** Export *)






(* --------------------------------------------------------------------- *)
(** ** The service calls: credentials, failures, requests *)

Lemma getClient_missing (env : Environment) (tr : list Event) :
  truthy_opt_string (API_KEY env) = false ->
  getClient env tr = (Threw apiKeyFailure, tr).
Proof.
  unfold getClient, truthy_opt_string.
  destruct (API_KEY env) as [key|]; [|reflexivity].
  now intros ->.
Qed.

Lemma getClient_cases (env : Environment) (tr : list Event) :
  (truthy_opt_string (API_KEY env) = false /\
   getClient env tr = (Threw apiKeyFailure, tr)) \/
  (exists key, API_KEY env = Some key /\ truthy_string key = true /\
               getClient env tr = (Returned {| apiKey := key |}, tr)).
Proof.
  destruct (truthy_opt_string (API_KEY env)) eqn:E.
  - right. unfold truthy_opt_string in E.
    destruct (API_KEY env) as [key|] eqn:Hk; [|discriminate].
    exists key. repeat split; auto. now apply getClient_ok.
  - left. split; [reflexivity|now apply getClient_missing].
Qed.

(** X1: when the environment holds no API key, or an empty one, both
    [generateDeck] and [generateInfographic] throw the Error "API Key not
    found in environment variables" itself (the call to [getClient] stands
    outside the [try] of [generateDeck]), and nothing has been sent or
    logged. *)
Theorem services_need_api_key
        (env : Environment) (files : list FileInput) (userPrompt : jsstring)
        (tr : list Event) :
  truthy_opt_string (API_KEY env) = false ->
  generateDeck env files userPrompt tr
    = (Threw (Error (js "API Key not found in environment variables")), tr) /\
  generateInfographic env files userPrompt tr
    = (Threw (Error (js "API Key not found in environment variables")), tr).
Proof.
  intros H. unfold generateDeck, generateInfographic, bind.
  now rewrite (getClient_missing env tr H).
Qed.

Lemma services_need_api_key_witness :
  generateDeck withoutKey [] (js "Q3 review") []
    = (Threw (Error (js "API Key not found in environment variables")), []) /\
  generateInfographic withoutKey [] (js "Q3 review") []
    = (Threw (Error (js "API Key not found in environment variables")), []).
Proof.
  apply (@services_need_api_key withoutKey [] (js "Q3 review") []).
  reflexivity.
Defined.

(** What [generateDeck] does once the client exists. *)
Lemma generateDeck_with_key
      (env : Environment) (files : list FileInput) (userPrompt : jsstring)
      (key : jsstring) (tr : list Event) :
  API_KEY env = Some key -> truthy_string key = true ->
  generateDeck env files userPrompt tr =
    match service env key (deckRequest files userPrompt) with
    | Returned response =>
        match response_text response with
        | Some (c :: t) =>
            match JSON_parse (c :: t) with
            | Some deck =>
                (Returned deck, tr ++ [Call (deckRequest files userPrompt)])
            | None =>
                (Threw deckFailure,
                 tr ++ [Call (deckRequest files userPrompt);
                        ConsoleError (js "Gemini API Error:") SyntaxError])
            end
        | _ =>
            (Threw deckFailure,
             tr ++ [Call (deckRequest files userPrompt);
                    ConsoleError (js "Gemini API Error:")
                      (Error (js "No response generated"))])
        end
    | Threw cause =>
        (Threw deckFailure,
         tr ++ [Call (deckRequest files userPrompt);
                ConsoleError (js "Gemini API Error:") cause])
    end.
Proof.
  intros Hk Ht. unfold generateDeck, bind, try_catch.
  rewrite (getClient_ok env tr Hk Ht).
  unfold generateContent. cbn [apiKey].
  destruct (service env key (deckRequest files userPrompt))
    as [response|cause].
  - destruct (response_text response) as [[|c t]|]; cbn [truthy_string negb].
    + unfold throw, emit. now rewrite <- app_assoc.
    + destruct (JSON_parse (c :: t)); [reflexivity|].
      unfold throw, emit. now rewrite <- app_assoc.
    + unfold throw, emit. now rewrite <- app_assoc.
  - unfold throw, emit. now rewrite <- app_assoc.
Qed.

(** X2: once the client exists, a rejected service call and an answer
    without text make [generateDeck] throw the same Error as an unreadable
    answer, "Failed to generate deck. ..."; the cause (the rejection, or
    the Error "No response generated") is only written to the console,
    after the one request. *)
Theorem generateDeck_hides_the_cause
        (env : Environment) (files : list FileInput) (userPrompt : jsstring)
        (key : jsstring) (cause : Thrown) (tr : list Event) :
  API_KEY env = Some key ->
  truthy_string key = true ->
  (service env key (deckRequest files userPrompt) = Threw cause \/
   exists response,
     service env key (deckRequest files userPrompt) = Returned response /\
     response_text response = None /\
     cause = Error (js "No response generated")) ->
  generateDeck env files userPrompt tr
    = (Threw (Error (js "Failed to generate deck. Please check your inputs and try again.")),
       tr ++ [Call (deckRequest files userPrompt);
              ConsoleError (js "Gemini API Error:") cause]).
Proof.
  intros Hk Ht H.
  rewrite (generateDeck_with_key env files userPrompt tr Hk Ht).
  destruct H as [->|(response & -> & -> & ->)]; reflexivity.
Qed.

Lemma generateDeck_hides_the_cause_witness :
  generateDeck (rejecting (js "429 quota exceeded")) [] (js "Q3 review") []
    = (Threw (Error (js "Failed to generate deck. Please check your inputs and try again.")),
       [] ++ [Call (deckRequest [] (js "Q3 review"));
              ConsoleError (js "Gemini API Error:")
                (Rejection (js "429 quota exceeded"))]).
Proof.
  apply (@generateDeck_hides_the_cause
           (rejecting (js "429 quota exceeded")) [] (js "Q3 review") (js "k")).
  - reflexivity.
  - reflexivity.
  - left. reflexivity.
Defined.

Lemma generateDeck_cases
      (env : Environment) (files : list FileInput) (userPrompt : jsstring)
      (tr : list Event) :
  generateDeck env files userPrompt tr = (Threw apiKeyFailure, tr) \/
  (exists deck,
     generateDeck env files userPrompt tr
       = (Returned deck, tr ++ [Call (deckRequest files userPrompt)])) \/
  (exists cause,
     generateDeck env files userPrompt tr
       = (Threw deckFailure,
          tr ++ [Call (deckRequest files userPrompt);
                 ConsoleError (js "Gemini API Error:") cause])).
Proof.
  destruct (getClient_cases env tr) as [[Hk _]|(key & Hk & Ht & _)].
  - left. unfold generateDeck, bind.
    now rewrite (getClient_missing env tr Hk).
  - right. rewrite (generateDeck_with_key env files userPrompt tr Hk Ht).
    destruct (service env key (deckRequest files userPrompt))
      as [response|cause]; [|right; eauto].
    destruct (response_text response) as [[|c t]|]; [right; eauto| |right; eauto].
    destruct (JSON_parse (c :: t)) as [deck|]; [left; eauto|right; eauto].
Qed.

(** X3: [generateDeck] ends in one of three ways: the API-key Error with
    nothing sent; a deck after exactly one request and no console line; or
    the Error "Failed to generate deck. ..." after exactly one request and
    one console line.  So it never retries and throws no other error. *)
Theorem generateDeck_outcomes
        (env : Environment) (files : list FileInput) (userPrompt : jsstring)
        (tr : list Event) :
  generateDeck env files userPrompt tr
    = (Threw (Error (js "API Key not found in environment variables")), tr) \/
  (exists deck,
     generateDeck env files userPrompt tr
       = (Returned deck, tr ++ [Call (deckRequest files userPrompt)])) \/
  (exists cause,
     generateDeck env files userPrompt tr
       = (Threw (Error (js "Failed to generate deck. Please check your inputs and try again.")),
          tr ++ [Call (deckRequest files userPrompt);
                 ConsoleError (js "Gemini API Error:") cause])).
Proof. exact (generateDeck_cases env files userPrompt tr). Qed.

Lemma map_filePart_inj (files files' : list FileInput) :
  map filePart files = map filePart files' <->
  map (fun f => (file_type f, file_data f)) files
    = map (fun f => (file_type f, file_data f)) files'.
Proof.
  revert files'. induction files as [|f fs IH]; intros [|g gs]; cbn [map];
    try (split; [reflexivity|reflexivity]);
    try (split; discriminate).
  unfold filePart at 1 3. split; intros H.
  - assert (Ht : file_type f = file_type g) by congruence.
    assert (Hd : file_data f = file_data g) by congruence.
    assert (Hr : map filePart fs = map filePart gs) by congruence.
    rewrite Ht, Hd. f_equal. now apply IH.
  - assert (Ht : file_type f = file_type g) by congruence.
    assert (Hd : file_data f = file_data g) by congruence.
    assert (Hr : map (fun f => (file_type f, file_data f)) fs
                 = map (fun f => (file_type f, file_data f)) gs)
      by congruence.
    rewrite Ht, Hd. f_equal. now apply IH.
Qed.

(** X4: of the uploaded files a request carries the type and the data, in
    order, and nothing else: two uploads give the same deck request (and
    the same brief request) exactly when they agree on the types and data
    of their files, whatever the file names.  The image request carries
    the one text part only, never a file. *)
Theorem requests_carry_type_and_data_only
        (files files' : list FileInput) (userPrompt : jsstring) :
  (deckRequest files userPrompt = deckRequest files' userPrompt <->
   map (fun f => (file_type f, file_data f)) files
     = map (fun f => (file_type f, file_data f)) files') /\
  (briefRequest files userPrompt = briefRequest files' userPrompt <->
   map (fun f => (file_type f, file_data f)) files
     = map (fun f => (file_type f, file_data f)) files') /\
  forall imagePrompt,
    contents (imageRequest imagePrompt) = [textPart imagePrompt].
Proof.
  split; [|split; [|reflexivity]].
  - rewrite <- map_filePart_inj. split; intros H.
    + apply (f_equal contents) in H. cbn [contents deckRequest] in H.
      now apply app_inv_tail in H.
    + unfold deckRequest. now rewrite H.
  - rewrite <- map_filePart_inj. split; intros H.
    + apply (f_equal contents) in H. cbn [contents briefRequest] in H.
      now apply app_inv_tail in H.
    + unfold briefRequest. now rewrite H.
Qed.

(** What [generateInfographic] does once the client exists. *)
Lemma generateInfographic_with_key
      (env : Environment) (files : list FileInput) (userPrompt : jsstring)
      (key : jsstring) (tr : list Event) :
  API_KEY env = Some key -> truthy_string key = true ->
  generateInfographic env files userPrompt tr =
    match service env key (briefRequest files userPrompt) with
    | Returned textResponse =>
        (match service env key (imageRequest (imagePromptOf textResponse)) with
         | Returned imageResponse =>
             extractImage (firstCandidateParts imageResponse)
         | Threw cause => Threw cause
         end,
         tr ++ [Call (briefRequest files userPrompt);
                ConsoleLog (js "Generated Image Prompt:")
                           (imagePromptOf textResponse);
                Call (imageRequest (imagePromptOf textResponse))])
    | Threw cause => (Threw cause, tr ++ [Call (briefRequest files userPrompt)])
    end.
Proof.
  intros Hk Ht. unfold generateInfographic, bind.
  rewrite (getClient_ok env tr Hk Ht).
  unfold generateContent at 1. cbn [apiKey].
  destruct (service env key (briefRequest files userPrompt))
    as [textResponse|cause]; [|reflexivity].
  fold (imagePromptOf textResponse). unfold emit.
  rewrite (getClient_ok env _ Hk Ht).
  unfold generateContent. cbn [apiKey].
  repeat rewrite <- app_assoc. cbn [app].
  destruct (service env key (imageRequest (imagePromptOf textResponse)));
    reflexivity.
Qed.

(** X5: when the request for the brief is rejected, [generateInfographic]
    throws what the call was rejected with, unchanged (there is no [try]
    around it), after that one request: nothing is logged and the image
    model is not asked. *)
Theorem generateInfographic_brief_rejected
        (env : Environment) (files : list FileInput) (userPrompt : jsstring)
        (key : jsstring) (cause : Thrown) (tr : list Event) :
  API_KEY env = Some key ->
  truthy_string key = true ->
  service env key (briefRequest files userPrompt) = Threw cause ->
  generateInfographic env files userPrompt tr
    = (Threw cause, tr ++ [Call (briefRequest files userPrompt)]).
Proof.
  intros Hk Ht Hs.
  rewrite (generateInfographic_with_key env files userPrompt tr Hk Ht).
  now rewrite Hs.
Qed.

Lemma generateInfographic_brief_rejected_witness :
  generateInfographic (rejecting (js "429 quota exceeded")) []
    (js "Q3 review") []
    = (Threw (Rejection (js "429 quota exceeded")),
       [] ++ [Call (briefRequest [] (js "Q3 review"))]).
Proof.
  apply (@generateInfographic_brief_rejected
           (rejecting (js "429 quota exceeded")) [] (js "Q3 review") (js "k"));
    reflexivity.
Defined.

(** X6: when the brief came back and the image request is rejected,
    [generateInfographic] throws what that call was rejected with,
    unchanged, after the brief request, the log line and the image
    request. *)
Theorem generateInfographic_image_rejected
        (env : Environment) (files : list FileInput) (userPrompt : jsstring)
        (key : jsstring) (textResponse : GenerateContentResponse)
        (imagePrompt : jsstring) (cause : Thrown) (tr : list Event) :
  API_KEY env = Some key ->
  truthy_string key = true ->
  service env key (briefRequest files userPrompt) = Returned textResponse ->
  imagePrompt = match response_text textResponse with
                | Some (c :: t) => c :: t
                | _ => defaultBrief
                end ->
  service env key (imageRequest imagePrompt) = Threw cause ->
  generateInfographic env files userPrompt tr
    = (Threw cause,
       tr ++ [Call (briefRequest files userPrompt);
              ConsoleLog (js "Generated Image Prompt:") imagePrompt;
              Call (imageRequest imagePrompt)]).
Proof.
  intros Hk Ht Hs1 Hp Hs2.
  assert (E : imagePromptOf textResponse = imagePrompt).
  { subst imagePrompt. unfold imagePromptOf.
    destruct (response_text textResponse) as [[|c t]|]; reflexivity. }
  rewrite (generateInfographic_with_key env files userPrompt tr Hk Ht).
  now rewrite Hs1, E, Hs2.
Qed.

Lemma generateInfographic_image_rejected_witness :
  generateInfographic (rejectingImages (js "503")) [] (js "Q3 review") []
    = (Threw (Rejection (js "503")),
       [] ++ [Call (briefRequest [] (js "Q3 review"));
              ConsoleLog (js "Generated Image Prompt:") (js "a brief");
              Call (imageRequest (js "a brief"))]).
Proof.
  apply (@generateInfographic_image_rejected
           (rejectingImages (js "503")) [] (js "Q3 review") (js "k")
           {| response_text := Some (js "a brief"); candidates := None |});
    reflexivity.
Defined.

(** X7: the prompt sent to the image model is the text of the brief when
    that is a non-empty string, and otherwise the stock sentence "A
    professional corporate infographic ..."; it is the prompt logged, it is
    never empty, and it is the only part of the image request. *)
Theorem image_prompt_falls_back_to_default
        (env : Environment) (files : list FileInput) (userPrompt : jsstring)
        (key : jsstring) (textResponse : GenerateContentResponse)
        (tr : list Event) :
  API_KEY env = Some key ->
  truthy_string key = true ->
  service env key (briefRequest files userPrompt) = Returned textResponse ->
  exists imagePrompt,
    snd (generateInfographic env files userPrompt tr)
      = tr ++ [Call (briefRequest files userPrompt);
               ConsoleLog (js "Generated Image Prompt:") imagePrompt;
               Call (imageRequest imagePrompt)] /\
    imagePrompt
      = match response_text textResponse with
        | Some (c :: t) => c :: t
        | _ => js "A professional corporate infographic showing key business metrics in navy and teal."
        end /\
    imagePrompt <> [] /\
    contents (imageRequest imagePrompt) = [textPart imagePrompt].
Proof.
  intros Hk Ht Hs.
  exists (imagePromptOf textResponse).
  rewrite (generateInfographic_with_key env files userPrompt tr Hk Ht), Hs.
  split; [reflexivity|].
  unfold imagePromptOf.
  destruct (response_text textResponse) as [[|c t]|]; cbn;
    repeat split; discriminate.
Qed.

Lemma image_prompt_falls_back_to_default_witness :
  exists imagePrompt,
    snd (generateInfographic (answering (js "")) [reportFile]
           (js "Q3 review") [])
      = [] ++ [Call (briefRequest [reportFile] (js "Q3 review"));
               ConsoleLog (js "Generated Image Prompt:") imagePrompt;
               Call (imageRequest imagePrompt)] /\
    imagePrompt
      = match response_text
                {| response_text := Some (js ""); candidates := None |} with
        | Some (c :: t) => c :: t
        | _ => js "A professional corporate infographic showing key business metrics in navy and teal."
        end /\
    imagePrompt <> [] /\
    contents (imageRequest imagePrompt) = [textPart imagePrompt].
Proof.
  apply (@image_prompt_falls_back_to_default
           (answering (js "")) [reportFile] (js "Q3 review") (js "k")
           {| response_text := Some (js ""); candidates := None |});
    reflexivity.
Defined.

(** X8: the extraction loop stops at the first part that has [inlineData]
    and does not look at the payload: when that part carries no [data] the
    result is the string "data:image/png;base64,undefined", and inline
    parts further on are not considered. *)
Theorem extractImage_takes_payload_unchecked
        (pre : list Part) (part : Part) (post : list Part) (blob : Blob) :
  Forall (fun p => inlineData p = None) pre ->
  inlineData part = Some blob ->
  extractImage (pre ++ part :: post)
    = Returned
        match data blob with
        | Some payload => js "data:image/png;base64," ++ payload
        | None => js "data:image/png;base64,undefined"
        end.
Proof.
  intros Hpre Hpart. rewrite (@extractImage_first pre part post blob Hpre Hpart).
  destruct (data blob); reflexivity.
Qed.

Lemma extractImage_takes_payload_unchecked_witness :
  extractImage ([textPart (js "Here is your image")]
                  ++ emptyBlobPart
                  :: [{| text := None; inlineData := Some pngBlob |}])
    = Returned
        match data {| mimeType := Some (js "image/png"); data := None |} with
        | Some payload => js "data:image/png;base64," ++ payload
        | None => js "data:image/png;base64,undefined"
        end.
Proof.
  apply (@extractImage_takes_payload_unchecked
           [textPart (js "Here is your image")] emptyBlobPart).
  - repeat constructor.
  - reflexivity.
Defined.

(* --------------------------------------------------------------------- *)
(** ** The renderer: layouts, series, lists *)

(** X9: [SlideContent] returns the "Unsupported Layout" element exactly
    for the slides whose [layout] is none of the six members of
    [SlideLayout] (the comparison is by string, so also for "title"). *)
Theorem unsupported_layout_iff (fullYear : number) (slide : Slide) :
  SlideContent fullYear slide = El "div" [Text (js "Unsupported Layout")]
  <->
  ~ In (layout slide)
       [SlideLayout.TITLE; SlideLayout.BULLET_POINTS; SlideLayout.TWO_COLUMN;
        SlideLayout.CHART_BAR; SlideLayout.CHART_LINE; SlideLayout.KPI_GRID].
Proof.
  unfold SlideContent.
  destruct (str_eqb (layout slide) SlideLayout.TITLE) eqn:E1;
    [apply str_eqb_eq in E1; split;
     [discriminate|intros H; exfalso; apply H; rewrite E1; cbn; tauto]|].
  destruct (str_eqb (layout slide) SlideLayout.BULLET_POINTS) eqn:E2;
    [apply str_eqb_eq in E2; split;
     [discriminate|intros H; exfalso; apply H; rewrite E2; cbn; tauto]|].
  destruct (str_eqb (layout slide) SlideLayout.TWO_COLUMN) eqn:E3;
    [apply str_eqb_eq in E3; split;
     [discriminate|intros H; exfalso; apply H; rewrite E3; cbn; tauto]|].
  destruct (str_eqb (layout slide) SlideLayout.CHART_BAR) eqn:E4;
    [apply str_eqb_eq in E4; split;
     [discriminate|intros H; exfalso; apply H; rewrite E4; cbn; tauto]|].
  destruct (str_eqb (layout slide) SlideLayout.CHART_LINE) eqn:E5;
    [apply str_eqb_eq in E5; split;
     [discriminate|intros H; exfalso; apply H; rewrite E5; cbn; tauto]|].
  destruct (str_eqb (layout slide) SlideLayout.KPI_GRID) eqn:E6;
    [apply str_eqb_eq in E6; split;
     [discriminate|intros H; exfalso; apply H; rewrite E6; cbn; tauto]|].
  split; [intros _|reflexivity].
  cbn [In]. intros [H|[H|[H|[H|[H|[H|[]]]]]]];
    rewrite <- H, str_eqb_refl in *; discriminate.
Qed.

Lemma click_prev (deck : Deck) (i : Z) : step deck i ClickPrev = prevSlide i.
Proof.
  cbn [step]. destruct (i =? 0)%Z eqn:E; [|reflexivity].
  apply Z.eqb_eq in E. subst i. reflexivity.
Qed.

Lemma click_next (deck : Deck) (i : Z) :
  step deck i ClickNext = nextSlide deck i.
Proof.
  cbn [step]. destruct (i =? slideCount deck - 1)%Z eqn:E; [|reflexivity].
  apply Z.eqb_eq in E. unfold nextSlide. lia.
Qed.

(** X10: for a deck with at least one slide and a cursor inside it, the
    "previous" button is disabled ([currentSlideIndex === 0]) exactly when
    [prevSlide] would leave the cursor in place, and the "next" button
    ([currentSlideIndex === deck.slides.length - 1]) exactly when
    [nextSlide] would. *)
Theorem disabled_buttons_are_the_noops (deck : Deck) (i : Z) :
  (1 <= slideCount deck)%Z ->
  (0 <= i <= slideCount deck - 1)%Z ->
  ((i =? 0)%Z = true <-> prevSlide i = i) /\
  ((i =? slideCount deck - 1)%Z = true <-> nextSlide deck i = i).
Proof.
  intros HN Hi. rewrite !Z.eqb_eq. unfold prevSlide, nextSlide. lia.
Qed.

Lemma disabled_buttons_are_the_noops_witness :
  ((1 =? 0)%Z = true <-> prevSlide 1 = 1%Z) /\
  ((1 =? slideCount sampleDeck - 1)%Z = true <-> nextSlide sampleDeck 1 = 1%Z).
Proof.
  apply (@disabled_buttons_are_the_noops sampleDeck 1);
    change (slideCount sampleDeck) with 3%Z; lia.
Defined.

(** X11: at every cursor and for every deck, ArrowRight does what a click
    on "next" does and ArrowLeft what a click on "previous" does, namely
    [min (i + 1) (N - 1)] and [max (i - 1) 0]; every other key leaves the
    cursor where it is. *)
Theorem arrow_keys_are_the_buttons (deck : Deck) (i : Z) (key : jsstring) :
  step deck i (KeyDown (js "ArrowRight")) = step deck i ClickNext /\
  step deck i (KeyDown (js "ArrowLeft")) = step deck i ClickPrev /\
  step deck i ClickNext = Z.min (i + 1) (slideCount deck - 1) /\
  step deck i ClickPrev = Z.max (i - 1) 0 /\
  (key <> js "ArrowRight" -> key <> js "ArrowLeft" ->
   step deck i (KeyDown key) = i).
Proof.
  rewrite click_prev, click_next. repeat split.
  intros H1 H2. cbn [step]. unfold handleKeyDown.
  destruct (str_eqb key (js "ArrowRight")) eqn:E1;
    [apply str_eqb_eq in E1; contradiction|].
  destruct (str_eqb key (js "ArrowLeft")) eqn:E2;
    [apply str_eqb_eq in E2; contradiction|].
  reflexivity.
Qed.

(** X12: for a cursor inside the deck, "previous" undoes "next" unless
    the cursor is on the last slide, and "next" undoes "previous" unless
    it is on the first; at the two ends the pair moves the cursor one
    slide inwards (when there is one). *)
Theorem next_and_prev_undo_each_other (deck : Deck) (i : Z) :
  (0 <= i <= slideCount deck - 1)%Z ->
  ((i < slideCount deck - 1)%Z -> prevSlide (nextSlide deck i) = i) /\
  ((0 < i)%Z -> nextSlide deck (prevSlide i) = i) /\
  prevSlide (nextSlide deck (slideCount deck - 1))
    = Z.max (slideCount deck - 2) 0 /\
  nextSlide deck (prevSlide 0) = Z.min 1 (slideCount deck - 1).
Proof. intros Hi. unfold prevSlide, nextSlide. lia. Qed.

Lemma next_and_prev_undo_each_other_witness :
  ((1 < slideCount sampleDeck - 1)%Z
   -> prevSlide (nextSlide sampleDeck 1) = 1%Z) /\
  ((0 < 1)%Z -> nextSlide sampleDeck (prevSlide 1) = 1%Z) /\
  prevSlide (nextSlide sampleDeck (slideCount sampleDeck - 1))
    = Z.max (slideCount sampleDeck - 2) 0 /\
  nextSlide sampleDeck (prevSlide 0) = Z.min 1 (slideCount sampleDeck - 1).
Proof.
  apply (@next_and_prev_undo_each_other sampleDeck 1).
  change (slideCount sampleDeck) with 3%Z. lia.
Defined.

Lemma run_cons (deck : Deck) (i : Z) (a : Action) (actions : list Action) :
  run deck i (a :: actions) = run deck (step deck i a) actions.
Proof. reflexivity. Qed.

Lemma run_app (deck : Deck) (i : Z) (xs ys : list Action) :
  run deck i (xs ++ ys) = run deck (run deck i xs) ys.
Proof. unfold run. apply fold_left_app. Qed.

Lemma run_next (deck : Deck) (n : nat) :
  forall i, (i <= slideCount deck - 1)%Z ->
            run deck i (repeat ClickNext n)
              = Z.min (i + Z.of_nat n) (slideCount deck - 1).
Proof.
  induction n as [|n IH]; intros i Hi.
  - cbn [repeat run fold_left]. lia.
  - cbn [repeat]. rewrite run_cons, click_next.
    rewrite IH by (unfold nextSlide; lia).
    unfold nextSlide. lia.
Qed.

Lemma run_prev (deck : Deck) (n : nat) :
  forall i, (0 <= i)%Z ->
            run deck i (repeat ClickPrev n) = Z.max (i - Z.of_nat n) 0.
Proof.
  induction n as [|n IH]; intros i Hi.
  - cbn [repeat run fold_left]. lia.
  - cbn [repeat]. rewrite run_cons, click_prev.
    rewrite IH by (unfold prevSlide; lia).
    unfold prevSlide. lia.
Qed.

(** X13: from a cursor [i] inside the deck, [n] clicks on "next" lead to
    [min (i + n) (N - 1)] and [n] clicks on "previous" to [max (i - n) 0];
    so every slide [j] is reached from every slide [i] by [i - j] clicks
    on "previous" followed by [j - i] clicks on "next". *)
Theorem repeated_clicks (deck : Deck) (i j : Z) (n : nat) :
  (0 <= i <= slideCount deck - 1)%Z ->
  (0 <= j <= slideCount deck - 1)%Z ->
  run deck i (repeat ClickNext n)
    = Z.min (i + Z.of_nat n) (slideCount deck - 1) /\
  run deck i (repeat ClickPrev n) = Z.max (i - Z.of_nat n) 0 /\
  run deck i (repeat ClickPrev (Z.to_nat (i - j))
                ++ repeat ClickNext (Z.to_nat (j - i))) = j.
Proof.
  intros Hi Hj. split; [apply run_next; lia|].
  split; [apply run_prev; lia|].
  rewrite run_app, run_prev by lia.
  rewrite run_next by lia. lia.
Qed.

Lemma repeated_clicks_witness :
  run sampleDeck 2 (repeat ClickNext 5)
    = Z.min (2 + Z.of_nat 5) (slideCount sampleDeck - 1) /\
  run sampleDeck 2 (repeat ClickPrev 5) = Z.max (2 - Z.of_nat 5) 0 /\
  run sampleDeck 2 (repeat ClickPrev (Z.to_nat (2 - 0))
                      ++ repeat ClickNext (Z.to_nat (0 - 2))) = 0%Z.
Proof.
  apply (@repeated_clicks sampleDeck 2 0 5);
    change (slideCount sampleDeck) with 3%Z; lia.
Defined.

(** X14: the main stage fails to render (reading [.layout] of
    [undefined]) exactly when the cursor is outside the deck: negative, or
    at least the number of slides. *)
Theorem stage_needs_cursor_in_range
        (fullYear : number) (deck : Deck) (i : Z) :
  stage fullYear deck i = None <-> (i < 0 \/ slideCount deck <= i)%Z.
Proof.
  unfold stage, index, slideCount.
  destruct (i <? 0)%Z eqn:E.
  - apply Z.ltb_lt in E. split; [intros _; lia|reflexivity].
  - apply Z.ltb_ge in E.
    destruct (nth_error (slides deck) (Z.to_nat i)) as [slide|] eqn:Hn.
    + split; [discriminate|].
      assert (Z.to_nat i < List.length (slides deck))
        by (apply nth_error_Some; congruence).
      lia.
    + apply nth_error_None in Hn. split; [intros _; lia|reflexivity].
Qed.



(** X16: [SlideContent] does not depend on the [id], the [speakerNotes],
    the [chartXLabel] or the [chartYLabel] of the slide, and the footer
    does not depend on them or on the [subtitle] of the deck: changing
    these fields changes nothing on the stage. *)
Theorem unrendered_fields
        (fullYear : number) (deck : Deck) (i : Z) (slide : Slide)
        (id notes : jsstring) (xLabel yLabel : option jsstring)
        (sub : jsstring) :
  let slide' :=
    {| slide_id := id; layout := layout slide; tracker := tracker slide;
       actionTitle := actionTitle slide; kicker := kicker slide;
       content :=
         {| bullets := bullets (content slide);
            leftColumn := leftColumn (content slide);
            rightColumn := rightColumn (content slide);
            chartData := chartData (content slide);
            chartTitle := chartTitle (content slide);
            chartXLabel := xLabel; chartYLabel := yLabel;
            kpiData := kpiData (content slide) |};
       speakerNotes := notes |} in
  let deck' :=
    {| title := title deck; subtitle := sub; author := author deck;
       slides := slides deck |} in
  SlideContent fullYear slide' = SlideContent fullYear slide /\
  Footer deck' i slide' = Footer deck i slide.
Proof. split; reflexivity. Qed.

(** X17: a CHART_BAR slide draws the two series [value] and [value2]
    exactly when [chartData] has a first point whose [value2] is present
    and truthy (a number other than 0, -0 and NaN); in every other case
    it draws the one series [value].  The [value2] of later points plays
    no part. *)
Theorem second_series_iff (fullYear : number) (slide : Slide) :
  layout slide = SlideLayout.CHART_BAR ->
  (bar_series (SlideContent fullYear slide) = [js "value"; js "value2"] <->
   exists point rest x,
     chartData (content slide) = Some (point :: rest) /\
     value2 point = Some x /\ truthy_number x = true) /\
  (bar_series (SlideContent fullYear slide) = [js "value"] <->
   ~ exists point rest x,
       chartData (content slide) = Some (point :: rest) /\
       value2 point = Some x /\ truthy_number x = true).
Proof.
  intros Hl. rewrite (bar_series_chart fullYear slide Hl).
  unfold first_value2, first_of.
  destruct (chartData (content slide)) as [[|point rest]|].
  - split; split; try discriminate; auto.
    + intros (p & r & x & H & _); discriminate.
    + intros _ (p & r & x & H & _); discriminate.
  - destruct (value2 point) as [x|] eqn:Hv.
    + destruct (truthy_number x) eqn:Ht.
      * split; split; try discriminate; auto.
        -- intros _. exists point, rest, x. auto.
        -- intros H. exfalso. apply H. exists point, rest, x. auto.
      * split; split; try discriminate; auto.
        -- intros (p & r & y & H & Hy & Hty).
           injection H as <- <-. congruence.
        -- intros _ (p & r & y & H & Hy & Hty).
           injection H as <- <-. congruence.
    + split; split; try discriminate; auto.
      * intros (p & r & y & H & Hy & Hty).
        injection H as <- <-. congruence.
      * intros _ (p & r & y & H & Hy & Hty).
        injection H as <- <-. congruence.
  - split; split; try discriminate; auto.
    + intros (p & r & x & H & _); discriminate.
    + intros _ (p & r & x & H & _); discriminate.
Qed.

Lemma second_series_iff_witness :
  (bar_series (SlideContent (num 2025) zeroValue2Slide)
     = [js "value"; js "value2"] <->
   exists point rest x,
     chartData (content zeroValue2Slide) = Some (point :: rest) /\
     value2 point = Some x /\ truthy_number x = true) /\
  (bar_series (SlideContent (num 2025) zeroValue2Slide) = [js "value"] <->
   ~ exists point rest x,
       chartData (content zeroValue2Slide) = Some (point :: rest) /\
       value2 point = Some x /\ truthy_number x = true).
Proof.
  apply (@second_series_iff (num 2025) zeroValue2Slide). reflexivity.
Defined.

Lemma texts_BulletList (items : option (list jsstring)) :
  texts (BulletList items)
    = flat_map (fun item => [bullet; item])
        match items with Some l => l | None => [] end.
Proof.
  unfold BulletList. destruct items as [l|]; [|reflexivity].
  cbn [El texts child_map].
  induction l as [|item l IH]; [reflexivity|].
  cbn [map flat_map]. rewrite IH. reflexivity.
Qed.

(** X18: a BULLET_POINTS slide shows the kicker, the action title and the
    tracker, and then its bullets in order, each behind a bullet mark;
    when [bullets] is missing the list is empty and nothing fails. *)
Theorem bullet_slide_texts (fullYear : number) (slide : Slide) :
  layout slide = SlideLayout.BULLET_POINTS ->
  texts (SlideContent fullYear slide)
    = [kicker slide; actionTitle slide; tracker slide]
      ++ flat_map (fun item => [bullet; item])
           match bullets (content slide) with Some l => l | None => [] end.
Proof.
  intros Hl. unfold SlideContent. rewrite Hl.
  change (str_eqb SlideLayout.BULLET_POINTS SlideLayout.TITLE) with false.
  change (str_eqb SlideLayout.BULLET_POINTS SlideLayout.BULLET_POINTS)
    with true.
  cbv iota.
  change (texts (El "div" [SlideHeader slide;
                           El "div" [BulletList (bullets (content slide))]]))
    with ([kicker slide; actionTitle slide; tracker slide]
            ++ (texts (BulletList (bullets (content slide))) ++ []) ++ []).
  now rewrite texts_BulletList, !app_nil_r.
Qed.

Lemma bullet_slide_texts_witness :
  texts (SlideContent (num 2025) bulletSlide)
    = [kicker bulletSlide; actionTitle bulletSlide; tracker bulletSlide]
      ++ flat_map (fun item => [bullet; item])
           match bullets (content bulletSlide) with
           | Some l => l
           | None => []
           end.
Proof.
  apply (@bullet_slide_texts (num 2025) bulletSlide). reflexivity.
Defined.

(** X19: a TWO_COLUMN slide shows the header, then "Key Drivers" with
    the items of [leftColumn], then "Implications" with the items of
    [rightColumn], each item behind a bullet mark; a missing column is an
    empty list. *)
Theorem two_column_slide_texts (fullYear : number) (slide : Slide) :
  layout slide = SlideLayout.TWO_COLUMN ->
  texts (SlideContent fullYear slide)
    = [kicker slide; actionTitle slide; tracker slide]
      ++ [js "Key Drivers"]
      ++ flat_map (fun item => [bullet; item])
           match leftColumn (content slide) with Some l => l | None => [] end
      ++ [js "Implications"]
      ++ flat_map (fun item => [bullet; item])
           match rightColumn (content slide) with Some l => l | None => [] end.
Proof.
  intros Hl. unfold SlideContent. rewrite Hl.
  change (str_eqb SlideLayout.TWO_COLUMN SlideLayout.TITLE) with false.
  change (str_eqb SlideLayout.TWO_COLUMN SlideLayout.BULLET_POINTS)
    with false.
  change (str_eqb SlideLayout.TWO_COLUMN SlideLayout.TWO_COLUMN) with true.
  cbv iota.
  match goal with
  | |- texts (El "div" [SlideHeader slide; El "div" [El "div" [?h1; ?l];
                                                    El "div" [?h2; ?r]]]) = _ =>
      change (texts (El "div" [SlideHeader slide;
                               El "div" [El "div" [h1; l];
                                         El "div" [h2; r]]]))
        with ([kicker slide; actionTitle slide; tracker slide]
                ++ (([js "Key Drivers"] ++ texts l ++ [])
                      ++ ([js "Implications"] ++ texts r ++ []) ++ [])
                ++ [])
  end.
  rewrite !texts_BulletList, !app_nil_r, <- !app_assoc. reflexivity.
Qed.

Lemma two_column_slide_texts_witness :
  texts (SlideContent (num 2025) twoColumnSlide)
    = [kicker twoColumnSlide; actionTitle twoColumnSlide;
       tracker twoColumnSlide]
      ++ [js "Key Drivers"]
      ++ flat_map (fun item => [bullet; item])
           match leftColumn (content twoColumnSlide) with
           | Some l => l
           | None => []
           end
      ++ [js "Implications"]
      ++ flat_map (fun item => [bullet; item])
           match rightColumn (content twoColumnSlide) with
           | Some l => l
           | None => []
           end.
Proof.
  apply (@two_column_slide_texts (num 2025) twoColumnSlide). reflexivity.
Defined.

(* --------------------------------------------------------------------- *)
(** ** The export never fails *)

Lemma plain_app (a b : jsstring) : plain (a ++ b) = plain a && plain b.
Proof. unfold plain. apply forallb_app. Qed.

Lemma plain_js (s : string) : plain (js s) = true.
Proof.
  unfold js, plain. induction (list_ascii_of_string s) as [|a l IH];
    [reflexivity|].
  cbn [map forallb]. rewrite IH, andb_true_r.
  apply orb_true_iff. left. apply N.ltb_lt.
  pose proof (N_ascii_bounded a). lia.
Qed.

Lemma plain_zeros (n : Z) : plain (zeros n) = true.
Proof.
  unfold zeros. induction (Z.to_nat n) as [|k IH]; [reflexivity|].
  cbn [repeat plain forallb]. fold (plain (repeat 48%N k)). now rewrite IH.
Qed.

Lemma plain_firstn (n : nat) (s : jsstring) :
  plain s = true -> plain (firstn n s) = true.
Proof.
  revert s. induction n as [|n IH]; intros [|c r]; try reflexivity.
  cbn [firstn plain forallb]. rewrite !andb_true_iff.
  intros [Hc Hr]. split; [exact Hc|now apply IH].
Qed.

Lemma plain_skipn (n : nat) (s : jsstring) :
  plain s = true -> plain (skipn n s) = true.
Proof.
  revert s. induction n as [|n IH]; intros [|c r]; try reflexivity; auto.
  cbn [skipn plain forallb]. rewrite andb_true_iff.
  intros [_ Hr]. now apply IH.
Qed.

Lemma plain_N_to_js (n : N) : plain (N_to_js n) = true.
Proof. apply plain_js. Qed.

Lemma plain_format_digits (ds : jsstring) (k n : Z) :
  plain ds = true -> plain (format_digits ds k n) = true.
Proof.
  intros Hd. unfold format_digits.
  destruct ((k <=? n) && (n <=? 21))%Z.
  { now rewrite plain_app, Hd, plain_zeros. }
  destruct ((0 <? n) && (n <=? 21))%Z.
  { now rewrite !plain_app, plain_firstn, plain_skipn, plain_js. }
  destruct ((-6 <? n) && (n <=? 0))%Z.
  { now rewrite !plain_app, plain_js, plain_zeros, Hd. }
  assert (Hs : forall b : bool, plain (if b then js "-" else js "+") = true)
    by (intros []; reflexivity).
  cbv zeta.
  destruct ds as [|d [|d' rest]].
  - now rewrite !plain_app, Hs, plain_N_to_js.
  - now rewrite !plain_app, Hs, plain_N_to_js, Hd.
  - change (d :: d' :: rest) with ([d] ++ d' :: rest) in Hd.
    rewrite plain_app in Hd. apply andb_true_iff in Hd as [H1 H2].
    now rewrite !plain_app, Hs, plain_N_to_js, H1, H2.
Qed.

Lemma plain_positive_to_string (m : positive) (e : Z) :
  plain (positive_to_string m e) = true.
Proof.
  unfold positive_to_string.
  destruct (fraction_of m e) as [p q].
  destruct (shortest_digits 17 (S754_finite false m e) p q
              (magnitude 700 p q (-330)) 1) as [[s k]|].
  - destruct (s =? 10 ^ k)%Z; apply plain_format_digits;
      [apply plain_js|apply plain_N_to_js].
  - apply plain_format_digits, plain_N_to_js.
Qed.

Lemma plain_NumberToString (x : number) : plain (NumberToString x) = true.
Proof.
  destruct x as [s|s| |s m e]; try destruct s; try reflexivity;
    cbn [NumberToString].
  - now rewrite plain_app, plain_positive_to_string.
  - apply plain_positive_to_string.
Qed.

(** The text of any value with valid strings is accepted by
    [encodeURIComponent]: numbers are written with ASCII characters, and
    a lone surrogate in a string is written as an escape. *)
Lemma exportable_any (v : JsValue) :
  valid_value v = true ->
  forall indent, blank indent ->
                 exportable (SerializeJSONProperty indent v).
Proof.
  induction v as [ |b|x|s|elements IH|members IH] using JsValue_induction;
    intros Hv indent Hi.
  - now apply exportable_plain.
  - destruct b; now apply exportable_plain.
  - cbn [SerializeJSONProperty]. apply exportable_plain.
    destruct (isFinite x); [apply plain_NumberToString|reflexivity].
  - now apply exportable_quoted.
  - destruct elements as [|x xs]; [now apply exportable_plain|].
    assert (Hi' : blank (indent ++ gap))
      by (apply blank_app; [exact Hi|exact blank_gap]).
    change (SerializeJSONProperty indent (JArray (x :: xs)))
      with ([91%N; 10%N] ++ (indent ++ gap)
              ++ join ([44%N; 10%N] ++ (indent ++ gap))
                   (map (SerializeJSONProperty (indent ++ gap)) (x :: xs))
              ++ [10%N] ++ indent ++ [93%N]).
    cbn [valid_value] in Hv.
    repeat apply exportable_app;
      try (apply exportable_plain; first [reflexivity|now apply plain_blank]).
    apply exportable_join.
    + apply exportable_app; apply exportable_plain;
        [reflexivity|now apply plain_blank].
    + apply Forall_forall. intros t Ht. apply in_map_iff in Ht.
      destruct Ht as (y & <- & Hy).
      rewrite Forall_forall in IH. rewrite forallb_forall in Hv.
      apply IH; auto.
  - destruct members as [|[k x] xs]; [now apply exportable_plain|].
    assert (Hi' : blank (indent ++ gap))
      by (apply blank_app; [exact Hi|exact blank_gap]).
    set (member := fun kv : list N * JsValue =>
                     QuoteJSONString (fst kv) ++ js ":" ++ js " "
                     ++ SerializeJSONProperty (indent ++ gap) (snd kv)).
    change (SerializeJSONProperty indent (JObject ((k, x) :: xs)))
      with ([123%N; 10%N] ++ (indent ++ gap)
              ++ join ([44%N; 10%N] ++ (indent ++ gap))
                   (map member ((k, x) :: xs))
              ++ [10%N] ++ indent ++ [125%N]).
    cbn [valid_value] in Hv.
    repeat apply exportable_app;
      try (apply exportable_plain; first [reflexivity|now apply plain_blank]).
    apply exportable_join.
    + apply exportable_app; apply exportable_plain;
        [reflexivity|now apply plain_blank].
    + apply Forall_forall. intros t Ht. apply in_map_iff in Ht.
      destruct Ht as (y & <- & Hy).
      rewrite Forall_forall in IH. rewrite forallb_forall in Hv.
      specialize (Hv y Hy). apply andb_true_iff in Hv as [Hk Hv].
      unfold member.
      apply exportable_app; [now apply exportable_quoted|].
      apply exportable_app; [now apply exportable_plain|].
      apply exportable_app; [now apply exportable_plain|].
      apply IH; auto.
Qed.

Lemma uri_safe_app (a b : jsstring) :
  uri_safe (a ++ b) = uri_safe a && uri_safe b.
Proof. unfold uri_safe. apply forallb_app. Qed.

Lemma upper_hex_unreserved (d : N) :
  (d < 16)%N -> is_unreserved (upper_hex d) = true.
Proof.
  intros Hd. unfold upper_hex, is_unreserved.
  destruct (d <? 10)%N eqn:E.
  - apply N.ltb_lt in E.
    replace ((48 <=? 48 + d)%N && (48 + d <=? 57)%N) with true.
    + now rewrite !orb_true_r.
    + symmetry. apply andb_true_iff. split; apply N.leb_le; lia.
  - apply N.ltb_ge in E.
    replace ((65 <=? 55 + d)%N && (55 + d <=? 90)%N) with true.
    + reflexivity.
    + symmetry. apply andb_true_iff. split; apply N.leb_le; lia.
Qed.

Lemma uri_safe_percent (b : N) : (b < 256)%N -> uri_safe (percent b) = true.
Proof.
  intros Hb. unfold percent, uri_safe. cbn [forallb].
  rewrite !upper_hex_unreserved.
  - reflexivity.
  - apply N.mod_lt. lia.
  - apply N.Div0.div_lt_upper_bound. lia.
Qed.

Lemma uri_safe_escape (cp : N) :
  (cp < 1114112)%N -> uri_safe (escape_code_point cp) = true.
Proof.
  intros Hcp. unfold escape_code_point, utf8.
  assert (M : forall a, (a mod 64 < 64)%N) by (intros; apply N.mod_lt; lia).
  destruct (cp <? 128)%N eqn:E1.
  { apply N.ltb_lt in E1. cbn [flat_map]. rewrite app_nil_r.
    apply uri_safe_percent. lia. }
  destruct (cp <? 2048)%N eqn:E2.
  { apply N.ltb_lt in E2. cbn [flat_map].
    rewrite !uri_safe_app, !uri_safe_percent; try reflexivity.
    - pose proof (M cp). lia.
    - assert (cp / 64 < 32)%N
        by (apply N.Div0.div_lt_upper_bound; lia). lia. }
  destruct (cp <? 65536)%N eqn:E3.
  { apply N.ltb_lt in E3. cbn [flat_map].
    rewrite !uri_safe_app, !uri_safe_percent; try reflexivity.
    - pose proof (M cp). lia.
    - pose proof (M (cp / 64)%N). lia.
    - assert (cp / 4096 < 16)%N
        by (apply N.Div0.div_lt_upper_bound; lia). lia. }
  cbn [flat_map].
  rewrite !uri_safe_app, !uri_safe_percent; try reflexivity.
  - pose proof (M cp). lia.
  - pose proof (M (cp / 64)%N). lia.
  - pose proof (M (cp / 4096)%N). lia.
  - assert (cp / 262144 < 5)%N
      by (apply N.Div0.div_lt_upper_bound; lia). lia.
Qed.

Lemma encode_uri_safe_bounded (n : nat) :
  forall s e, List.length s <= n -> valid_string s = true ->
              encodeURIComponent s = Some e -> uri_safe e = true.
Proof.
  induction n as [|n IH]; intros s e Hn Hv He.
  - destruct s; [|cbn in Hn; lia]. injection He as <-. reflexivity.
  - destruct s as [|c r]; [injection He as <-; reflexivity|].
    cbn [List.length] in Hn.
    cbn [valid_string forallb] in Hv. apply andb_true_iff in Hv as [Hc Hv].
    apply N.ltb_lt in Hc. cbn [encodeURIComponent] in He.
    destruct (is_unreserved c) eqn:Hu.
    { destruct (encodeURIComponent r) as [e'|] eqn:Hr; [|discriminate].
      injection He as <-. cbn [uri_safe forallb]. rewrite Hu. cbn [orb andb].
      apply (IH r e'); [lia|exact Hv|exact Hr]. }
    destruct (is_low_surrogate c); [discriminate|].
    destruct (is_high_surrogate c) eqn:Hh.
    { destruct r as [|d r']; [discriminate|].
      destruct (is_low_surrogate d) eqn:Hl; [|discriminate].
      destruct (encodeURIComponent r') as [e'|] eqn:Hr; [|discriminate].
      injection He as <-. rewrite uri_safe_app.
      cbn [valid_string forallb] in Hv. apply andb_true_iff in Hv as [_ Hv].
      cbn [List.length] in Hn.
      rewrite (IH r' e') by (lia || assumption).
      rewrite andb_true_r. apply uri_safe_escape.
      destruct (surrogate_bounds c) as [Bh _].
      destruct (surrogate_bounds d) as [_ Bl].
      apply Bh in Hh. apply Bl in Hl. unfold pair_code_point. lia. }
    destruct (encodeURIComponent r) as [e'|] eqn:Hr; [|discriminate].
    injection He as <-. rewrite uri_safe_app.
    rewrite (IH r e') by (lia || assumption).
    rewrite andb_true_r. apply uri_safe_escape. lia.
Qed.

(** X20: for every deck (every value with strings of 16-bit code units),
    whatever numbers and lone surrogates it holds, the "Export JSON"
    handler computes its link without a URIError, and the link is
    "data:text/json;charset=utf-8," followed only by unreserved
    characters and [%]. *)
Theorem export_always_succeeds (deck : JsValue) :
  valid_value deck = true ->
  exists body,
    exportDeck deck = Some (js "data:text/json;charset=utf-8," ++ body) /\
    forallb (fun c => is_unreserved c || (c =? 37)%N) body = true.
Proof.
  intros Hv.
  destruct (exportable_any deck Hv (indent := []) eq_refl) as [Hs [e He]].
  fold (JSON_stringify deck) in Hs, He.
  exists e. split.
  - unfold exportDeck. now rewrite He.
  - exact (@encode_uri_safe_bounded _ _ e (le_n _) Hs He).
Qed.

Lemma export_always_succeeds_witness :
  exists body,
    exportDeck overflowDeck
      = Some (js "data:text/json;charset=utf-8," ++ body) /\
    forallb (fun c => is_unreserved c || (c =? 37)%N) body = true.
Proof.
  apply (@export_always_succeeds overflowDeck). vm_compute. reflexivity.
Defined.

(* --------------------------------------------------------------------- *)
(** ** App.tsx: files, generation, views *)

Lemma filter_index_remove (A : Type) (k : nat) (xs : list A) :
  forall base,
    filter_index (fun i => negb (i =? k)) base xs
    = if k <? base then xs
      else firstn (k - base) xs ++ skipn (S (k - base)) xs.
Proof.
  induction xs as [|x r IH]; intros base.
  - destruct (k <? base); [reflexivity|].
    now rewrite firstn_nil, skipn_nil.
  - cbn [filter_index]. rewrite IH.
    destruct (k <? base) eqn:E1.
    + apply Nat.ltb_lt in E1.
      replace (base =? k) with false by (symmetry; apply Nat.eqb_neq; lia).
      replace (k <? S base) with true by (symmetry; apply Nat.ltb_lt; lia).
      reflexivity.
    + apply Nat.ltb_ge in E1.
      destruct (base =? k) eqn:E2.
      * apply Nat.eqb_eq in E2. subst k.
        replace (base <? S base) with true
          by (symmetry; apply Nat.ltb_lt; lia).
        rewrite Nat.sub_diag. reflexivity.
      * apply Nat.eqb_neq in E2.
        replace (k <? S base) with false
          by (symmetry; apply Nat.ltb_ge; lia).
        replace (k - base) with (S (k - S base)) by lia.
        reflexivity.
Qed.

(** X21: [removeFile] takes out the one file at the position given and
    keeps the others in order (a file uploaded twice stays once); for a
    position past the end the list is unchanged. *)
Theorem removeFile_takes_one_out (index : nat) (s : AppState) :
  files (removeFile index s)
    = firstn index (files s) ++ skipn (S index) (files s) /\
  (index < List.length (files s) ->
   S (List.length (files (removeFile index s))) = List.length (files s)) /\
  (List.length (files s) <= index -> files (removeFile index s) = files s) /\
  (forall i, i < index ->
     nth_error (files (removeFile index s)) i = nth_error (files s) i) /\
  (forall i, index <= i ->
     nth_error (files (removeFile index s)) i = nth_error (files s) (S i)).
Proof.
  assert (E : files (removeFile index s)
              = firstn index (files s) ++ skipn (S index) (files s)).
  { unfold removeFile. cbn [files setFiles].
    rewrite filter_index_remove. cbn [Nat.ltb Nat.leb].
    now rewrite Nat.sub_0_r. }
  rewrite E. split; [reflexivity|]. split; [|split; [|split]].
  - intros H. rewrite length_app, length_firstn, length_skipn. lia.
  - intros H. rewrite firstn_all2 by lia. rewrite skipn_all2 by lia.
    apply app_nil_r.
  - intros i Hi.
    destruct (Nat.lt_ge_cases i (List.length (files s))) as [Hl|Hl].
    + rewrite nth_error_app1 by (rewrite length_firstn; lia).
      rewrite nth_error_firstn. apply Nat.ltb_lt in Hi. now rewrite Hi.
    + rewrite firstn_all2 by lia. rewrite skipn_all2 by lia.
      now rewrite app_nil_r.
  - intros i Hi.
    destruct (Nat.lt_ge_cases index (List.length (files s))) as [Hl|Hl].
    + rewrite nth_error_app2 by (rewrite length_firstn; lia).
      rewrite length_firstn, nth_error_skipn.
      f_equal. lia.
    + rewrite firstn_all2 by lia. rewrite skipn_all2 by lia.
      rewrite app_nil_r.
      transitivity (@None FileInput);
        [|symmetry]; apply nth_error_None; lia.
Qed.

Lemma shownMessage_nonempty (M : jsstring) (err : Thrown) : shownMessage M err <> [].
Proof.
  unfold shownMessage.
  destruct (message M err) as [|c m]; cbn; discriminate.
Qed.

Lemma handleGenerate_refuses (M : jsstring) (env : Environment) (s : AppState)
      (tr : list Event) :
  (List.length (files s) =? 0) && (List.length (prompt s) <? 10) = true ->
  handleGenerate M env s tr = (Returned (setErrorMsg (Some guardMessage) s), tr).
Proof.
  intros H. unfold handleGenerate.
  now rewrite H.
Qed.

Lemma handleGenerate_started (M : jsstring) (env : Environment) (s : AppState)
      (tr : list Event) :
  (List.length (files s) =? 0) && (List.length (prompt s) <? 10) = false ->
  handleGenerate M env s tr =
    match mode s with
    | DECK =>
        match generateDeck env (files s) (prompt s) tr with
        | (Returned deck, tr') =>
            (Returned
               (setStatus COMPLETE
                  (setGeneratedDeck deck
                     (setStatus ANALYZING (setErrorMsg None s)))), tr')
        | (Threw err, tr') =>
            (Returned
               (setStatus ERROR
                  (setErrorMsg (Some (shownMessage M err))
                     (setStatus ANALYZING (setErrorMsg None s)))), tr')
        end
    | INFOGRAPHIC =>
        match generateInfographic env (files s) (prompt s) tr with
        | (Returned imageUrl, tr') =>
            (Returned
               (setStatus COMPLETE
                  (setGeneratedInfographic (Some imageUrl)
                     (setStatus ANALYZING (setErrorMsg None s)))), tr')
        | (Threw err, tr') =>
            (Returned
               (setStatus ERROR
                  (setErrorMsg (Some (shownMessage M err))
                     (setStatus ANALYZING (setErrorMsg None s)))), tr')
        end
    end.
Proof.
  intros H. unfold handleGenerate.
  rewrite H. unfold try_catch, bind, ret.
  cbn [mode files prompt setStatus setErrorMsg].
  destruct (mode s).
  - destruct (generateDeck env (files s) (prompt s) tr) as [[deck|err] tr'];
      reflexivity.
  - destruct (generateInfographic env (files s) (prompt s) tr)
      as [[imageUrl|err] tr']; reflexivity.
Qed.

Lemma guard_cases (s : AppState) :
  ((List.length (files s) =? 0) && (List.length (prompt s) <? 10) = true /\
   files s = [] /\ List.length (prompt s) < 10) \/
  ((List.length (files s) =? 0) && (List.length (prompt s) <? 10) = false /\
   (files s <> [] \/ 10 <= List.length (prompt s))).
Proof.
  destruct (files s) as [|f fs]; cbn [List.length Nat.eqb andb].
  - destruct (List.length (prompt s) <? 10) eqn:E.
    + left. apply Nat.ltb_lt in E. auto.
    + right. apply Nat.ltb_ge in E. auto.
  - right. split; [reflexivity|]. left. discriminate.
Qed.

(** X22: with no file and a prompt of fewer than ten code units
    [handleGenerate] sends nothing and changes only the error message, to
    "Please provide files or a detailed prompt to start."; the Generate
    button, however, is disabled only when the prompt is empty, so a
    prompt of one to nine code units can be submitted and is refused. *)
Theorem handleGenerate_guard (M : jsstring) (env : Environment) (s : AppState)
        (tr : list Event) :
  files s = [] ->
  List.length (prompt s) < 10 ->
  handleGenerate M env s tr
    = (Returned
         (setErrorMsg
            (Some (js "Please provide files or a detailed prompt to start."))
            s), tr) /\
  (generateDisabled s = true <-> prompt s = []).
Proof.
  intros Hf Hp. split.
  - apply handleGenerate_refuses. rewrite Hf. cbn [List.length Nat.eqb andb].
    now apply Nat.ltb_lt.
  - unfold generateDisabled. rewrite Hf. cbn [List.length Nat.eqb andb].
    destruct (prompt s); cbn; split; congruence.
Qed.

Lemma handleGenerate_guard_witness :
  handleGenerate (js "Unexpected token") (answering oneSlideText)
    (setPrompt (js "Q3 review") initialState) []
    = (Returned
         (setErrorMsg
            (Some (js "Please provide files or a detailed prompt to start."))
            (setPrompt (js "Q3 review") initialState)), []) /\
  (generateDisabled (setPrompt (js "Q3 review") initialState) = true
   <-> prompt (setPrompt (js "Q3 review") initialState) = []).
Proof.
  apply (@handleGenerate_guard (js "Unexpected token")
           (answering oneSlideText) (setPrompt (js "Q3 review") initialState)
           []).
  - reflexivity.
  - cbn. lia.
Defined.

(** X23: [handleGenerate] never throws, leaves the files, the prompt, the
    mode and the dark mode as they are, and ends in one of three ways:
    refused by the guard with nothing sent; status COMPLETE with no error
    message; or status ERROR with both results untouched and a non-empty
    error message, which the banner shows. *)
Theorem handleGenerate_settles (M : jsstring) (env : Environment) (s : AppState)
        (tr : list Event) :
  exists s' tr',
    handleGenerate M env s tr = (Returned s', tr') /\
    files s' = files s /\ prompt s' = prompt s /\ mode s' = mode s /\
    darkMode s' = darkMode s /\
    ((files s = [] /\ List.length (prompt s) < 10 /\
      s' = setErrorMsg (Some guardMessage) s /\ tr' = tr) \/
     (status s' = COMPLETE /\ errorMsg s' = None) \/
     (status s' = ERROR /\
      generatedDeck s' = generatedDeck s /\
      generatedInfographic s' = generatedInfographic s /\
      exists m, errorMsg s' = Some m /\ m <> [] /\ banner s' = Some m)).
Proof.
  destruct (guard_cases s) as [(G & Hf & Hp)|(G & _)].
  - rewrite (handleGenerate_refuses M env s tr G).
    do 2 eexists. split; [reflexivity|]. repeat split. left. auto.
  - rewrite (handleGenerate_started M env s tr G).
    assert (B : forall err s0,
               banner (setStatus ERROR
                         (setErrorMsg (Some (shownMessage M err)) s0))
               = Some (shownMessage M err)).
    { intros err s0. unfold banner. cbn [errorMsg setStatus setErrorMsg].
      pose proof (shownMessage_nonempty M err) as Hn.
      destruct (shownMessage M err); [congruence|reflexivity]. }
    assert (F : forall err s0,
               let s' := setStatus ERROR
                           (setErrorMsg (Some (shownMessage M err))
                              (setStatus ANALYZING (setErrorMsg None s0))) in
               status s' = ERROR /\
               generatedDeck s' = generatedDeck s0 /\
               generatedInfographic s' = generatedInfographic s0 /\
               exists m, errorMsg s' = Some m /\ m <> [] /\
                         banner s' = Some m).
    { intros err s0 s'. split; [reflexivity|]. split; [reflexivity|].
      split; [reflexivity|]. exists (shownMessage M err).
      split; [reflexivity|]. split; [apply shownMessage_nonempty|apply B]. }
    destruct (mode s) eqn:Hm.
    + destruct (generateDeck env (files s) (prompt s) tr)
        as [[deck|err] tr']; do 2 eexists; (split; [reflexivity|]);
        (split; [reflexivity|]); (split; [reflexivity|]);
        (split; [exact Hm|]); (split; [reflexivity|]).
      * right; left. split; reflexivity.
      * right; right. apply F.
    + destruct (generateInfographic env (files s) (prompt s) tr)
        as [[imageUrl|err] tr']; do 2 eexists; (split; [reflexivity|]);
        (split; [reflexivity|]); (split; [reflexivity|]);
        (split; [exact Hm|]); (split; [reflexivity|]).
      * right; left. split; reflexivity.
      * right; right. apply F.
Qed.

(** X24: in DECK mode the error message after [handleGenerate] is absent
    or one of three sentences of the sources: the guard's, the API-key
    Error's, or "Failed to generate deck. ..."; what the service rejected
    with never reaches the user. *)
Theorem deck_mode_messages (M : jsstring) (env : Environment) (s : AppState)
        (tr : list Event) :
  mode s = DECK ->
  exists s' tr',
    handleGenerate M env s tr = (Returned s', tr') /\
    (errorMsg s' = None \/
     errorMsg s'
       = Some (js "Please provide files or a detailed prompt to start.") \/
     errorMsg s' = Some (js "API Key not found in environment variables") \/
     errorMsg s'
       = Some (js "Failed to generate deck. Please check your inputs and try again.")).
Proof.
  intros Hm.
  destruct (guard_cases s) as [(G & _)|(G & _)].
  - rewrite (handleGenerate_refuses M env s tr G).
    do 2 eexists. split; [reflexivity|]. right; left. reflexivity.
  - rewrite (handleGenerate_started M env s tr G), Hm.
    destruct (generateDeck_cases env (files s) (prompt s) tr)
      as [E|[[deck E]|[cause E]]]; rewrite E;
      do 2 eexists; (split; [reflexivity|]).
    + right; right; left. reflexivity.
    + left. reflexivity.
    + right; right; right. reflexivity.
Qed.

Lemma deck_mode_messages_witness :
  exists s' tr',
    handleGenerate (js "Unexpected token")
      (rejecting (js "429 quota exceeded")) (promptedState DECK) []
      = (Returned s', tr') /\
    (errorMsg s' = None \/
     errorMsg s'
       = Some (js "Please provide files or a detailed prompt to start.") \/
     errorMsg s' = Some (js "API Key not found in environment variables") \/
     errorMsg s'
       = Some (js "Failed to generate deck. Please check your inputs and try again.")).
Proof.
  apply (@deck_mode_messages (js "Unexpected token")
           (rejecting (js "429 quota exceeded")) (promptedState DECK) []).
  reflexivity.
Defined.

(** X25: in DECK mode, when the response text parses, the parsed value is
    stored and the status is COMPLETE; the deck view is shown only if the
    value is truthy.  For [null], [false], [0] or the empty string the
    dashboard comes back, with no error message. *)
Theorem falsy_deck_is_not_shown (M : jsstring)
        (env : Environment) (s : AppState) (key : jsstring)
        (response : GenerateContentResponse) (t : jsstring) (deck : JsValue)
        (tr : list Event) :
  mode s = DECK ->
  (files s <> [] \/ 10 <= List.length (prompt s)) ->
  generatedInfographic s = None ->
  API_KEY env = Some key ->
  truthy_string key = true ->
  service env key (deckRequest (files s) (prompt s)) = Returned response ->
  response_text response = Some t ->
  JSON_parse t = Some deck ->
  exists s',
    handleGenerate M env s tr
      = (Returned s', tr ++ [Call (deckRequest (files s) (prompt s))]) /\
    status s' = COMPLETE /\ generatedDeck s' = deck /\ errorMsg s' = None /\
    App s' = if truthy_value deck then DeckScreen deck
             else InputScreen (map file_name (files s)) false
                    (js "Generate Deck") None.
Proof.
  intros Hm Hg Hi Hk Ht Hs Hr Hp.
  destruct (guard_cases s) as [(_ & Hf & Hl)|(G & _)];
    [destruct Hg; [contradiction|lia]|].
  rewrite (handleGenerate_started M env s tr G), Hm.
  rewrite (generateDeck_parsed env (files s) (prompt s) tr Hk Ht Hs Hr Hp).
  eexists. split; [reflexivity|]. repeat split.
  unfold App. cbn [status generatedDeck generatedInfographic setStatus
                   setGeneratedDeck setErrorMsg status_is andb].
  destruct (truthy_value deck); [reflexivity|].
  rewrite Hi. unfold idleScreen, banner, generateDisabled.
  cbn [status mode files prompt errorMsg setStatus setGeneratedDeck
       setErrorMsg status_is orb truthy_opt_string].
  rewrite Hm. f_equal.
  destruct Hg as [Hg|Hg].
  - destruct (files s); [contradiction|reflexivity].
  - destruct (prompt s); [cbn in Hg; lia|].
    cbn [List.length Nat.eqb]. apply andb_false_r.
Qed.

Lemma falsy_deck_is_not_shown_witness :
  exists s',
    handleGenerate (js "Unexpected token") (answering (js "null")) (promptedState DECK) []
      = (Returned s',
         [] ++ [Call (deckRequest (files (promptedState DECK))
                        (prompt (promptedState DECK)))]) /\
    status s' = COMPLETE /\ generatedDeck s' = JNull /\ errorMsg s' = None /\
    App s' = if truthy_value JNull then DeckScreen JNull
             else InputScreen (map file_name (files (promptedState DECK)))
                    false (js "Generate Deck") None.
Proof.
  apply (@falsy_deck_is_not_shown (js "Unexpected token")
           (answering (js "null")) (promptedState DECK) (js "k")
           {| response_text := Some (js "null"); candidates := None |}
           (js "null") JNull []);
    try reflexivity.
  right. cbn. lia.
Defined.

(** X26: in INFOGRAPHIC mode, when the request for the brief is rejected,
    the status is ERROR and the error message is the message of the
    rejection, or "An unexpected error occurred." when that is empty; the
    stored infographic is untouched. *)
Theorem infographic_rejection_is_shown (M : jsstring)
        (env : Environment) (s : AppState) (key reason : jsstring)
        (tr : list Event) :
  mode s = INFOGRAPHIC ->
  (files s <> [] \/ 10 <= List.length (prompt s)) ->
  API_KEY env = Some key ->
  truthy_string key = true ->
  service env key (briefRequest (files s) (prompt s))
    = Threw (Rejection reason) ->
  exists s',
    handleGenerate M env s tr
      = (Returned s', tr ++ [Call (briefRequest (files s) (prompt s))]) /\
    status s' = ERROR /\
    errorMsg s'
      = Some (if truthy_string reason then reason
              else js "An unexpected error occurred.") /\
    generatedInfographic s' = generatedInfographic s.
Proof.
  intros Hm Hg Hk Ht Hs.
  destruct (guard_cases s) as [(_ & Hf & Hl)|(G & _)];
    [destruct Hg; [contradiction|lia]|].
  rewrite (handleGenerate_started M env s tr G), Hm.
  rewrite (generateInfographic_with_key env (files s) (prompt s) tr Hk Ht), Hs.
  eexists. split; [reflexivity|]. repeat split.
Qed.

Lemma infographic_rejection_is_shown_witness :
  exists s',
    handleGenerate (js "Unexpected token") (rejecting (js "")) (promptedState INFOGRAPHIC) []
      = (Returned s',
         [] ++ [Call (briefRequest (files (promptedState INFOGRAPHIC))
                        (prompt (promptedState INFOGRAPHIC)))]) /\
    status s' = ERROR /\
    errorMsg s'
      = Some (if truthy_string (js "") then js ""
              else js "An unexpected error occurred.") /\
    generatedInfographic s'
      = generatedInfographic (promptedState INFOGRAPHIC).
Proof.
  apply (@infographic_rejection_is_shown (js "Unexpected token")
           (rejecting (js "")) (promptedState INFOGRAPHIC) (js "k") (js "") []);
    try reflexivity.
  right. cbn. lia.
Defined.

Lemma extractImage_nonempty (ps : list Part) (uri : jsstring) :
  extractImage ps = Returned uri -> truthy_string uri = true.
Proof.
  induction ps as [|p ps IH]; cbn [extractImage]; [discriminate|].
  destruct (inlineData p); [|exact IH].
  intros H. injection H as <-. reflexivity.
Qed.

Lemma generateInfographic_nonempty
      (env : Environment) (fs : list FileInput) (userPrompt : jsstring)
      (tr tr' : list Event) (uri : jsstring) :
  generateInfographic env fs userPrompt tr = (Returned uri, tr') ->
  truthy_string uri = true.
Proof.
  intros H.
  destruct (generateInfographic_returned _ _ _ _ H)
    as (key & r1 & r2 & _ & _ & _ & _ & Hx).
  exact (extractImage_nonempty _ Hx).
Qed.

(** X27: in INFOGRAPHIC mode, when [generateInfographic] returns, the
    status is COMPLETE, the error message is cleared, and the infographic
    view is shown with the returned data URI as its link and image. *)
Theorem infographic_is_shown
        (M : jsstring) (env : Environment) (s : AppState) (uri : jsstring)
        (tr tr' : list Event) :
  mode s = INFOGRAPHIC ->
  (files s <> [] \/ 10 <= List.length (prompt s)) ->
  truthy_value (generatedDeck s) = false ->
  generateInfographic env (files s) (prompt s) tr = (Returned uri, tr') ->
  exists s',
    handleGenerate M env s tr = (Returned s', tr') /\
    status s' = COMPLETE /\ errorMsg s' = None /\
    generatedInfographic s' = Some uri /\
    App s' = InfographicScreen uri.
Proof.
  intros Hm Hg Hd HG.
  destruct (guard_cases s) as [(_ & Hf & Hl)|(G & _)];
    [destruct Hg; [contradiction|lia]|].
  rewrite (handleGenerate_started M env s tr G), Hm, HG.
  eexists. split; [reflexivity|]. repeat split.
  unfold App. cbn [status generatedDeck generatedInfographic setStatus
                   setGeneratedInfographic setErrorMsg status_is andb].
  now rewrite Hd, (generateInfographic_nonempty _ _ _ _ HG).
Qed.

Lemma infographic_is_shown_witness :
  exists s',
    handleGenerate (js "Unexpected token") (responding firstCandidateResponse)
      (promptedState INFOGRAPHIC) []
      = (Returned s',
         snd (generateInfographic (responding firstCandidateResponse)
                (files (promptedState INFOGRAPHIC))
                (prompt (promptedState INFOGRAPHIC)) [])) /\
    status s' = COMPLETE /\ errorMsg s' = None /\
    generatedInfographic s' = Some (js "data:image/png;base64,iVBORw0KGgo=") /\
    App s' = InfographicScreen (js "data:image/png;base64,iVBORw0KGgo=").
Proof.
  apply (@infographic_is_shown (js "Unexpected token")
           (responding firstCandidateResponse) (promptedState INFOGRAPHIC)
           (js "data:image/png;base64,iVBORw0KGgo=") []).
  - reflexivity.
  - right. cbn. lia.
  - reflexivity.
  - reflexivity.
Defined.







(* --------------------------------------------------------------------- *)
(** ** App.tsx: reading the chosen files *)

Lemma split_without (sep : code_unit) (s : jsstring) :
  ~ In sep s -> split sep s = [s].
Proof.
  induction s as [|c r IH]; intros H; [reflexivity|].
  cbn [split].
  destruct (c =? sep)%N eqn:E.
  - apply N.eqb_eq in E. exfalso. apply H. now left.
  - rewrite IH; [reflexivity|]. intros Hin. apply H. now right.
Qed.

Lemma split_at_first (sep : code_unit) (a b : jsstring) :
  ~ In sep a -> split sep (a ++ sep :: b) = a :: split sep b.
Proof.
  induction a as [|c r IH]; intros H.
  - cbn [app split]. now rewrite N.eqb_refl.
  - cbn [app split].
    destruct (c =? sep)%N eqn:E.
    + apply N.eqb_eq in E. exfalso. apply H. now left.
    + rewrite IH; [reflexivity|]. intros Hin. apply H. now right.
Qed.

(** What is kept of a data URL: the text between the first comma and the
    next one. *)
Lemma base64Of_data_url (head payload : jsstring) :
  ~ In 44%N head -> ~ In 44%N payload ->
  base64Of (head ++ js "," ++ payload) = Some payload.
Proof.
  intros Hh Hp. unfold base64Of.
  change (head ++ js "," ++ payload) with (head ++ 44%N :: payload).
  rewrite (@split_at_first 44%N head payload Hh), (@split_without 44%N payload Hp). reflexivity.
Qed.

Lemma readChosen_spec (chosen : list File) :
  forall alerts newFiles,
    readChosen chosen = Some (alerts, newFiles) ->
    alerts = map tooLargeAlert (filter tooLarge chosen) /\
    Forall2 (fun file stored =>
               file_name stored = File_name file /\
               file_type stored = File_type file /\
               base64Of (File_result file) = Some (file_data stored))
            (filter (fun file => negb (tooLarge file)) chosen) newFiles.
Proof.
  induction chosen as [|file rest IH]; intros alerts newFiles H.
  - injection H as <- <-. split; [reflexivity|constructor].
  - cbn [readChosen] in H. cbn [filter].
    destruct (tooLarge file) eqn:Et; cbn [negb].
    + destruct (readChosen rest) as [[alerts' newFiles']|]; [|discriminate].
      injection H as <- <-.
      destruct (IH _ _ eq_refl) as [Ha Hn]. split; [|exact Hn].
      cbn [map]. now rewrite Ha.
    + destruct (base64Of (File_result file)) as [base64|] eqn:Eb;
        [|discriminate].
      destruct (readChosen rest) as [[alerts' newFiles']|]; [|discriminate].
      injection H as <- <-.
      destruct (IH _ _ eq_refl) as [Ha Hn]. split; [exact Ha|].
      constructor; [|exact Hn]. cbn. auto.
Qed.

(** X29: of the chosen files [handleFileChange] keeps exactly those of at
    most 5 MiB (5242880 bytes, a file of exactly that size included), in
    the order chosen and after the files already held, with their names
    and types and, as data, the second comma-separated piece of what the
    reader delivered; each larger file is skipped with one alert naming
    it, and the remaining files are still read.  Nothing else of the state
    changes. *)
Theorem handleFileChange_keeps_small_files
        (chosen : list File) (s s' : AppState) (alerts : list jsstring) :
  handleFileChange (Some chosen) s = Some (alerts, s') ->
  alerts
    = map (fun file =>
             js "File " ++ File_name file ++ js " is too large. Max 5MB.")
          (filter (fun file => (5242880 <? File_size file)%N) chosen) /\
  (exists newFiles,
     files s' = files s ++ newFiles /\
     Forall2 (fun file stored =>
                file_name stored = File_name file /\
                file_type stored = File_type file /\
                base64Of (File_result file) = Some (file_data stored))
             (filter (fun file => (File_size file <=? 5242880)%N) chosen)
             newFiles) /\
  status s' = status s /\ mode s' = mode s /\ prompt s' = prompt s /\
  generatedDeck s' = generatedDeck s /\
  generatedInfographic s' = generatedInfographic s /\
  errorMsg s' = errorMsg s /\ darkMode s' = darkMode s.
Proof.
  intros H.
  assert (Hf : forall l : list File,
             filter (fun file => (File_size file <=? 5242880)%N) l
             = filter (fun file => negb (tooLarge file)) l).
  { intros l. apply filter_ext. intros file. unfold tooLarge.
    change (5 * 1024 * 1024)%N with 5242880%N.
    now rewrite N.leb_antisym. }
  rewrite Hf.
  destruct chosen as [|file rest].
  - injection H as <- <-. split; [reflexivity|].
    split; [|repeat split]. exists []. split; [|constructor].
    now rewrite app_nil_r.
  - unfold handleFileChange in H.
    destruct (readChosen (file :: rest)) as [[alerts' newFiles]|] eqn:E;
      [|discriminate].
    injection H as <- <-.
    destruct (@readChosen_spec _ _ _ E) as [Ha Hn].
    split; [exact Ha|]. split; [|repeat split].
    exists newFiles. split; [reflexivity|exact Hn].
Qed.

Lemma handleFileChange_keeps_small_files_witness :
  [js "File talk.mp4 is too large. Max 5MB."]
    = map (fun file =>
             js "File " ++ File_name file ++ js " is too large. Max 5MB.")
          (filter (fun file => (5242880 <? File_size file)%N)
                  [reportUpload; videoUpload; scanUpload]) /\
  (exists newFiles,
     files (setFiles keptUploads initialState)
       = files initialState ++ newFiles /\
     Forall2 (fun file stored =>
                file_name stored = File_name file /\
                file_type stored = File_type file /\
                base64Of (File_result file) = Some (file_data stored))
             (filter (fun file => (File_size file <=? 5242880)%N)
                     [reportUpload; videoUpload; scanUpload])
             newFiles) /\
  status (setFiles keptUploads initialState) = status initialState /\
  mode (setFiles keptUploads initialState) = mode initialState /\
  prompt (setFiles keptUploads initialState) = prompt initialState /\
  generatedDeck (setFiles keptUploads initialState)
    = generatedDeck initialState /\
  generatedInfographic (setFiles keptUploads initialState)
    = generatedInfographic initialState /\
  errorMsg (setFiles keptUploads initialState) = errorMsg initialState /\
  darkMode (setFiles keptUploads initialState) = darkMode initialState.
Proof.
  apply (@handleFileChange_keeps_small_files
           [reportUpload; videoUpload; scanUpload] initialState).
  vm_compute. reflexivity.
Defined.

Lemma readChosen_total (chosen : list File) :
  Forall (fun file =>
            exists payload,
              File_result file
                = js "data:" ++ File_type file ++ js ";base64," ++ payload /\
              ~ In 44%N (File_type file) /\ ~ In 44%N payload) chosen ->
  exists alerts newFiles,
    readChosen chosen = Some (alerts, newFiles) /\
    Forall2 (fun file stored =>
               File_result file
                 = js "data:" ++ File_type file ++ js ";base64,"
                   ++ file_data stored)
            (filter (fun file => negb (tooLarge file)) chosen) newFiles.
Proof.
  intros H. induction H as [|file rest (payload & Hr & Ht & Hp) _ IH].
  - exists [], []. split; [reflexivity|constructor].
  - destruct IH as (alerts & newFiles & E & Hn).
    cbn [readChosen filter]. rewrite E.
    destruct (tooLarge file); cbn [negb].
    + do 2 eexists. split; [reflexivity|exact Hn].
    + assert (Hb : base64Of (File_result file) = Some payload).
      { rewrite Hr.
        replace (js "data:" ++ File_type file ++ js ";base64," ++ payload)
          with ((js "data:" ++ File_type file ++ js ";base64")
                  ++ js "," ++ payload)
          by (now rewrite <- !app_assoc).
        apply base64Of_data_url; [|exact Hp].
        intros Hin. apply in_app_or in Hin as [Hin|Hin].
        - cbn in Hin.
          repeat (destruct Hin as [Hin|Hin]; [discriminate|]). exact Hin.
        - apply in_app_or in Hin as [Hin|Hin]; [exact (Ht Hin)|].
          cbn in Hin.
          repeat (destruct Hin as [Hin|Hin]; [discriminate|]). exact Hin. }
      rewrite Hb. do 2 eexists. split; [reflexivity|].
      constructor; [exact Hr|exact Hn].
Qed.

(** X30: when the reader delivers for every chosen file a data URL
    "data:<type>;base64,<payload>" (no comma in the type or the payload),
    [handleFileChange] stores for each file kept exactly that payload,
    so the part sent for it to the service carries the file's type as
    [mimeType] and the payload as [data]. *)
Theorem handleFileChange_stores_the_payload
        (chosen : list File) (s : AppState) :
  Forall (fun file =>
            exists payload,
              File_result file
                = js "data:" ++ File_type file ++ js ";base64," ++ payload /\
              ~ In 44%N (File_type file) /\ ~ In 44%N payload) chosen ->
  exists alerts newFiles,
    handleFileChange (Some chosen) s
      = Some (alerts, setFiles (files s ++ newFiles) s) /\
    Forall2 (fun file stored =>
               File_result file
                 = js "data:" ++ File_type file ++ js ";base64,"
                   ++ file_data stored /\
               filePart stored
                 = {| text := None;
                      inlineData :=
                        Some {| mimeType := Some (File_type file);
                                data := Some (file_data stored) |} |})
            (filter (fun file => (File_size file <=? 5242880)%N) chosen)
            newFiles.
Proof.
  intros H.
  assert (Hf : filter (fun file => (File_size file <=? 5242880)%N) chosen
               = filter (fun file => negb (tooLarge file)) chosen).
  { apply filter_ext. intros file. unfold tooLarge.
    change (5 * 1024 * 1024)%N with 5242880%N.
    now rewrite N.leb_antisym. }
  rewrite Hf.
  destruct (@readChosen_total chosen H) as (alerts & newFiles & E & Hn).
  destruct (@readChosen_spec _ _ _ E) as [_ Hs].
  assert (Hboth :
    Forall2 (fun file stored =>
               File_result file
                 = js "data:" ++ File_type file ++ js ";base64,"
                   ++ file_data stored /\
               filePart stored
                 = {| text := None;
                      inlineData :=
                        Some {| mimeType := Some (File_type file);
                                data := Some (file_data stored) |} |})
            (filter (fun file => negb (tooLarge file)) chosen) newFiles).
  { clear E Hf H. revert Hs.
    induction Hn as [|file stored fs ns Hr _ IH]; intros Hs;
      [constructor|].
    inversion Hs as [|? ? ? ? (_ & Hty & _) Hs']; subst.
    constructor; [|exact (IH Hs')].
    split; [exact Hr|]. unfold filePart. now rewrite Hty. }
  destruct chosen as [|file rest].
  - cbn in E. injection E as <- <-.
    exists [], []. split; [|exact Hboth].
    cbn [handleFileChange]. rewrite app_nil_r.
    now destruct s.
  - exists alerts, newFiles. split; [|exact Hboth].
    unfold handleFileChange. now rewrite E.
Qed.

Lemma handleFileChange_stores_the_payload_witness :
  exists alerts newFiles,
    handleFileChange (Some [reportUpload; videoUpload; scanUpload])
      initialState
      = Some (alerts, setFiles (files initialState ++ newFiles) initialState) /\
    Forall2 (fun file stored =>
               File_result file
                 = js "data:" ++ File_type file ++ js ";base64,"
                   ++ file_data stored /\
               filePart stored
                 = {| text := None;
                      inlineData :=
                        Some {| mimeType := Some (File_type file);
                                data := Some (file_data stored) |} |})
            (filter (fun file => (File_size file <=? 5242880)%N)
                    [reportUpload; videoUpload; scanUpload])
            newFiles.
Proof.
  apply (@handleFileChange_stores_the_payload
           [reportUpload; videoUpload; scanUpload] initialState).
  repeat constructor.
  - exists (js "JVBERi0="). split; [reflexivity|].
    split; vm_compute; intuition discriminate.
  - exists (js "AAAA"). split; [reflexivity|].
    split; vm_compute; intuition discriminate.
  - exists (js "iVBORw0KGgo="). split; [reflexivity|].
    split; vm_compute; intuition discriminate.
Defined.
